(** * Widget data retrieval: the backend route handlers and the chart normalizer

    A shallow embedding of

    - [backend/routes/widgets.js]: the handlers of
      [GET /widget-data/:widgetId] and [GET /widget-data/:widgetId/latest],
      together with the relational queries they send to the store;
    - [CustomLineChart.tsx]: [formatChartData], which reshapes the response
      of the first handler into chart rows.

    The relational store is modelled by lists of rows, one list per table,
    and each SQL statement by the list pipeline it denotes (join, WHERE,
    ORDER BY, LIMIT, select list).  Instants are integers (milliseconds since
    the epoch, in a session whose days have 24 hours); telemetry values are
    integers; the identifiers of widgets are [uuid]s, kept as the text the
    store prints for them.  A statement fails only for the reasons its own
    text gives (a refused LIMIT, a failed cast, a parameter that is no
    [uuid]); an unreachable store is not modelled. *)

From Stdlib Require Import ZArith QArith Ascii.
From stdpp Require Import base gmap strings list sorting pretty.

Local Open Scope Z_scope.

(** ** JavaScript values used by the handlers *)

Module Js.

(** The numbers [parseInt] can return: [NaN] or an integer.  (JavaScript
    numbers are doubles, so an integer beyond 2^53 is rounded to the nearest
    one; the model keeps the exact integer, which differs only for counts
    that no table reaches.) *)
Inductive number :=
| NaN
| Num (z : Z).

#[global] Instance number_eq_dec : EqDecision number.
Proof. solve_decision. Defined.

(** White space skipped by [parseInt] (the ASCII part of it). *)
Definition is_white_space (c : ascii) : bool :=
  match Ascii.N_of_ascii c with
  | 9%N | 10%N | 11%N | 12%N | 13%N | 32%N => true
  | _ => false
  end.

Fixpoint trim_start (s : string) : string :=
  match s with
  | String c s' => if is_white_space c then trim_start s' else s
  | EmptyString => EmptyString
  end.

(** Value of a character as a digit in a radix up to 36. *)
Definition digit_value (c : ascii) : option Z :=
  let n := Z.of_N (Ascii.N_of_ascii c) in
  if (48 <=? n) && (n <=? 57) then Some (n - 48)
  else if (97 <=? n) && (n <=? 122) then Some (n - 97 + 10)
  else if (65 <=? n) && (n <=? 90) then Some (n - 65 + 10)
  else None.

(** The longest prefix of [s] made of radix-[R] digits, as an integer;
    [acc] is [None] until a first digit has been read. *)
Fixpoint parse_digits (R : Z) (s : string) (acc : option Z) : option Z :=
  match s with
  | String c s' =>
      match digit_value c with
      | Some d =>
          if d <? R then parse_digits R s' (Some (R * default 0 acc + d))
          else acc
      | None => acc
      end
  | EmptyString => acc
  end.

(** [parseInt(string)] with no radix argument. *)
Definition parseInt (s : string) : number :=
  let S0 := trim_start s in
  let '(sign, S1) :=
    match S0 with
    | String "-"%char r => (-1, r)
    | String "+"%char r => (1, r)
    | _ => (1, S0)
    end in
  let '(R, S2) :=
    match S1 with
    | String "0"%char (String "x"%char r) => (16, r)
    | String "0"%char (String "X"%char r) => (16, r)
    | _ => (10, S1)
    end in
  match parse_digits R S2 None with
  | None => NaN
  | Some m => Num (sign * m)
  end.

(** [o[k] = v] on an object made by an object literal, as far as the
    properties of [o] itself go, which are what [JSON.stringify],
    [Object.entries] and [Object.values] see.  The key [__proto__] names
    the accessor of [Object.prototype]: assigning to it replaces the
    prototype of [o] when [v] is an object and does nothing otherwise, and
    in neither case gives [o] a property. *)
Definition assign {V} (k : string) (v : V) (o : gmap string V) : gmap string V :=
  if decide (k = "__proto__") then o else <[k := v]> o.

End Js.

(** ** The relational store *)

Module Pg.

(** A value stored under a key of a telemetry payload ([jsonb]), by what
    the store and JavaScript make of its text:
    - [JNull]: JSON [null];
    - [JNumeric n]: a number, or a string spelling one;
    - [JText s]: any other text ([abc], [true], ...), which neither
      PostgreSQL's [numeric] input nor [parseFloat] reads as a number. *)
Inductive jsonb_value :=
| JNull
| JNumeric (n : Z)
| JText (s : string).

Record device_row := {
  d_id : Z;
  d_company_id : Z;
  d_device_type_id : Z;
  d_hierarchy_id : option Z;
  d_location : option string       (* metadata->>'location' *)
}.

Record device_data_row := {
  dd_device_id : Z;
  dd_serial_number : string;
  dd_created_at : Z;
  dd_data : gmap string jsonb_value
}.

Record device_latest_row := {
  dl_device_id : Z;
  dl_serial_number : string;
  dl_updated_at : Z;
  dl_data : gmap string jsonb_value
}.

Record device_type_row := {
  dt_id : Z;
  dt_type_name : string
}.

Record hierarchy_row := {
  h_id : Z;
  h_parent_id : option Z
}.

Record widget_type_row := {
  wt_id : string;
  wt_name : string;
  wt_component_name : string
}.

(** One entry of [data_source_config.seriesConfig]. *)
Record series_config := {
  displayName : string;
  dataSourceProperty : string;
  unit : option string;
  propertyName : string
}.

Record data_source_config := {
  deviceTypeId : Z;
  seriesConfig : option (list series_config)
}.

Record widget_definition_row := {
  wd_id : string;
  wd_widget_type_id : string;
  wd_data_source_config : data_source_config
}.

(** How the executor schedules the select list of a sorted, limited query:
    below the sort (computed for every row that passes WHERE) or on the
    rows that survive LIMIT.  PostgreSQL chooses per plan; the model keeps
    both. *)
Inductive select_eval :=
| BeforeSort
| AfterLimit.

Record database := {
  device : list device_row;
  device_data : list device_data_row;
  device_latest : list device_latest_row;
  device_type : list device_type_row;
  hierarchy : list hierarchy_row;
  widget_definitions : list widget_definition_row;
  widget_types : list widget_type_row;
  now : Z;                          (* NOW() *)
  plan : select_eval
}.

Inductive error :=
| limit_must_not_be_negative
| invalid_input_syntax_for_type_bigint
| value_out_of_range_for_type_bigint
| invalid_input_syntax_for_type_numeric
| invalid_input_syntax_for_type_uuid.

Definition bigint_max : Z := 9223372036854775807.

Inductive result (A : Type) :=
| Ok (a : A)
| Err (e : error).
Arguments Ok {A} a.
Arguments Err {A} e.

Definition result_bind {A B} (r : result A) (k : A → result B) : result B :=
  match r with
  | Ok a => k a
  | Err e => Err e
  end.

(** Evaluate a select list on every row, left to right; the first failure
    aborts the statement. *)
Fixpoint select_list {A B} (f : A → result B) (l : list A) : result (list B) :=
  match l with
  | [] => Ok []
  | x :: l' =>
      result_bind (f x) (λ y,
      result_bind (select_list f l') (λ ys, Ok (y :: ys)))
  end.

(** *** [uuid] *)

(** The primary keys of the widget tables are of type [uuid].  A [uuid]
    value is kept as the text the store prints for it: its 32 hexadecimal
    digits in lower case, in groups of 8, 4, 4, 4 and 12 with hyphens in
    between. *)

Definition is_xdigit (c : ascii) : bool :=
  let n := Ascii.N_of_ascii c in
  ((48 <=? n) && (n <=? 57) || (97 <=? n) && (n <=? 102)
   || (65 <=? n) && (n <=? 70))%N.

Definition to_lower (c : ascii) : ascii :=
  let n := Ascii.N_of_ascii c in
  if ((65 <=? n) && (n <=? 90))%N then Ascii.ascii_of_N (n + 32) else c.

(** The loop of the store's [uuid] reader: [count] bytes are still to be
    read and the next is byte [i]; a byte is two hexadecimal digits, and a
    hyphen may follow a byte of odd index other than the last.  The result
    is the digits read, in lower case, and the text left over. *)
Fixpoint uuid_bytes (count : nat) (i : Z) (src : string)
  : option (string * string) :=
  match count with
  | O => Some (EmptyString, src)
  | S count' =>
      match src with
      | String a (String b src') =>
          if is_xdigit a && is_xdigit b then
            let src'' :=
              match src' with
              | String "-"%char rest =>
                  if Z.odd i && (i <? 15) then rest else src'
              | _ => src'
              end in
            match uuid_bytes count' (i + 1) src'' with
            | Some (digits, rest) =>
                Some (String (to_lower a) (String (to_lower b) digits), rest)
            | None => None
            end
          else None
      | _ => None
      end
  end.

(** The text of the [uuid] with the 32 digits [digits]. *)
Definition uuid_out (digits : string) : string :=
  String.substring 0 8 digits +:+ "-" +:+ String.substring 8 4 digits +:+ "-"
  +:+ String.substring 12 4 digits +:+ "-" +:+ String.substring 16 4 digits
  +:+ "-" +:+ String.substring 20 12 digits.

(** The [uuid] a text stands for where the store expects one, as for the
    parameter of a comparison with a [uuid] column: 16 bytes as above,
    optionally in braces, and nothing else. *)
Definition uuid_in (source : string) : result string :=
  let '(closing, src) :=
    match source with
    | String "{"%char src => ("}", src)
    | _ => (EmptyString, source)
    end in
  match uuid_bytes 16 0 src with
  | Some (digits, rest) =>
      if decide (rest = closing) then Ok (uuid_out digits)
      else Err invalid_input_syntax_for_type_uuid
  | None => Err invalid_input_syntax_for_type_uuid
  end.

(** *** [seriesQuery] *)

(** [FROM device_data dd INNER JOIN device d ON dd.device_id = d.id] *)
Definition device_data_join_device (db : database)
  : list (device_data_row * device_row) :=
  dd ← device_data db;
  d ← filter (λ d, dd_device_id dd = d_id d) (device db);
  [(dd, d)].

(** The WHERE clause; [window] is the interval of [timeFilter], absent
    when [timeFilter] is the empty string. *)
Definition series_where (prop : string) (companyId deviceTypeId : Z)
    (window : option Z) (now : Z) (j : device_data_row * device_row) : Prop :=
  d_company_id j.2 = companyId
  ∧ d_device_type_id j.2 = deviceTypeId
  ∧ match window with
    | Some i => now - i ≤ dd_created_at j.1
    | None => True
    end
  ∧ is_Some (dd_data j.1 !! prop).

#[global] Instance series_where_dec prop companyId deviceTypeId window now j :
  Decision (series_where prop companyId deviceTypeId window now j).
Proof. unfold series_where; destruct window; apply _. Defined.

(** [ORDER BY dd.created_at ASC].  Among rows of equal instant the store is
    free to choose; the queries below take the order of a merge sort. *)
Definition created_at_le {B} (a b : device_data_row * B) : Prop :=
  dd_created_at a.1 ≤ dd_created_at b.1.

#[global] Instance created_at_le_dec {B} (a b : device_data_row * B) :
  Decision (created_at_le a b).
Proof. unfold created_at_le; apply _. Defined.

(** [(dd.data->>$1)::numeric]: SQL NULL for JSON null or a missing key,
    an error for text that is not a number. *)
Definition numeric_of_field (v : option jsonb_value) : result (option Z) :=
  match v with
  | None | Some JNull => Ok None
  | Some (JNumeric n) => Ok (Some n)
  | Some (JText _) => Err invalid_input_syntax_for_type_numeric
  end.

Definition coalesce (v : option Z) (d : Z) : Z := default d v.

(** A row of the result of [seriesQuery]. *)
Record series_row := {
  timestamp : Z;
  serial_number : string;
  value : Z
}.

(** The select list of [seriesQuery], which also hands on the joined row
    it was computed from. *)
Definition series_select (prop : string) (j : device_data_row * device_row)
  : result ((device_data_row * device_row) * series_row) :=
  result_bind (numeric_of_field (dd_data j.1 !! prop)) (λ v,
    Ok (j, {| timestamp := dd_created_at j.1;
              serial_number := dd_serial_number j.1;
              value := coalesce v 0 |})).

(** The statement with its four parameters.  [limit] is what
    [parseInt(limit)] gave: the driver sends [NaN] as the text [NaN],
    which is not a [bigint], and a count beyond [bigint] does not fit; a
    negative count is refused; a count of zero returns before any row is
    fetched. *)
Definition seriesQuery_src (db : database) (prop : string)
    (companyId deviceTypeId : Z) (limit : Js.number) (window : option Z)
  : result (list ((device_data_row * device_row) * series_row)) :=
  match limit with
  | Js.NaN => Err invalid_input_syntax_for_type_bigint
  | Js.Num n =>
      if decide (bigint_max < n) then Err value_out_of_range_for_type_bigint
      else if decide (n < 0) then Err limit_must_not_be_negative
      else
        let selected :=
          filter (series_where prop companyId deviceTypeId window (now db))
                 (device_data_join_device db) in
        match plan db with
        | AfterLimit =>
            select_list (series_select prop)
              (take (Z.to_nat n) (merge_sort created_at_le selected))
        | BeforeSort =>
            if decide (n = 0) then Ok []
            else
              result_bind (select_list (series_select prop) selected) (λ rows,
                Ok (take (Z.to_nat n)
                      (merge_sort (λ a b, created_at_le a.1 b.1) rows)))
        end
  end.

Definition seriesQuery (db : database) (prop : string)
    (companyId deviceTypeId : Z) (limit : Js.number) (window : option Z)
  : result (list series_row) :=
  result_bind (seriesQuery_src db prop companyId deviceTypeId limit window)
    (λ rows, Ok (rows.*2)).

End Pg.

(** ** The route handlers of [routes/widgets.js] *)

Module Widgets.
Import Pg.

(** What a handler reads of the request: [req.params], [req.query] and the
    principal [req.user] set by the [protect] middleware.  A query parameter
    is absent or a string. *)
Record request := {
  params_widgetId : string;
  query_limit : option string;
  query_timeRange : option string;
  query_hierarchyId : option string;
  query_deviceId : option string;
  user_company_id : Z
}.

(** The statements a handler sends through [database.query], with their
    parameters. *)
Inductive statement :=
| SelectWidgetDefinition (widgetId : string)
| SelectDeviceData (prop : string) (companyId deviceTypeId : Z)
    (limit : Js.number) (window : option Z)
| SelectDeviceLatest (prop : string) (companyId deviceTypeId : Z).

Definition is_telemetry (q : statement) : bool :=
  match q with
  | SelectWidgetDefinition _ => false
  | SelectDeviceData _ _ _ _ _ | SelectDeviceLatest _ _ _ => true
  end.

(** The body of a handler's [try] block: it may throw a store error, and it
    appends every statement it sends to the trace. *)
Definition Handler (A : Type) : Type :=
  list statement → result A * list statement.

Definition ret {A} (a : A) : Handler A := λ tr, (Ok a, tr).

Definition bind {A B} (m : Handler A) (k : A → Handler B) : Handler B :=
  λ tr, match m tr with
        | (Ok a, tr') => k a tr'
        | (Err e, tr') => (Err e, tr')
        end.

Notation "x ⇐ m ;; k" := (bind m (λ x, k))
  (at level 100, m at next level, right associativity).

(** [await database.query(text, params)] *)
Definition database_query {A} (q : statement) (answer : result A) : Handler A :=
  λ tr, (answer, tr ++ [q]).

(** [for (const x of xs) { ... }] over an accumulator. *)
Fixpoint for_of {A S} (xs : list A) (body : S → A → Handler S) (acc : S)
  : Handler S :=
  match xs with
  | [] => ret acc
  | x :: xs' => acc' ⇐ body acc x ;; for_of xs' body acc'
  end.

(** The widget lookup, shared by both handlers:
    [FROM widget_definitions wd INNER JOIN widget_types wt
     ON wd.widget_type_id = wt.id WHERE wd.id = $1]. *)
Definition widgetQuery (db : database) (widgetId : string)
  : list (widget_definition_row * widget_type_row) :=
  filter (λ j, wd_id j.1 = widgetId)
    (wd ← widget_definitions db;
     wt ← filter (λ wt, wd_widget_type_id wd = wt_id wt) (widget_types db);
     [(wd, wt)]).

(** The lookup as the store answers it: [$1] is compared with the [uuid]
    column [wd.id], so its text is read as a [uuid], and the statement
    fails when it is none. *)
Definition widgetLookup (db : database) (widgetId : string)
  : result (list (widget_definition_row * widget_type_row)) :=
  result_bind (uuid_in widgetId) (λ id, Ok (widgetQuery db id)).

Definition hour : Z := 3600000.
Definition day : Z := 24 * hour.

(** The [if / else if] chain on [timeRange]: the interval subtracted from
    [NOW()], or nothing when [timeFilter] stays empty. *)
Definition timeFilter (timeRange : string) : option Z :=
  if decide (timeRange = "1h") then Some (1 * hour)
  else if decide (timeRange = "6h") then Some (6 * hour)
  else if decide (timeRange = "24h") then Some (24 * hour)
  else if decide (timeRange = "7d") then Some (7 * day)
  else if decide (timeRange = "30d") then Some (30 * day)
  else None.

(** [parseInt(limit)] after [const { limit = 200 } = req.query]. *)
Definition limit_param (req : request) : Js.number :=
  match query_limit req with
  | None => Js.Num 200
  | Some s => Js.parseInt s
  end.

(** [timeFilter] after [const { timeRange = '24h' } = req.query]. *)
Definition window_param (req : request) : option Z :=
  timeFilter (default "24h" (query_timeRange req)).

(** [parseFloat(row.value) || 0] on the text of an integer. *)
Definition parseFloat_or_0 (v : Z) : Z := if decide (v = 0) then 0 else v.

Record data_point := {
  dp_timestamp : Z;
  dp_serialNumber : string;
  dp_value : Z
}.

(** [seriesData[s.displayName]] *)
Record series_entry := {
  data : list data_point;
  entry_unit : string;
  entry_propertyName : string
}.

Definition data_point_of_row (row : series_row) : data_point :=
  {| dp_timestamp := timestamp row;
     dp_serialNumber := serial_number row;
     dp_value := parseFloat_or_0 (value row) |}.

Definition series_entry_of (s : series_config) (rows : list series_row)
  : series_entry :=
  {| data := data_point_of_row <$> rows;
     entry_unit := default "" (unit s);
     entry_propertyName := propertyName s |}.

(** What [res.json] sends.  [success] is [true] exactly for [Json200]. *)
Inductive response (D : Type) :=
| Json200 (data : D) (config : option data_source_config)
    (message : option string)
| Json404 (message : string)
| Json500 (message : string) (error : Pg.error).
Arguments Json200 {D} data config message.
Arguments Json404 {D} message.
Arguments Json500 {D} message error.

Definition status {D} (r : response D) : Z :=
  match r with
  | Json200 _ _ _ => 200
  | Json404 _ => 404
  | Json500 _ _ => 500
  end.

Definition success {D} (r : response D) : bool :=
  match r with
  | Json200 _ _ _ => true
  | _ => false
  end.

Definition message {D} (r : response D) : option string :=
  match r with
  | Json200 _ _ m => m
  | Json404 m | Json500 m _ => Some m
  end.

(** The statement the loop sends for a series, and the store's answer. *)
Definition statement_of (req : request) (dataSourceConfig : data_source_config)
    (s : series_config) : statement :=
  SelectDeviceData (dataSourceProperty s) (user_company_id req)
    (deviceTypeId dataSourceConfig) (limit_param req) (window_param req).

Definition fetch (db : database) (req : request)
    (dataSourceConfig : data_source_config) (s : series_config)
  : result (list series_row) :=
  seriesQuery db (dataSourceProperty s) (user_company_id req)
    (deviceTypeId dataSourceConfig) (limit_param req) (window_param req).

(** One turn of the loop over [seriesConfig] in the widget-data handler;
    [seriesData], made by [{}], is what the response lists of it: its own
    properties. *)
Definition load_series (db : database) (req : request)
    (dataSourceConfig : data_source_config)
    (seriesData : gmap string series_entry) (s : series_config)
  : Handler (gmap string series_entry) :=
  seriesResult ⇐
    database_query (statement_of req dataSourceConfig s)
                   (fetch db req dataSourceConfig s) ;;
  ret (Js.assign (displayName s) (series_entry_of s seriesResult) seriesData).

(** The [try] block of [GET /widget-data/:widgetId]. *)
Definition widget_data_try (db : database) (req : request)
  : Handler (response (gmap string series_entry)) :=
  let widgetId := params_widgetId req in
  widgetResult ⇐
    database_query (SelectWidgetDefinition widgetId)
                   (widgetLookup db widgetId) ;;
  match widgetResult with
  | [] => ret (Json404 "Widget not found")
  | widget :: _ =>
      let dataSourceConfig := wd_data_source_config widget.1 in
      match seriesConfig dataSourceConfig with
      | None | Some [] =>
          ret (Json200 ∅ (Some dataSourceConfig) (Some "No series configured"))
      | Some series =>
          seriesData ⇐ for_of series (load_series db req dataSourceConfig) ∅ ;;
          ret (Json200 seriesData (Some dataSourceConfig) None)
      end
  end.

(** [GET /widget-data/:widgetId]: the response and the statements sent. *)
Definition widget_data (db : database) (req : request)
  : response (gmap string series_entry) * list statement :=
  match widget_data_try db req [] with
  | (Ok r, tr) => (r, tr)
  | (Err e, tr) => (Json500 "Failed to fetch widget data" e, tr)
  end.

(** *** [GET /widget-data/:widgetId/latest] *)

(** [FROM device_latest dl INNER JOIN device d ON dl.device_id = d.id
     INNER JOIN device_type dt ON d.device_type_id = dt.id] *)
Definition device_latest_join (db : database)
  : list (device_latest_row * device_row * device_type_row) :=
  dl ← device_latest db;
  d ← filter (λ d, dl_device_id dl = d_id d) (device db);
  dt ← filter (λ dt, d_device_type_id d = dt_id dt) (device_type db);
  [(dl, d, dt)].

Definition latest_where (companyId deviceTypeId : Z)
    (j : device_latest_row * device_row * device_type_row) : Prop :=
  d_company_id j.1.2 = companyId ∧ d_device_type_id j.1.2 = deviceTypeId.

#[global] Instance latest_where_dec companyId deviceTypeId j :
  Decision (latest_where companyId deviceTypeId j).
Proof. unfold latest_where; apply _. Defined.

(** [ORDER BY dl.updated_at DESC] *)
Definition updated_at_ge (a b : device_latest_row * device_row * device_type_row)
  : Prop :=
  dl_updated_at b.1.1 ≤ dl_updated_at a.1.1.

#[global] Instance updated_at_ge_dec a b : Decision (updated_at_ge a b).
Proof. unfold updated_at_ge; apply _. Defined.

(** The joined rows the statement returns, in order; its select list has
    no failing expression. *)
Definition latestQuery (db : database) (companyId deviceTypeId : Z)
  : list (device_latest_row * device_row * device_type_row) :=
  merge_sort updated_at_ge
    (filter (latest_where companyId deviceTypeId) (device_latest_join db)).

(** [parseFloat(row.value) || 0] where [row.value] is [dl.data->>$1]:
    SQL NULL and text that is no number both give [NaN], hence 0. *)
Definition parseFloat_field_or_0 (v : option jsonb_value) : Z :=
  match v with
  | Some (JNumeric n) => parseFloat_or_0 n
  | _ => 0
  end.

Record latest_point := {
  lp_timestamp : Z;
  lp_serialNumber : string;
  lp_value : Z;
  lp_location : option string;
  lp_deviceType : string
}.

Record latest_entry := {
  latest : list latest_point;
  aggregatedValue : option Q;
  count : nat;
  latest_unit : option string
}.

Definition latest_point_of (prop : string)
    (j : device_latest_row * device_row * device_type_row) : latest_point :=
  {| lp_timestamp := dl_updated_at j.1.1;
     lp_serialNumber := dl_serial_number j.1.1;
     lp_value := parseFloat_field_or_0 (dl_data j.1.1 !! prop);
     lp_location := d_location j.1.2;
     lp_deviceType := dt_type_name j.2 |}.

Definition latest_entry_of (s : series_config) (formattedData : list latest_point)
  : latest_entry :=
  {| latest := formattedData;
     aggregatedValue :=
       match formattedData with
       | [] => None
       | _ :: _ =>
           let sum := foldl (λ acc item, acc + lp_value item) 0 formattedData in
           Some (inject_Z sum / inject_Z (Z.of_nat (length formattedData)))%Q
       end;
     count := length formattedData;
     latest_unit := unit s |}.

Definition load_latest (db : database) (req : request)
    (dataSourceConfig : data_source_config)
    (seriesData : gmap string latest_entry) (s : series_config)
  : Handler (gmap string latest_entry) :=
  let prop := dataSourceProperty s in
  let companyId := user_company_id req in
  let typeId := deviceTypeId dataSourceConfig in
  dataResult ⇐
    database_query (SelectDeviceLatest prop companyId typeId)
                   (Ok (latestQuery db companyId typeId)) ;;
  ret (Js.assign (displayName s)
         (latest_entry_of s (latest_point_of prop <$> dataResult)) seriesData).

Definition widget_latest_try (db : database) (req : request)
  : Handler (response (option (gmap string latest_entry))) :=
  let widgetId := params_widgetId req in
  widgetResult ⇐
    database_query (SelectWidgetDefinition widgetId)
                   (widgetLookup db widgetId) ;;
  match widgetResult with
  | [] => ret (Json404 "Widget not found")
  | widget :: _ =>
      let dataSourceConfig := wd_data_source_config widget.1 in
      match seriesConfig dataSourceConfig with
      | None | Some [] =>
          ret (Json200 None None (Some "No series configured"))
      | Some series =>
          seriesData ⇐ for_of series (load_latest db req dataSourceConfig) ∅ ;;
          ret (Json200 (Some seriesData) (Some dataSourceConfig) None)
      end
  end.

Definition widget_latest (db : database) (req : request)
  : response (option (gmap string latest_entry)) * list statement :=
  match widget_latest_try db req [] with
  | (Ok r, tr) => (r, tr)
  | (Err e, tr) => (Json500 "Failed to fetch latest widget data" e, tr)
  end.

(** *** How a request reaches the handler *)

(** The characters a URL carries unchanged in a path segment and in a
    query value: letters, digits, [-], [.], [_] and [~]. *)
Definition unreserved (c : ascii) : bool :=
  let n := Ascii.N_of_ascii c in
  ((48 <=? n) && (n <=? 57) || (97 <=? n) && (n <=? 122)
   || (65 <=? n) && (n <=? 90)
   || (n =? 45) || (n =? 46) || (n =? 95) || (n =? 126))%N.

(** The longest prefix of unreserved characters, and the rest. *)
Fixpoint span_unreserved (s : string) : string * string :=
  match s with
  | String c s' =>
      if unreserved c
      then let '(p, r) := span_unreserved s' in (String c p, r)
      else (EmptyString, s)
  | EmptyString => (EmptyString, EmptyString)
  end.

Fixpoint strip_prefix (p s : string) : option string :=
  match p, s with
  | EmptyString, _ => Some s
  | String a p', String b s' =>
      if decide (a = b) then strip_prefix p' s' else None
  | String _ _, EmptyString => None
  end.

(** What [GET /widget-data/:widgetId] receives of the URL
    [http://localhost:5000/api/widgets/widget-data/ID?timeRange=RANGE&limit=LIMIT]
    requested with the token of a user of company [companyId], when [ID],
    [RANGE] and [LIMIT] are made of unreserved characters and [ID] is not
    empty, not a dot segment and not longer than 255 characters:
    [req.params.widgetId] is [ID] and [req.query] has the two members.  The
    model does not say what is received of any other URL. *)
Definition received (url : string) (companyId : Z) : option request :=
  rest ← strip_prefix "http://localhost:5000/api/widgets/widget-data/" url;
  let '(widgetId, rest) := span_unreserved rest in
  rest ← strip_prefix "?timeRange=" rest;
  let '(timeRange, rest) := span_unreserved rest in
  rest ← strip_prefix "&limit=" rest;
  let '(limit, rest) := span_unreserved rest in
  if decide (rest = EmptyString
             ∧ (widgetId ∉ [EmptyString; "."; ".."])
             ∧ (String.length widgetId ≤ 255)%nat)
  then Some {| params_widgetId := widgetId;
               query_limit := Some limit;
               query_timeRange := Some timeRange;
               query_hierarchyId := None;
               query_deviceId := None;
               user_company_id := companyId |}
  else None.

End Widgets.

(** ** The hierarchy resolver *)

Module Hierarchy.
Import Pg.

(** Modelled from the spec: [n] is a child of a node found in the previous
    round of the closure. *)
Definition child_of (frontier : list Z) (n : hierarchy_row) : Prop :=
  match h_parent_id n with
  | Some p => p ∈ frontier
  | None => False
  end.

#[global] Instance child_of_dec frontier n : Decision (child_of frontier n).
Proof. unfold child_of; destruct (h_parent_id n); apply _. Defined.

(** Modelled from the spec: one round of following parent-to-child edges. *)
Definition children (h : list hierarchy_row) (frontier : list Z) : list Z :=
  h_id <$> filter (child_of frontier) h.

(** Modelled from the spec: the nodes reached from [frontier] in at most
    [rounds] rounds. *)
Fixpoint closure (rounds : nat) (h : list hierarchy_row) (frontier : list Z)
  : list Z :=
  match rounds with
  | O => frontier
  | S rounds' => frontier ++ closure rounds' h (children h frontier)
  end.

(** Modelled from the spec: the hierarchy resolver is not in the route
    handlers; this is section 4.1's [resolveSubtree], the closure of
    [child.parent_id = parent.id] starting from [rootId], [rootId] itself
    included, empty when [rootId] is not a node. *)
Definition resolveSubtree (db : database) (rootId : Z) : list Z :=
  closure (length (hierarchy db)) (hierarchy db)
    (h_id <$> filter (λ n, h_id n = rootId) (hierarchy db)).

End Hierarchy.

(** ** The chart normalizer of [CustomLineChart.tsx] *)

Module Chart.

(** A point of a series as [formatChartData] reads it; [timestamp] stands
    for [new Date(point.timestamp).getTime()]. *)
Record point := {
  timestamp : Z;
  serialNumber : string;
  value : Z
}.

Record SeriesData := {
  data : list point;
  unit : string;
  propertyName : string
}.

(** A chart row is a JavaScript object from column name to number; the
    instant is stored under the column ["timestamp"]. *)
Abbreviation row := (gmap string Z).

(** [dataMap] is a JavaScript object keyed by instants.  It is kept as the
    list of its own properties in enumeration order: array-index keys first,
    ascending, then the other keys in order of creation. *)
Definition is_array_index (k : Z) : bool := (0 <=? k) && (k <? 4294967295).

Fixpoint get {V} (k : Z) (o : list (Z * V)) : option V :=
  match o with
  | [] => None
  | (k', v) :: o' => if decide (k' = k) then Some v else get k o'
  end.

(** [o[k].field = ...]: update in place of the value under [k]. *)
Fixpoint alter {V} (f : V → V) (k : Z) (o : list (Z * V)) : list (Z * V) :=
  match o with
  | [] => []
  | (k', v) :: o' =>
      if decide (k' = k) then (k', f v) :: o' else (k', v) :: alter f k o'
  end.

Fixpoint insert_index {V} (k : Z) (v : V) (o : list (Z * V)) : list (Z * V) :=
  match o with
  | [] => [(k, v)]
  | (k', v') :: o' =>
      if is_array_index k' && (k' <? k) then (k', v') :: insert_index k v o'
      else (k, v) :: o
  end.

(** [o[k] = v] for a key [k] that [o] does not have yet. *)
Definition create {V} (k : Z) (v : V) (o : list (Z * V)) : list (Z * V) :=
  if is_array_index k then insert_index k v o else o ++ [(k, v)].

(** The body of [series.data.forEach]. *)
Definition add_point (seriesName : string) (dataMap : list (Z * row))
    (point : point) : list (Z * row) :=
  let timestamp := timestamp point in
  let dataMap :=
    match get timestamp dataMap with
    | None => create timestamp {[ "timestamp" := timestamp ]} dataMap
    | Some _ => dataMap
    end in
  alter (λ r : row, Js.assign seriesName (value point) r) timestamp dataMap.

Record locals := {
  dataMap : list (Z * row);
  keys : list string;
  unitsMap : gmap string string
}.

(** The body of [Object.entries(seriesData).forEach]. *)
Definition add_series (st : locals) (entry : string * SeriesData) : locals :=
  {| keys := keys st ++ [entry.1];
     unitsMap := Js.assign entry.1 (unit entry.2) (unitsMap st);
     dataMap := foldl (add_point entry.1) (dataMap st) (data entry.2) |}.

(** The comparator [(a, b) => a.timestamp - b.timestamp] does not put [b]
    before [a]; a missing column makes the difference [NaN], which sorts as
    equal. *)
Definition timestamp_le (a b : row) : Prop :=
  match a !! "timestamp", b !! "timestamp" with
  | Some x, Some y => x ≤ y
  | _, _ => True
  end.

#[global] Instance timestamp_le_dec a b : Decision (timestamp_le a b).
Proof.
  unfold timestamp_le.
  destruct (a !! "timestamp"), (b !! "timestamp"); apply _.
Defined.

(** [Array.prototype.sort], a stable sort. *)
Fixpoint sort_insert (x : row) (l : list row) : list row :=
  match l with
  | [] => [x]
  | y :: l' => if decide (timestamp_le x y) then x :: l else y :: sort_insert x l'
  end.

Definition sort (l : list row) : list row := foldr sort_insert [] l.

Record chart := {
  chart_data : list row;
  chart_keys : list string;
  chart_units : gmap string string
}.

(** [formatChartData(seriesData)]; the argument is [Object.entries] of the
    object, so its names are pairwise distinct.  Every series has its [data]
    array and its [unit] string, as the widget-data response gives them. *)
Definition formatChartData (seriesData : list (string * SeriesData)) : chart :=
  let st :=
    foldl add_series {| dataMap := []; keys := []; unitsMap := ∅ |} seriesData in
  {| chart_data := sort ((dataMap st).*2);
     chart_keys := keys st;
     chart_units := unitsMap st |}.

End Chart.

(** ** Vocabulary of the statements *)

Module Spec.
Import Pg Widgets.

(** [j] is a telemetry sample joined to the device that sent it. *)
Definition joined (db : database) (j : device_data_row * device_row) : Prop :=
  j.1 ∈ device_data db ∧ j.2 ∈ device db ∧ dd_device_id j.1 = d_id j.2.

(** [p] is the data point the handler makes of the row that the select list
    of [seriesQuery] computes from [j]: instant and serial number of the
    sample, and the numeric cast of its field [prop]. *)
Definition computed_from (prop : string) (p : data_point)
    (j : device_data_row * device_row) : Prop :=
  ∃ r, series_select prop j = Ok (j, r) ∧ p = data_point_of_row r.

(** The points of an entry come, one for one, from samples of devices of the
    caller's company. *)
Definition tenant_points (db : database) (req : request) (prop : string)
    (points : list data_point) : Prop :=
  ∃ src,
    Forall2 (computed_from prop) points src
    ∧ Forall (λ j, joined db j ∧ d_company_id j.2 = user_company_id req) src.

(** The same for the latest-data endpoint. *)
Definition tenant_latest (db : database) (req : request) (prop : string)
    (points : list latest_point) : Prop :=
  ∃ src,
    points = latest_point_of prop <$> src
    ∧ Forall (λ j : device_latest_row * device_row * device_type_row,
                j.1.1 ∈ device_latest db ∧ j.1.2 ∈ device db
                ∧ dl_device_id j.1.1 = d_id j.1.2
                ∧ d_company_id j.1.2 = user_company_id req) src.







(** The entry holds the first [limit] points, by instant, of everything the
    WHERE clause lets through for the given window. *)
Definition history_up_to_limit (db : database) (req : request)
    (cfg : data_source_config) (s : series_config) (window : option Z)
    (e : series_entry) : Prop :=
  ∃ n all,
    limit_param req = Js.Num n
    ∧ all ≡ₚ filter (series_where (dataSourceProperty s) (user_company_id req)
                       (deviceTypeId cfg) window (now db))
                    (device_data_join_device db)
    ∧ Sorted created_at_le all
    ∧ Forall2 (computed_from (dataSourceProperty s)) (data e)
              (take (Z.to_nat n) all).

(** The instant a chart row carries. *)
Definition instant (r : gmap string Z) : Z := default 0 (r !! "timestamp").

(** The value a series has at an instant: that of its last point there. *)
Definition column_at (series : Chart.SeriesData) (t : Z) : option Z :=
  Chart.value <$> last (filter (λ p, Chart.timestamp p = t) (Chart.data series)).

(** The chart row of instant [t] for the series [seriesData]: the instant
    under ["timestamp"], under each series' name the value it has at [t] if
    it has one, and no other column. *)
Definition row_of (seriesData : list (string * Chart.SeriesData)) (t : Z)
    (r : gmap string Z) : Prop :=
  r !! "timestamp" = Some t
  ∧ (∀ name series, (name, series) ∈ seriesData → r !! name = column_at series t)
  ∧ (∀ k, k ≠ "timestamp" → k ∉ seriesData.*1 → r !! k = None).

(** The request with other scope selectors. *)
Definition with_scope (req : request) (hierarchyId deviceId : option string)
  : request :=
  {| params_widgetId := params_widgetId req;
     query_limit := query_limit req;
     query_timeRange := query_timeRange req;
     query_hierarchyId := hierarchyId;
     query_deviceId := deviceId;
     user_company_id := user_company_id req |}.

End Spec.

(** ** Sample data *)

Module Examples.
Import Pg Widgets.

Definition ofr : series_config :=
  {| displayName := "OFR"; dataSourceProperty := "ofr";
     unit := Some "l/min"; propertyName := "Oil Flow Rate" |}.

(** A second series configured under the display name of the first. *)
Definition wfr_as_ofr : series_config :=
  {| displayName := "OFR"; dataSourceProperty := "wfr";
     unit := Some "m3/h"; propertyName := "Water Flow Rate" |}.

(** Two series configured under the display name [__proto__]. *)
Definition ofr_as_proto : series_config :=
  {| displayName := "__proto__"; dataSourceProperty := "ofr";
     unit := Some "l/min"; propertyName := "Oil Flow Rate" |}.

Definition wfr_as_proto : series_config :=
  {| displayName := "__proto__"; dataSourceProperty := "wfr";
     unit := Some "m3/h"; propertyName := "Water Flow Rate" |}.

Definition config_of (series : list series_config) : data_source_config :=
  {| deviceTypeId := 1; seriesConfig := Some series |}.

(** The identifiers of four widgets, and a fifth that no widget has. *)
Definition w0 : string := "6f1c2a40-0000-4000-8000-000000000000".
Definition w1 : string := "6f1c2a40-0000-4000-8000-000000000001".
Definition w2 : string := "6f1c2a40-0000-4000-8000-000000000002".
Definition w3 : string := "6f1c2a40-0000-4000-8000-000000000003".
Definition w9 : string := "6f1c2a40-0000-4000-8000-000000000009".

Definition widget (id : string) (series : list series_config)
  : widget_definition_row :=
  {| wd_id := id; wd_widget_type_id := "line";
     wd_data_source_config := config_of series |}.

(** Company 10 owns devices 1 (under node 6, a child of node 5), 2 (under
    node 7, outside that subtree) and 4 (of another device type); device 3
    belongs to company 11. *)
Definition devices : list device_row :=
  [ {| d_id := 1; d_company_id := 10; d_device_type_id := 1;
       d_hierarchy_id := Some 6; d_location := Some "Field A" |};
    {| d_id := 2; d_company_id := 10; d_device_type_id := 1;
       d_hierarchy_id := Some 7; d_location := None |};
    {| d_id := 3; d_company_id := 11; d_device_type_id := 1;
       d_hierarchy_id := Some 6; d_location := None |};
    {| d_id := 4; d_company_id := 10; d_device_type_id := 2;
       d_hierarchy_id := Some 6; d_location := None |} ].

Definition nodes : list hierarchy_row :=
  [ {| h_id := 5; h_parent_id := None |};
    {| h_id := 6; h_parent_id := Some 5 |};
    {| h_id := 7; h_parent_id := None |} ].

Definition clock : Z := 200000000.

Definition sample (device : Z) (serial : string) (at_ : Z)
    (payload : gmap string jsonb_value) : device_data_row :=
  {| dd_device_id := device; dd_serial_number := serial;
     dd_created_at := at_; dd_data := payload |}.

Definition readings : list device_data_row :=
  [ sample 1 "MPFM-001" (clock - 1000) {[ "ofr" := JNumeric 95; "wfr" := JNumeric 12 ]};
    sample 2 "MPFM-002" (clock - 3000) {[ "ofr" := JNumeric 101 ]};
    sample 3 "X-900" (clock - 2000) {[ "ofr" := JNumeric 77 ]};
    sample 4 "PT-004" (clock - 2500) {[ "ofr" := JNumeric 5 ]};
    sample 1 "MPFM-001" 1000 {[ "ofr" := JNull ]};
    sample 1 "MPFM-001" (clock - 500) {[ "gfr" := JNumeric 3 ]} ].

(** One reading of device 1 whose [ofr] is not a number. *)
Definition malformed_readings : list device_data_row :=
  [ sample 1 "MPFM-001" (clock - 1000) {[ "ofr" := JText "abc" ]} ].

Definition latest_readings : list device_latest_row :=
  [ {| dl_device_id := 1; dl_serial_number := "MPFM-001";
       dl_updated_at := clock - 500; dl_data := {[ "ofr" := JText "abc" ]} |};
    {| dl_device_id := 3; dl_serial_number := "X-900";
       dl_updated_at := clock - 100; dl_data := {[ "ofr" := JNumeric 77 ]} |} ].

Definition store (samples : list device_data_row) (p : select_eval) : database :=
  {| device := devices;
     device_data := samples;
     device_latest := latest_readings;
     device_type := [ {| dt_id := 1; dt_type_name := "MPFM" |};
                      {| dt_id := 2; dt_type_name := "PT" |} ];
     hierarchy := nodes;
     widget_definitions :=
       [ widget w1 [ofr]; widget w0 []; widget w2 [ofr; wfr_as_ofr];
         widget w3 [ofr_as_proto; wfr_as_proto] ];
     widget_types :=
       [ {| wt_id := "line"; wt_name := "line_chart";
            wt_component_name := "CustomLineChart" |} ];
     now := clock;
     plan := p |}.

(** A request of a user of company 10. *)
Definition get (widgetId : string) (limit timeRange hierarchyId : option string)
  : request :=
  {| params_widgetId := widgetId;
     query_limit := limit;
     query_timeRange := timeRange;
     query_hierarchyId := hierarchyId;
     query_deviceId := None;
     user_company_id := 10 |}.

(** The two readings of company 10's devices of type 1 that carry [ofr]
    within the last 24 hours, oldest first. *)
Definition ofr_entry : series_entry :=
  {| data :=
       [ {| dp_timestamp := clock - 3000; dp_serialNumber := "MPFM-002";
            dp_value := 101 |};
         {| dp_timestamp := clock - 1000; dp_serialNumber := "MPFM-001";
            dp_value := 95 |} ];
     entry_unit := "l/min";
     entry_propertyName := "Oil Flow Rate" |}.


(** The same with the reading of instant 1000, whose [ofr] is null. *)
Definition ofr_entry_all : series_entry :=
  {| data :=
       {| dp_timestamp := 1000; dp_serialNumber := "MPFM-001"; dp_value := 0 |}
       :: data ofr_entry;
     entry_unit := "l/min";
     entry_propertyName := "Oil Flow Rate" |}.

(** The readings that carry [wfr], under the second series' labels. *)
Definition wfr_entry : series_entry :=
  {| data :=
       [ {| dp_timestamp := clock - 1000; dp_serialNumber := "MPFM-001";
            dp_value := 12 |} ];
     entry_unit := "m3/h";
     entry_propertyName := "Water Flow Rate" |}.

(** The latest reading of company 10's devices of type 1; its [ofr] is the
    text [abc]. *)
Definition ofr_latest : latest_entry :=
  {| latest :=
       [ {| lp_timestamp := clock - 500; lp_serialNumber := "MPFM-001";
            lp_value := 0; lp_location := Some "Field A";
            lp_deviceType := "MPFM" |} ];
     aggregatedValue := Some (inject_Z 0 / inject_Z 1)%Q;
     count := 1;
     latest_unit := Some "l/min" |}.

Definition chart_point (t v : Z) : Chart.point :=
  {| Chart.timestamp := t; Chart.serialNumber := "MPFM-001"; Chart.value := v |}.

Definition chart_series (u : string) (points : list Chart.point)
  : Chart.SeriesData :=
  {| Chart.data := points; Chart.unit := u; Chart.propertyName := "" |}.

(** Series A = {(t1, 1), (t2, 2)} and B = {(t1, 9)}. *)
Definition series_a_b (t1 t2 : Z) : list (string * Chart.SeriesData) :=
  [ ("A", chart_series "l/min" [chart_point t1 1; chart_point t2 2]);
    ("B", chart_series "bar" [chart_point t1 9]) ].

(** A series that is called [timestamp], with the value 99999 at instant
    5000, next to a series A with the value 8 at instant 6000. *)
Definition series_named_timestamp : list (string * Chart.SeriesData) :=
  [ ("timestamp", chart_series "s" [chart_point 5000 99999]);
    ("A", chart_series "l/min" [chart_point 6000 8]) ].

End Examples.

(** ** The dashboard handlers of [routes/widgets.js] *)

Module Admin.
Import Pg.

Record user_row := {
  u_id : Z;
  u_company_id : Z
}.

Record company_row := {
  c_id : Z;
  c_name : string
}.

Record dashboard_row := {
  dash_id : string;
  dash_name : string;
  dash_description : option string;
  dash_grid_config : string;
  dash_version : Z;
  dash_created_by : Z;
  dash_is_active : bool;
  dash_created_at : Z
}.

(** The grid cell of a widget, the value of the JSON column
    [layout_config] as the handlers and the grid write it. *)
Record layout_config := {
  x : Z;
  y : Z;
  w : Z;
  h : Z;
  minW : Z;
  minH : Z;
  static : bool
}.

(** [lay_updated_at] is [None] as long as no statement of these handlers
    has set it; [lay_instance_config] is a JSON column none of them
    writes. *)
Record dashboard_layout_row := {
  lay_id : string;
  lay_dashboard_id : string;
  lay_widget_definition_id : string;
  lay_layout_config : layout_config;
  lay_instance_config : option string;
  lay_display_order : Z;
  lay_updated_at : option Z
}.

Record device_data_mapping_row := {
  m_id : Z;
  m_device_type_id : Z;
  m_variable_name : string;
  m_variable_tag : string;
  m_unit : option string;
  m_data_type : string;
  m_ui_order : Z
}.

(** A row of [widget_definitions] with the columns the telemetry handlers
    do not read. *)
Record widget_definition_full := {
  wd_row : widget_definition_row;
  wd_name : string;
  wd_description : string;
  wd_created_by : Z
}.

(** The store of the dashboard handlers.  [tables] holds the tables of the
    telemetry handlers; the widget definitions are those of [definitions],
    the field [widget_definitions] of [tables] is not read. *)
Record store := {
  tables : database;
  definitions : list widget_definition_full;
  users : list user_row;
  companies : list company_row;
  dashboards : list dashboard_row;
  dashboard_layouts : list dashboard_layout_row;
  device_data_mapping : list device_data_mapping_row
}.

(** The store as the telemetry handlers see it. *)
Definition database_of (st : store) : database :=
  {| device := device (tables st);
     device_data := device_data (tables st);
     device_latest := device_latest (tables st);
     device_type := device_type (tables st);
     hierarchy := hierarchy (tables st);
     widget_definitions := wd_row <$> definitions st;
     widget_types := widget_types (tables st);
     now := now (tables st);
     plan := plan (tables st) |}.

(** [req.user], as the [protect] middleware sets it. *)
Record user := {
  id : Z;
  company_id : Z;
  role : string
}.

(** What [res.json] sends: the success response with its [data] and
    [message], a refusal with its status (400, 403, 404), or the 500
    response of the [catch] block. *)
Inductive reply (D : Type) :=
| Success (data : D) (message : option string)
| Refused (status : Z) (message : string)
| Failed (message : string) (error : string).
Arguments Success {D} data message.
Arguments Refused {D} status message.
Arguments Failed {D} message error.

Definition succeeded {D} (r : reply D) : bool :=
  match r with
  | Success _ _ => true
  | _ => false
  end.

(** *** [GET /user-dashboard] *)

(** [FROM dashboards d INNER JOIN "user" u ON d.created_by = u.id
     INNER JOIN company c ON u.company_id = c.id] *)
Definition dashboards_join_company (st : store)
  : list (dashboard_row * user_row * company_row) :=
  d ← dashboards st;
  u ← filter (λ u, dash_created_by d = u_id u) (users st);
  c ← filter (λ c, u_company_id u = c_id c) (companies st);
  [(d, u, c)].

(** [ORDER BY d.created_at ASC] *)
Definition older {B} (a b : dashboard_row * B) : Prop :=
  dash_created_at a.1 ≤ dash_created_at b.1.

#[global] Instance older_dec {B} (a b : dashboard_row * B) : Decision (older a b).
Proof. unfold older; apply _. Defined.

(** [dashboardQuery]: [WHERE c.id = $1 AND d.is_active = true
     ORDER BY d.created_at ASC LIMIT 1] *)
Definition dashboardQuery (st : store) (companyId : Z)
  : list (dashboard_row * (user_row * company_row)) :=
  take 1
    (merge_sort older
       (filter (λ j, c_id j.2.2 = companyId ∧ dash_is_active j.1 = true)
          ((λ j : dashboard_row * user_row * company_row, (j.1.1, (j.1.2, j.2)))
             <$> dashboards_join_company st))).

(** [FROM dashboard_layouts dl
     INNER JOIN widget_definitions wd ON dl.widget_definition_id = wd.id
     INNER JOIN widget_types wt ON wd.widget_type_id = wt.id] *)
Definition layouts_join_widgets (st : store)
  : list (dashboard_layout_row * (widget_definition_full * widget_type_row)) :=
  dl ← dashboard_layouts st;
  wd ← filter (λ wd, lay_widget_definition_id dl = wd_id (wd_row wd))
              (definitions st);
  wt ← filter (λ wt, wd_widget_type_id (wd_row wd) = wt_id wt)
              (widget_types (tables st));
  [(dl, (wd, wt))].

(** [ORDER BY dl.display_order ASC] *)
Definition display_order_le {B} (a b : dashboard_layout_row * B) : Prop :=
  lay_display_order a.1 ≤ lay_display_order b.1.

#[global] Instance display_order_le_dec {B} (a b : dashboard_layout_row * B) :
  Decision (display_order_le a b).
Proof. unfold display_order_le; apply _. Defined.

(** [widgetsQuery]: [WHERE dl.dashboard_id = $1 ORDER BY dl.display_order ASC] *)
Definition widgetsQuery (st : store) (dashboardId : string)
  : list (dashboard_layout_row * (widget_definition_full * widget_type_row)) :=
  merge_sort display_order_le
    (filter (λ j, lay_dashboard_id j.1 = dashboardId) (layouts_join_widgets st)).

Record dashboard_view := {
  dv_id : string;
  dv_name : string;
  dv_description : option string;
  dv_gridConfig : string;
  dv_version : Z;
  dv_companyName : string;
  dv_canEdit : bool
}.

(** An element of [widgets] in the response ([defaultConfig], a column of
    [widget_types] that is handed through unread, is left out). *)
Record widget_view := {
  wv_layoutId : string;
  wv_widgetId : string;
  wv_name : string;
  wv_description : string;
  wv_type : string;
  wv_component : string;
  wv_layoutConfig : layout_config;
  wv_dataSourceConfig : data_source_config;
  wv_instanceConfig : option string;
  wv_displayOrder : Z
}.

(** [data] of the response; [message] is the member the handler adds when
    the company has no dashboard. *)
Record dashboard_data := {
  dashboard : option dashboard_view;
  widgets : list widget_view;
  message : option string
}.

Definition widget_view_of
    (widget : dashboard_layout_row * (widget_definition_full * widget_type_row))
  : widget_view :=
  {| wv_layoutId := lay_id widget.1;
     wv_widgetId := wd_id (wd_row widget.2.1);
     wv_name := wd_name widget.2.1;
     wv_description := wd_description widget.2.1;
     wv_type := wt_name widget.2.2;
     wv_component := wt_component_name widget.2.2;
     wv_layoutConfig := lay_layout_config widget.1;
     wv_dataSourceConfig := wd_data_source_config (wd_row widget.2.1);
     wv_instanceConfig := lay_instance_config widget.1;
     wv_displayOrder := lay_display_order widget.1 |}.

(** The handler; none of its statements can fail on the modelled store. *)
Definition user_dashboard (st : store) (user : user) : reply dashboard_data :=
  let companyId := company_id user in
  let userRole := role user in
  match dashboardQuery st companyId with
  | [] =>
      Success {| dashboard := None; widgets := [];
                 message := Some "No dashboard configured for your company yet" |}
              None
  | row :: _ =>
      let dashboard := row.1 in
      Success
        {| dashboard :=
             Some {| dv_id := dash_id dashboard;
                     dv_name := dash_name dashboard;
                     dv_description := dash_description dashboard;
                     dv_gridConfig := dash_grid_config dashboard;
                     dv_version := dash_version dashboard;
                     dv_companyName := c_name row.2.2;
                     dv_canEdit := bool_decide (userRole = "admin") |};
           widgets := widget_view_of <$> widgetsQuery st (dash_id dashboard);
           message := None |}
        None
  end.

(** *** The client of the writing handlers *)

(** A connection taken from the pool: the committed store and, between
    [BEGIN] and [COMMIT] or [ROLLBACK], the store the transaction works
    on. *)
Record session := {
  committed : store;
  working : option store
}.

(** The store a statement reads. *)
Definition current (s : session) : store := default (committed s) (working s).

(** [await client.query(...)]: the statement throws or returns, and leaves
    the session changed. *)
Definition Client (A : Type) : Type := session → (string + A) * session.

Definition ret {A} (a : A) : Client A := λ s, (inr a, s).

Definition bind {A B} (m : Client A) (k : A → Client B) : Client B :=
  λ s, match m s with
       | (inr a, s') => k a s'
       | (inl e, s') => (inl e, s')
       end.

Notation "x ⇐ m ;; k" := (bind m (λ x, k))
  (at level 100, m at next level, right associativity).

(** A SELECT *)
Definition read {A} (q : store → A) : Client A := λ s, (inr (q (current s)), s).

(** An INSERT, UPDATE or DELETE: inside a transaction it changes the working
    store, outside it is committed at once; when it throws it changes
    nothing. *)
Definition write {A} (w : store → string + (A * store)) : Client A :=
  λ s, match w (current s) with
       | inl e => (inl e, s)
       | inr (a, st) =>
           (inr a, match working s with
                   | Some _ => {| committed := committed s; working := Some st |}
                   | None => {| committed := st; working := None |}
                   end)
       end.

Definition BEGIN : Client () :=
  λ s, (inr (), {| committed := committed s;
                   working := Some (current s) |}).

Definition COMMIT : Client () :=
  λ s, (inr (), {| committed := current s; working := None |}).

Definition ROLLBACK : Client () :=
  λ s, (inr (), {| committed := committed s; working := None |}).

(** [try { ... } catch (error) { await client.query('ROLLBACK'); 500 }] on a
    fresh connection. *)
Definition try_catch_rollback {D} (body : Client (reply D)) (message : string)
    (st : store) : reply D * session :=
  match body {| committed := st; working := None |} with
  | (inr r, s) => (r, s)
  | (inl e, s) => (Failed message e, (ROLLBACK s).2)
  end.

(** The dashboard a widget is added to:
    [FROM dashboards d INNER JOIN "user" u ON d.created_by = u.id
     WHERE u.company_id = $1 AND d.is_active = true
     ORDER BY d.created_at ASC LIMIT 1] *)
Definition company_dashboard (companyId : Z) (st : store)
  : list (dashboard_row * user_row) :=
  take 1
    (merge_sort older
       (filter (λ j, u_company_id j.2 = companyId ∧ dash_is_active j.1 = true)
          (d ← dashboards st;
           u ← filter (λ u, dash_created_by d = u_id u) (users st);
           [(d, u)]))).

(** [SELECT COALESCE(MAX(display_order), 0) FROM dashboard_layouts
     WHERE dashboard_id = $1] *)
Definition max_order (dashboardId : string) (st : store) : Z :=
  match lay_display_order <$>
          filter (λ l, lay_dashboard_id l = dashboardId) (dashboard_layouts st) with
  | [] => 0
  | o :: os => foldr Z.max o os
  end.

Definition with_layouts (st : store) (layouts : list dashboard_layout_row) : store :=
  {| tables := tables st;
     definitions := definitions st;
     users := users st;
     companies := companies st;
     dashboards := dashboards st;
     dashboard_layouts := layouts;
     device_data_mapping := device_data_mapping st |}.

Definition with_definitions (st : store) (defs : list widget_definition_full)
  : store :=
  {| tables := tables st;
     definitions := defs;
     users := users st;
     companies := companies st;
     dashboards := dashboards st;
     dashboard_layouts := dashboard_layouts st;
     device_data_mapping := device_data_mapping st |}.

(** [INSERT INTO dashboard_layouts (dashboard_id, widget_definition_id,
     layout_config, display_order) ... RETURNING id].  [new_id] is the
    identifier the column default generates; the primary key refuses one
    that is taken. *)
Definition insert_layout (new_id dashboardId widgetId : string)
    (layoutConfig : layout_config) (order : Z) (st : store)
  : string + (string * store) :=
  if decide (new_id ∈ lay_id <$> dashboard_layouts st)
  then inl "duplicate key value violates unique constraint"
  else inr (new_id,
            with_layouts st
              (dashboard_layouts st ++
                 [ {| lay_id := new_id;
                      lay_dashboard_id := dashboardId;
                      lay_widget_definition_id := widgetId;
                      lay_layout_config := layoutConfig;
                      lay_instance_config := None;
                      lay_display_order := order;
                      lay_updated_at := None |} ])).

(** [INSERT INTO widget_definitions (name, description, widget_type_id,
     data_source_config, created_by) ... RETURNING id] *)
Definition insert_definition (new_id : string) (row : widget_definition_full)
    (st : store) : string + (string * store) :=
  if decide (new_id ∈ (wd_id ∘ wd_row) <$> definitions st)
  then inl "duplicate key value violates unique constraint"
  else inr (new_id, with_definitions st (definitions st ++ [row])).

(** *** [POST /create-widget] *)

(** An element of [seriesConfig] as the handler builds it. *)
Record series_spec := {
  propertyId : Z;
  series : series_config;
  dataType : string
}.

(** [dataSourceConfig] as the handler builds it. *)
Record new_config := {
  nc_deviceTypeId : Z;
  numberOfSeries : nat;
  nc_seriesConfig : list series_spec
}.

(** What the telemetry handlers read of it once it is stored. *)
Definition stored_config (c : new_config) : data_source_config :=
  {| deviceTypeId := nc_deviceTypeId c;
     seriesConfig := Some (series <$> nc_seriesConfig c) |}.

(** [req.body] of create-widget, with numbers for the identifiers as the
    wizard sends them; [None] is an absent (or null) field. *)
Record create_body := {
  body_deviceTypeId : option Z;
  body_widgetTypeId : option string;
  body_propertyIds : option (list Z);
  body_displayName : option string
}.

Record created := {
  created_widgetId : string;
  created_dataSourceConfig : new_config;
  created_widgetName : string
}.

(** [SELECT ... FROM device_data_mapping WHERE id = $1 AND device_type_id = $2] *)
Definition mappingQuery (propId deviceTypeId : Z) (st : store)
  : list device_data_mapping_row :=
  filter (λ m, m_id m = propId ∧ m_device_type_id m = deviceTypeId)
         (device_data_mapping st).

Definition series_spec_of (mapping : device_data_mapping_row) : series_spec :=
  {| propertyId := m_id mapping;
     series := {| propertyName := m_variable_name mapping;
                  displayName := m_variable_name mapping;
                  dataSourceProperty := m_variable_tag mapping;
                  unit := m_unit mapping |};
     dataType := m_data_type mapping |}.

(** The loop over [propertyIds]: the series collected, or the response of
    the early return. *)
Fixpoint collect_series (deviceTypeId : Z) (propertyIds : list Z)
    (seriesConfig : list series_spec)
  : Client (reply created + list series_spec) :=
  match propertyIds with
  | [] => ret (inr seriesConfig)
  | propId :: rest =>
      mappingResult ⇐ read (mappingQuery propId deviceTypeId) ;;
      match mappingResult with
      | [] =>
          _ ⇐ ROLLBACK ;;
          ret (inl (Refused 400
                      ("Property with ID " +:+ pretty propId +:+
                       " not found for device type " +:+ pretty deviceTypeId)))
      | mapping :: _ =>
          collect_series deviceTypeId rest
            (seriesConfig ++ [series_spec_of mapping])
      end
  end.

(** [seriesConfig.map(s => s.displayName).join(', ')] *)
Definition joined_names (seriesConfig : list series_spec) : string :=
  String.concat ", " ((displayName ∘ series) <$> seriesConfig).

(** The JavaScript truth value of a number or a string that may be absent. *)
Definition truthy_number (n : option Z) : option Z :=
  match n with
  | Some 0 | None => None
  | Some n => Some n
  end.

Definition truthy_string (s : option string) : option string :=
  match s with
  | Some "" | None => None
  | Some s => Some s
  end.

(** The body of the [try] block.  [new_widget] and [new_layout] are the
    identifiers the store generates for the two rows. *)
Definition create_widget_try (user : user) (body : create_body)
    (new_widget new_layout : string) : Client (reply created) :=
  if decide (role user ≠ "admin")
  then ret (Refused 403 "Only admins can create widgets")
  else
    match truthy_number (body_deviceTypeId body),
          truthy_string (body_widgetTypeId body),
          body_propertyIds body with
    | Some deviceTypeId, Some widgetTypeId, Some (propId :: propIds) =>
        let propertyIds := propId :: propIds in
        _ ⇐ BEGIN ;;
        collected ⇐ collect_series deviceTypeId propertyIds [] ;;
        match collected with
        | inl response => ret response
        | inr seriesConfig =>
            let dataSourceConfig :=
              {| nc_deviceTypeId := deviceTypeId;
                 numberOfSeries := length propertyIds;
                 nc_seriesConfig := seriesConfig |} in
            let widgetName :=
              default (joined_names seriesConfig +:+ " Chart")
                      (truthy_string (body_displayName body)) in
            widgetId ⇐
              write (insert_definition new_widget
                {| wd_row := {| wd_id := new_widget;
                                wd_widget_type_id := widgetTypeId;
                                wd_data_source_config :=
                                  stored_config dataSourceConfig |};
                   wd_name := widgetName;
                   wd_description :=
                     "Custom widget showing " +:+ joined_names seriesConfig +:+
                     " for device type " +:+ pretty deviceTypeId;
                   wd_created_by := id user |}) ;;
            dashboardResult ⇐ read (company_dashboard (company_id user)) ;;
            _ ⇐ match dashboardResult with
                | row :: _ =>
                    let dashboardId := dash_id row.1 in
                    maxOrder ⇐ read (max_order dashboardId) ;;
                    let nextOrder := maxOrder + 1 in
                    _ ⇐ write (insert_layout new_layout dashboardId widgetId
                                 {| x := 0; y := 0; w := 6; h := 3;
                                    minW := 3; minH := 2; static := false |}
                                 nextOrder) ;;
                    ret ()
                | [] => ret ()
                end ;;
            _ ⇐ COMMIT ;;
            ret (Success
                   {| created_widgetId := widgetId;
                      created_dataSourceConfig := dataSourceConfig;
                      created_widgetName := widgetName |}
                   (Some "Widget created and added to dashboard successfully"))
        end
    | _, _, _ =>
        ret (Refused 400
               "deviceTypeId, widgetTypeId, and propertyIds array are required")
    end.

(** [POST /create-widget]: the response and the session the connection is
    released with. *)
Definition create_widget (st : store) (user : user) (body : create_body)
    (new_widget new_layout : string) : reply created * session :=
  try_catch_rollback (create_widget_try user body new_widget new_layout)
    "Failed to create widget" st.

(** *** [POST /add-to-dashboard] *)

Record add_body := {
  body_widgetDefinitionId : option string;
  body_layoutConfig : option layout_config
}.

Record added := {
  added_layoutId : string;
  added_dashboardId : string
}.

Definition add_to_dashboard_try (user : user) (body : add_body)
    (new_layout : string) : Client (reply added) :=
  if decide (role user ≠ "admin")
  then ret (Refused 403 "Only admins can add widgets to dashboard")
  else
    match truthy_string (body_widgetDefinitionId body) with
    | None => ret (Refused 400 "widgetDefinitionId is required")
    | Some widgetDefinitionId =>
        _ ⇐ BEGIN ;;
        dashboardResult ⇐ read (company_dashboard (company_id user)) ;;
        match dashboardResult with
        | [] =>
            _ ⇐ ROLLBACK ;;
            ret (Refused 404 "No active dashboard found for your company")
        | row :: _ =>
            let dashboardId := dash_id row.1 in
            maxOrder ⇐ read (max_order dashboardId) ;;
            let nextOrder := maxOrder + 1 in
            layoutId ⇐
              write (insert_layout new_layout dashboardId widgetDefinitionId
                       (default {| x := 0; y := 0; w := 4; h := 2;
                                   minW := 2; minH := 1; static := false |}
                                (body_layoutConfig body))
                       nextOrder) ;;
            _ ⇐ COMMIT ;;
            ret (Success {| added_layoutId := layoutId;
                            added_dashboardId := dashboardId |}
                         (Some "Widget added to dashboard successfully"))
        end
    end.

Definition add_to_dashboard (st : store) (user : user) (body : add_body)
    (new_layout : string) : reply added * session :=
  try_catch_rollback (add_to_dashboard_try user body new_layout)
    "Failed to add widget to dashboard" st.

(** *** [DELETE /remove-widget/:layoutId] *)

(** [DELETE FROM dashboard_layouts WHERE id = $1 RETURNING id], sent through
    the pool and so committed at once. *)
Definition delete_layout (layoutId : string) (st : store)
  : list string * store :=
  (lay_id <$> filter (λ l, lay_id l = layoutId) (dashboard_layouts st),
   with_layouts st (filter (λ l, lay_id l ≠ layoutId) (dashboard_layouts st))).

Definition remove_widget (st : store) (user : user) (layoutId : string)
  : reply () * store :=
  if decide (role user ≠ "admin")
  then (Refused 403 "Only admins can remove widgets", st)
  else
    let '(result, st') := delete_layout layoutId st in
    match result with
    | [] => (Refused 404 "Widget not found", st')
    | _ :: _ => (Success () (Some "Widget removed successfully"), st')
    end.

(** *** [POST /update-layout] *)





End Admin.

(** ** The wizard of [AddWidgetModal.tsx] and the chart's request *)

Module Wizard.

(** The state of the modal that the handlers below read and write. *)
Record state := {
  token : option string;
  step : Z;
  selectedDeviceType : option Z;
  selectedWidgetType : option string;
  selectedProperties : list Z;
  widgetName : string
}.

(** The updater of [handlePropertyToggle]. *)
Definition handlePropertyToggle (propertyId : Z) (prev : list Z) : list Z :=
  if decide (propertyId ∈ prev)
  then filter (λ id, id ≠ propertyId) prev
  else prev ++ [propertyId].

Definition canProceed (s : state) : bool :=
  if decide (step s = 1) then bool_decide (is_Some (selectedDeviceType s))
  else if decide (step s = 2) then bool_decide (is_Some (selectedWidgetType s))
  else if decide (step s = 3) then bool_decide (0 < length (selectedProperties s))%nat
  else false.

(** [handleCreateWidget]: the body it posts to create-widget, or no request
    at all when it sets the error [Please complete all steps]. *)
Definition handleCreateWidget (s : state) : option Admin.create_body :=
  match Admin.truthy_string (token s),
        Admin.truthy_number (selectedDeviceType s),
        Admin.truthy_string (selectedWidgetType s),
        selectedProperties s with
  | Some _, Some deviceType, Some widgetType, propertyId :: propertyIds =>
      Some {| Admin.body_deviceTypeId := Some deviceType;
              Admin.body_widgetTypeId := Some widgetType;
              Admin.body_propertyIds := Some (propertyId :: propertyIds);
              Admin.body_displayName := Admin.truthy_string (Some (widgetName s)) |}
  | _, _, _, _ => None
  end.

(** The [timeRange] property of [CustomLineChart]. *)
Inductive timeRange :=
| one_day      (* '1day' *)
| seven_days   (* '7days' *)
| one_month.   (* '1month' *)

Definition timeRangeMap (t : timeRange) : string :=
  match t with
  | one_day => "24h"
  | seven_days => "7d"
  | one_month => "30d"
  end.

(** The URL [loadWidgetData] fetches, sending the token as bearer; nothing
    is fetched without a token or a widget id.  The widget id goes into the
    URL as it is. *)
Definition loadWidgetData (token : option string) (widgetId : string)
    (t : timeRange) : option string :=
  match Admin.truthy_string token, Admin.truthy_string (Some widgetId) with
  | Some _, Some widgetId =>
      Some ("http://localhost:5000/api/widgets/widget-data/" +:+ widgetId +:+
            "?timeRange=" +:+ timeRangeMap t +:+ "&limit=200")
  | _, _ => None
  end.

(** The loops of [getYAxisDomain] over [seriesKeys] and [chartData]: the
    largest value plotted, if it is above 0. *)
Definition maxValue (chartData : list Chart.row) (seriesKeys : list string) : Z :=
  foldl (λ maxValue key,
           foldl (λ maxValue (point : Chart.row),
                    match point !! key with
                    | Some v => if decide (v > maxValue) then v else maxValue
                    | None => maxValue
                    end)
                 maxValue chartData)
        0 seriesKeys.

End Wizard.

(** ** Vocabulary of the statements about the dashboard handlers *)

Module AdminSpec.
Import Pg Admin.

(** A connection with no transaction open. *)
Definition idle (st : store) : session := {| committed := st; working := None |}.

(** The series the loop of create-widget collects for [propertyIds] on a
    store: the first property without a mapping for the device type, or one
    series per property, in order, made of its first mapping. *)
Fixpoint specs_of (deviceTypeId : Z) (propertyIds : list Z) (st : store)
  : Z + list series_spec :=
  match propertyIds with
  | [] => inr []
  | propId :: rest =>
      match mappingQuery propId deviceTypeId st with
      | [] => inl propId
      | mapping :: _ =>
          match specs_of deviceTypeId rest st with
          | inl missing => inl missing
          | inr specs => inr (series_spec_of mapping :: specs)
          end
      end
  end.

(** The row create-widget inserts into [widget_definitions]. *)
Definition definition_of (user : user) (new_widget widgetTypeId : string)
    (deviceTypeId : Z) (displayName : option string)
    (seriesConfig : list series_spec) : widget_definition_full :=
  {| wd_row := {| wd_id := new_widget;
                  wd_widget_type_id := widgetTypeId;
                  wd_data_source_config :=
                    {| deviceTypeId := deviceTypeId;
                       seriesConfig := Some (series <$> seriesConfig) |} |};
     wd_name := default (joined_names seriesConfig +:+ " Chart")
                        (truthy_string displayName);
     wd_description :=
       "Custom widget showing " +:+ joined_names seriesConfig +:+
       " for device type " +:+ pretty deviceTypeId;
     wd_created_by := id user |}.

(** The row the handlers insert into [dashboard_layouts]. *)
Definition layout_of (new_layout dashboardId widgetId : string)
    (layoutConfig : layout_config) (order : Z) : dashboard_layout_row :=
  {| lay_id := new_layout;
     lay_dashboard_id := dashboardId;
     lay_widget_definition_id := widgetId;
     lay_layout_config := layoutConfig;
     lay_instance_config := None;
     lay_display_order := order;
     lay_updated_at := None |}.

(** The grid cells the two handlers give a new widget. *)
Definition created_cell : layout_config :=
  {| x := 0; y := 0; w := 6; h := 3; minW := 3; minH := 2; static := false |}.

Definition added_cell : layout_config :=
  {| x := 0; y := 0; w := 4; h := 2; minW := 2; minH := 1; static := false |}.

(** The layouts placed on a dashboard. *)
Definition layouts_on (dashboardId : string) (st : store)
  : list dashboard_layout_row :=
  filter (λ l, lay_dashboard_id l = dashboardId) (dashboard_layouts st).

(** Two stores differ at most in their widget definitions and layouts. *)
Definition same_other_tables (st st' : store) : Prop :=
  tables st' = tables st ∧ users st' = users st
  ∧ companies st' = companies st ∧ dashboards st' = dashboards st
  ∧ device_data_mapping st' = device_data_mapping st.



End AdminSpec.

(** ** Sample data for the dashboard handlers *)

Module AdminExamples.
Import Pg Admin.

(** Company 10 (Acme) has the users 100 and 101 and three dashboards: [d0],
    the oldest, is inactive, so [d1] is the one the handlers work on.
    Company 11 has the user 200 and no dashboard. *)
Definition board (id : string) (by_ : Z) (active : bool) (at_ : Z)
  : dashboard_row :=
  {| dash_id := id; dash_name := "Production"; dash_description := None;
     dash_grid_config := "12 columns"; dash_version := 1;
     dash_created_by := by_; dash_is_active := active; dash_created_at := at_ |}.

Definition cell (x y : Z) : layout_config :=
  {| Admin.x := x; Admin.y := y; w := 4; h := 2; minW := 2; minH := 1;
     static := false |}.

Definition placed (id dashboardId widgetId : string) (at_ : layout_config)
    (order : Z) : dashboard_layout_row :=
  {| lay_id := id; lay_dashboard_id := dashboardId;
     lay_widget_definition_id := widgetId; lay_layout_config := at_;
     lay_instance_config := None; lay_display_order := order;
     lay_updated_at := None |}.

Definition mapping (id deviceTypeId : Z) (name tag : string)
    (unit : option string) : device_data_mapping_row :=
  {| m_id := id; m_device_type_id := deviceTypeId; m_variable_name := name;
     m_variable_tag := tag; m_unit := unit; m_data_type := "float";
     m_ui_order := id |}.

Definition store : Admin.store :=
  {| tables := Examples.store Examples.readings AfterLimit;
     definitions :=
       [ {| wd_row := Examples.widget Examples.w1 [Examples.ofr];
            wd_name := "Oil flow"; wd_description := "Oil flow of the field";
            wd_created_by := 100 |} ];
     users := [ {| u_id := 100; u_company_id := 10 |};
                {| u_id := 101; u_company_id := 10 |};
                {| u_id := 200; u_company_id := 11 |} ];
     companies := [ {| c_id := 10; c_name := "Acme" |};
                    {| c_id := 11; c_name := "Borealis" |} ];
     dashboards := [ board "d2" 101 true 60; board "d1" 100 true 50;
                     board "d0" 100 false 10 ];
     dashboard_layouts := [ placed "l2" "d1" Examples.w1 (cell 4 0) 7;
                            placed "l1" "d1" Examples.w1 (cell 0 0) 3;
                            placed "l3" "d2" Examples.w1 (cell 0 0) 9 ];
     device_data_mapping :=
       [ mapping 1 1 "Oil Flow Rate" "ofr" (Some "l/min");
         mapping 2 1 "Water Flow Rate" "wfr" (Some "m3/h");
         mapping 3 2 "Pressure" "p" None ] |}.

Definition admin : user := {| id := 100; company_id := 10; role := "admin" |}.
Definition viewer : user := {| id := 101; company_id := 10; role := "user" |}.
Definition other_admin : user := {| id := 200; company_id := 11; role := "admin" |}.

(** A chart of the properties 1 and 2 of device type 1. *)
Definition flow_chart : create_body :=
  {| body_deviceTypeId := Some 1; body_widgetTypeId := Some "line";
     body_propertyIds := Some [1; 2]; body_displayName := None |}.

(** Property 3 belongs to device type 2. *)
Definition wrong_property : create_body :=
  {| body_deviceTypeId := Some 1; body_widgetTypeId := Some "line";
     body_propertyIds := Some [1; 3]; body_displayName := None |}.

Definition oil : series_spec :=
  {| propertyId := 1;
     series := {| displayName := "Oil Flow Rate"; dataSourceProperty := "ofr";
                  unit := Some "l/min"; propertyName := "Oil Flow Rate" |};
     dataType := "float" |}.

Definition water : series_spec :=
  {| propertyId := 2;
     series := {| displayName := "Water Flow Rate"; dataSourceProperty := "wfr";
                  unit := Some "m3/h"; propertyName := "Water Flow Rate" |};
     dataType := "float" |}.

(** What create-widget answers to [flow_chart] when the store gives the new
    definition the identifier [w9]. *)
Definition flow_chart_created : created :=
  {| created_widgetId := Examples.w9;
     created_dataSourceConfig :=
       {| nc_deviceTypeId := 1; numberOfSeries := 2;
          nc_seriesConfig := [oil; water] |};
     created_widgetName := "Oil Flow Rate, Water Flow Rate Chart" |}.

Definition created_message : option string :=
  Some "Widget created and added to dashboard successfully".

(** The wizard on its last step, with the choices of [flow_chart]. *)
Definition wizard : Wizard.state :=
  {| Wizard.token := Some "jwt"; Wizard.step := 4;
     Wizard.selectedDeviceType := Some 1;
     Wizard.selectedWidgetType := Some "line";
     Wizard.selectedProperties := [1; 2];
     Wizard.widgetName := EmptyString |}.

End AdminExamples.

(** * Properties *)

(** ** The queries *)

Section query_facts.
Import Pg.

#[local] Instance created_at_le_total {B} : Total (@created_at_le B).
Proof. intros a b; unfold created_at_le; lia. Qed.

#[local] Instance created_at_le_trans {B} : Transitive (@created_at_le B).
Proof. intros a b c; unfold created_at_le; lia. Qed.


Lemma select_list_Ok {A B} (f : A → result B) l k :
  select_list f l = Ok k → Forall2 (λ x y, f x = Ok y) l k.
Proof.
  revert k; induction l as [|x l IH]; simpl; intros k Hk.
  - by injection Hk as <-.
  - destruct (f x) as [y|] eqn:Hx; simpl in Hk; [|done].
    destruct (select_list f l) as [ys|]; simpl in Hk; [|done].
    injection Hk as <-. constructor; auto.
Qed.

Lemma series_select_Ok prop j jr :
  series_select prop j = Ok jr →
  jr.1 = j
  ∧ timestamp jr.2 = dd_created_at j.1
  ∧ serial_number jr.2 = dd_serial_number j.1
  ∧ ∃ v, numeric_of_field (dd_data j.1 !! prop) = Ok v ∧ value jr.2 = coalesce v 0.
Proof.
  unfold series_select.
  destruct (numeric_of_field _) as [v|]; simpl; [|done].
  intros [= <-]; simpl; split_and!; eauto.
Qed.

Lemma series_select_fst prop (l : list (device_data_row * device_row)) rows :
  Forall2 (λ j jr, series_select prop j = Ok jr) l rows → rows.*1 = l.
Proof.
  induction 1 as [|j jr l rows Hj _ IH]; csimpl; [done|].
  apply series_select_Ok in Hj as [-> _]. by rewrite IH.
Qed.

Lemma series_select_self prop (l : list (device_data_row * device_row)) rows :
  Forall2 (λ j jr, series_select prop j = Ok jr) l rows →
  Forall (λ jr, series_select prop jr.1 = Ok jr) rows.
Proof.
  induction 1 as [|j jr l rows Hj _ IH]; constructor; [|done].
  by destruct (series_select_Ok _ _ _ Hj) as [-> _].
Qed.

(** What a successful [seriesQuery] returned, under either plan: the first
    [limit] rows, in an ascending order, of the joined rows that pass the
    WHERE clause, each with the select list computed on it. *)
Lemma seriesQuery_src_Ok db prop companyId typeId limit window rows :
  seriesQuery_src db prop companyId typeId limit window = Ok rows →
  ∃ n all,
    limit = Js.Num n ∧ 0 ≤ n
    ∧ all ≡ₚ filter (series_where prop companyId typeId window (now db))
                    (device_data_join_device db)
    ∧ Sorted created_at_le all
    ∧ rows.*1 = take (Z.to_nat n) all
    ∧ Forall (λ jr, series_select prop jr.1 = Ok jr) rows.
Proof.
  unfold seriesQuery_src. destruct limit as [|n]; [done|].
  destruct (decide (bigint_max < n)); [done|].
  destruct (decide (n < 0)); [done|].
  set (selected := filter _ _).
  destruct (plan db).
  - destruct (decide (n = 0)) as [->|Hn].
    + intros [= <-]. exists 0, (merge_sort created_at_le selected).
      split_and!; try done.
      * apply merge_sort_Permutation.
      * apply (Sorted_merge_sort _).
    + destruct (select_list _ selected) as [vs|] eqn:Hvs; simpl; [|done].
      intros [= <-]. apply select_list_Ok in Hvs.
      pose proof (series_select_fst _ _ _ Hvs) as Hfst.
      set (R' := λ a b : (device_data_row * device_row) * series_row,
                   created_at_le a.1 b.1).
      assert (Total R') by (intros a b; apply created_at_le_total).
      exists n, ((merge_sort R' vs).*1). split_and!; try done; try lia.
      * by rewrite merge_sort_Permutation, Hfst.
      * eapply Sorted_fmap, (Sorted_merge_sort R'). done.
      * by rewrite fmap_take.
      * apply series_select_self in Hvs.
        apply Forall_forall. intros jr Hjr.
        apply subseteq_take in Hjr. rewrite merge_sort_Permutation in Hjr.
        by eapply Forall_forall in Hvs.
  - intros Hrows. apply select_list_Ok in Hrows.
    pose proof (series_select_fst _ _ _ Hrows) as Hfst.
    exists n, (merge_sort created_at_le selected). split_and!; try done; try lia.
    + apply merge_sort_Permutation.
    + apply (Sorted_merge_sort _).
    + by eapply series_select_self.
Qed.

End query_facts.

(** ** Objects used as maps *)

Section object_facts.
Context {V : Type}.
Implicit Types (o : gmap string V) (k : string).

Lemma lookup_assign k v o k' :
  Js.assign k v o !! k' =
    if decide (k = k' ∧ k ≠ "__proto__") then Some v else o !! k'.
Proof.
  unfold Js.assign. destruct (decide (k = "__proto__")) as [->|Hk].
  - rewrite decide_False; [done|]. by intros [_ ?].
  - destruct (decide (k = k')) as [->|Hne].
    + rewrite decide_True by done. apply lookup_insert_eq.
    + rewrite decide_False by (by intros [? _]). by apply lookup_insert_ne.
Qed.

Lemma lookup_assign_eq k v o :
  k ≠ "__proto__" → Js.assign k v o !! k = Some v.
Proof. intros Hk. rewrite lookup_assign. by rewrite decide_True. Qed.

Lemma lookup_assign_ne k v o k' :
  k ≠ k' → Js.assign k v o !! k' = o !! k'.
Proof.
  intros Hk. rewrite lookup_assign. rewrite decide_False; [done|]. by intros [? _].
Qed.

Lemma lookup_assign_proto k v o : Js.assign k v o !! "__proto__" = o !! "__proto__".
Proof.
  rewrite lookup_assign. rewrite decide_False; [done|]. by intros [-> ?].
Qed.

Lemma assign_insert k v o : k ≠ "__proto__" → Js.assign k v o = <[k := v]> o.
Proof. intros Hk. unfold Js.assign. by rewrite decide_False. Qed.

Lemma assign_assign k v v' o :
  Js.assign k v (Js.assign k v' o) = Js.assign k v o.
Proof.
  unfold Js.assign. destruct (decide (k = "__proto__")); [done|].
  apply insert_insert_eq.
Qed.

Lemma dom_assign k v o :
  dom (Js.assign k v o) =
    dom o ∪ list_to_set (filter (λ name, name ≠ "__proto__") [k]).
Proof.
  unfold Js.assign. destruct (decide (k = "__proto__")) as [->|Hk].
  - rewrite filter_cons_False by (intros Hne; by apply Hne).
    by rewrite filter_nil, list_to_set_nil, (right_id_L ∅ (∪)).
  - rewrite filter_cons_True, filter_nil by done.
    rewrite dom_insert_L, list_to_set_cons, list_to_set_nil.
    by rewrite (right_id_L ∅ (∪)), (comm_L (∪)).
Qed.

End object_facts.

(** ** The widget-data handler *)

Section widget_data_facts.
Import Pg Widgets.

Variables (db : database) (req : request) (cfg : data_source_config).

#[local] Abbreviation statement_of := (Widgets.statement_of req cfg).
#[local] Abbreviation fetch := (Widgets.fetch db req cfg).

Lemma load_series_run acc s tr :
  load_series db req cfg acc s tr =
    (match fetch s with
     | Ok rows => Ok (Js.assign (displayName s) (series_entry_of s rows) acc)
     | Err e => Err e
     end, tr ++ [statement_of s]).
Proof.
  unfold load_series, bind, database_query, ret.
  by destruct (Widgets.fetch _ _ _ _).
Qed.

Lemma for_of_load_series_cons s series acc tr :
  for_of (s :: series) (load_series db req cfg) acc tr =
    match fetch s with
    | Ok rows =>
        for_of series (load_series db req cfg)
          (Js.assign (displayName s) (series_entry_of s rows) acc)
          (tr ++ [statement_of s])
    | Err e => (Err e, tr ++ [statement_of s])
    end.
Proof.
  simpl. unfold bind at 1. rewrite load_series_run. by destruct (fetch s).
Qed.

(** The loop sends exactly one statement per configured series, in order,
    up to the first failure. *)
Lemma for_of_load_series_trace series acc tr r tr' :
  for_of series (load_series db req cfg) acc tr = (r, tr') →
  ∃ sent, sent `prefix_of` series ∧ tr' = tr ++ (statement_of <$> sent)
          ∧ (∀ data, r = Ok data → sent = series).
Proof.
  revert acc tr; induction series as [|s series IH]; intros acc tr.
  - intros [= <- <-]. exists []. by rewrite app_nil_r.
  - rewrite for_of_load_series_cons. destruct (fetch s) as [rows|e].
    + intros H. apply IH in H as (sent & Hp & -> & Hall).
      exists (s :: sent). split_and!.
      * by apply prefix_cons.
      * by rewrite <-app_assoc.
      * intros data ->. by rewrite (Hall data).
    + intros [= <- <-]. exists [s]. split_and!; [|done..].
      by apply prefix_cons, prefix_nil.
Qed.

(** The names of the result: those of the accumulator and the display
    names of the series, [__proto__] apart. *)
Lemma for_of_load_series_dom series acc tr data tr' :
  for_of series (load_series db req cfg) acc tr = (Ok data, tr') →
  dom data = dom acc ∪ list_to_set (filter (λ name, name ≠ "__proto__")
                                          (displayName <$> series)).
Proof.
  revert acc tr; induction series as [|s series IH]; intros acc tr.
  - intros [= <- <-].
    by rewrite fmap_nil, filter_nil, list_to_set_nil, (right_id_L ∅ (∪)).
  - rewrite for_of_load_series_cons. destruct (fetch s) as [rows|e]; [|done].
    intros H. apply IH in H.
    rewrite H, dom_assign, fmap_cons.
    change (displayName s :: (displayName <$> series))
      with ([displayName s] ++ (displayName <$> series)).
    by rewrite filter_app, list_to_set_app_L, (assoc_L (∪)).
Qed.

(** Every entry of the result was in the accumulator or was stored for a
    configured series of that name, from the rows of its own query. *)
Lemma for_of_load_series_sound series acc tr data tr' name e :
  for_of series (load_series db req cfg) acc tr = (Ok data, tr') →
  data !! name = Some e →
  acc !! name = Some e
  ∨ ∃ s rows, s ∈ series ∧ displayName s = name
              ∧ fetch s = Ok rows ∧ e = series_entry_of s rows.
Proof.
  revert acc tr; induction series as [|s series IH]; intros acc tr.
  - intros [= <- <-]; auto.
  - rewrite for_of_load_series_cons.
    destruct (fetch s) as [rows|] eqn:Hs; [|done].
    intros H He. destruct (IH _ _ H He) as [Hacc|(s' & rows' & ? & ? & ? & ?)].
    + rewrite lookup_assign in Hacc.
      destruct (decide (displayName s = name ∧ _)) as [[<- _]|_]; [|by auto].
      injection Hacc as <-. right. exists s, rows. split_and!; auto. left.
    + right. exists s', rows'. split_and!; auto. by right.
Qed.

(** Names that no configured series carries keep the accumulator's entry. *)
Lemma for_of_load_series_other series acc tr data tr' name :
  for_of series (load_series db req cfg) acc tr = (Ok data, tr') →
  name ∉ displayName <$> series →
  data !! name = acc !! name.
Proof.
  revert acc tr; induction series as [|s series IH]; intros acc tr.
  - by intros [= <- <-].
  - rewrite for_of_load_series_cons. destruct (fetch s) as [rows|]; [|done].
    intros H Hn. rewrite fmap_cons, not_elem_of_cons in Hn. destruct Hn as [? ?].
    rewrite (IH _ _ H) by done. by rewrite lookup_assign_ne.
Qed.

(** The entry under a name other than [__proto__] is the one of the last
    series configured with that name. *)
Lemma for_of_load_series_last pre s post acc tr data tr' :
  for_of (pre ++ s :: post) (load_series db req cfg) acc tr = (Ok data, tr') →
  displayName s ≠ "__proto__" →
  displayName s ∉ displayName <$> post →
  ∃ rows, fetch s = Ok rows
          ∧ data !! displayName s = Some (series_entry_of s rows).
Proof.
  revert acc tr; induction pre as [|s0 pre IH]; intros acc tr.
  - simpl app. rewrite for_of_load_series_cons.
    destruct (fetch s) as [rows|]; [|done].
    intros H Hproto Hn. exists rows. split; [done|].
    rewrite (for_of_load_series_other _ _ _ _ _ _ H Hn).
    by apply lookup_assign_eq.
  - simpl app. rewrite for_of_load_series_cons.
    destruct (fetch s0) as [rows0|]; [|done]. apply IH.
Qed.

(** The loop gives the result no property [__proto__]. *)
Lemma for_of_load_series_proto series acc tr data tr' :
  for_of series (load_series db req cfg) acc tr = (Ok data, tr') →
  data !! "__proto__" = acc !! "__proto__".
Proof.
  revert acc tr; induction series as [|s series IH]; intros acc tr.
  - by intros [= <- <-].
  - rewrite for_of_load_series_cons. destruct (fetch s) as [rows|]; [|done].
    intros H. by rewrite (IH _ _ H), lookup_assign_proto.
Qed.

(** When every query succeeds the loop does. *)
Lemma for_of_load_series_total series acc tr :
  Forall (λ s, ∃ rows, fetch s = Ok rows) series →
  ∃ data, for_of series (load_series db req cfg) acc tr
          = (Ok data, tr ++ (statement_of <$> series)).
Proof.
  intros Hall; revert acc tr.
  induction Hall as [|s series [rows Hs] _ IH]; intros acc tr.
  - exists acc. simpl. by rewrite app_nil_r.
  - rewrite for_of_load_series_cons, Hs.
    destruct (IH (Js.assign (displayName s) (series_entry_of s rows) acc)
                 (tr ++ [statement_of s])) as [data ->].
    exists data. by rewrite <-app_assoc.
Qed.

(** When the first query fails the loop stops there. *)
Lemma for_of_load_series_fails s series acc tr e :
  fetch s = Err e →
  for_of (s :: series) (load_series db req cfg) acc tr
  = (Err e, tr ++ [statement_of s]).
Proof. intros Hs. by rewrite for_of_load_series_cons, Hs. Qed.

End widget_data_facts.

Section widget_data_response.
Import Pg Widgets.

(** The handler, one case per way out of it. *)
Lemma widget_data_unfold db req :
  widget_data db req =
    let q := SelectWidgetDefinition (params_widgetId req) in
    match widgetLookup db (params_widgetId req) with
    | Err e => (Json500 "Failed to fetch widget data" e, [q])
    | Ok [] => (Json404 "Widget not found", [q])
    | Ok (widget :: _) =>
        let cfg := wd_data_source_config widget.1 in
        match seriesConfig cfg with
        | None | Some [] =>
            (Json200 ∅ (Some cfg) (Some "No series configured"), [q])
        | Some series =>
            match for_of series (load_series db req cfg) ∅ [q] with
            | (Ok data, tr) => (Json200 data (Some cfg) None, tr)
            | (Err e, tr) => (Json500 "Failed to fetch widget data" e, tr)
            end
        end
    end.
Proof.
  unfold widget_data, widget_data_try, bind at 1, database_query; simpl.
  destruct (widgetLookup _ _) as [[|widget rest]|e]; [done| |done].
  destruct (seriesConfig _) as [[|s series]|]; [done| |done].
  unfold bind.
  by destruct (for_of _ _ _ _) as [[data|e] tr].
Qed.

Lemma elem_of_device_data_join_device db j :
  j ∈ device_data_join_device db ↔
  j.1 ∈ device_data db ∧ j.2 ∈ device db ∧ dd_device_id j.1 = d_id j.2.
Proof.
  unfold device_data_join_device. rewrite list_elem_of_bind. split.
  - intros (dd & Hj & Hdd). apply list_elem_of_bind in Hj as (d & Hj & Hd).
    apply list_elem_of_filter in Hd as [? ?].
    apply list_elem_of_singleton in Hj as ->. done.
  - destruct j as [dd d]; simpl. intros (? & ? & ?). exists dd. split; [|done].
    apply list_elem_of_bind. exists d. split; [by apply list_elem_of_singleton|].
    by apply list_elem_of_filter.
Qed.

Lemma elem_of_widgetQuery db widgetId j :
  j ∈ widgetQuery db widgetId →
  j.1 ∈ widget_definitions db ∧ wd_id j.1 = widgetId.
Proof.
  unfold widgetQuery. rewrite list_elem_of_filter. intros [? Hj].
  apply list_elem_of_bind in Hj as (wd & Hj & ?).
  apply list_elem_of_bind in Hj as (wt & Hj & ?).
  by apply list_elem_of_singleton in Hj as ->.
Qed.

(** Where an entry of a successful response comes from: the rows the store
    returned for the statement of a configured series of that name. *)
Lemma widget_data_entry db req data config msg name e :
  (widget_data db req).1 = Json200 data config msg →
  data !! name = Some e →
  ∃ cfg series s src n all,
    config = Some cfg ∧ seriesConfig cfg = Some series
    ∧ s ∈ series ∧ displayName s = name
    ∧ seriesQuery_src db (dataSourceProperty s) (user_company_id req)
        (deviceTypeId cfg) (limit_param req) (window_param req) = Ok src
    ∧ e = series_entry_of s (src.*2)
    ∧ limit_param req = Js.Num n ∧ 0 ≤ n
    ∧ all ≡ₚ filter (series_where (dataSourceProperty s) (user_company_id req)
                       (deviceTypeId cfg) (window_param req) (now db))
                    (device_data_join_device db)
    ∧ Sorted created_at_le all
    ∧ src.*1 = take (Z.to_nat n) all
    ∧ Forall (λ jr, series_select (dataSourceProperty s) jr.1 = Ok jr) src.
Proof.
  rewrite widget_data_unfold; simpl.
  destruct (widgetLookup _ _) as [[|widget rest]|]; [done| |done].
  set (cfg := wd_data_source_config widget.1).
  destruct (seriesConfig cfg) as [[|s0 series]|] eqn:Hcfg;
    [by intros [= <- <- <-]| |by intros [= <- <- <-]].
  destruct (for_of _ _ _ _) as [[data'|err] tr] eqn:Hloop; [|done].
  simpl. intros [= <- <- <-] He.
  destruct (for_of_load_series_sound _ _ _ _ _ _ _ _ _ _ Hloop He)
    as [Hacc|(s & rows & Hs & Hname & Hrows & ->)]; [done|].
  unfold fetch, seriesQuery in Hrows.
  destruct (seriesQuery_src _ _ _ _ _ _) as [src|] eqn:Hsrc; simpl in Hrows; [|done].
  injection Hrows as <-.
  destruct (seriesQuery_src_Ok _ _ _ _ _ _ _ Hsrc)
    as (n & all & Hn & ? & ? & ? & ? & ?).
  exists cfg, (s0 :: series), s, src, n, all. split_and!; done.
Qed.

End widget_data_response.

(** ** The claims about the widget-data handler *)

Section widget_data_claims.
Import Pg Widgets.

(** C8.  A widget whose configuration declares an empty series list (or
    none at all) gets the successful response with the empty [data] object,
    and the only statement sent is the widget lookup: no telemetry query. *)
Theorem C8_empty_series_list db req widget rest :
  widgetLookup db (params_widgetId req) = Ok (widget :: rest) →
  seriesConfig (wd_data_source_config widget.1) = Some []
  ∨ seriesConfig (wd_data_source_config widget.1) = None →
  ∃ tr, widget_data db req =
          (Json200 ∅ (Some (wd_data_source_config widget.1))
                   (Some "No series configured"), tr)
        ∧ success (widget_data db req).1 = true
        ∧ Forall (λ q, is_telemetry q = false) tr.
Proof.
  intros Hw Hcfg. rewrite widget_data_unfold, Hw; simpl.
  exists [SelectWidgetDefinition (params_widgetId req)].
  destruct Hcfg as [-> | ->]; split_and!; try done; by repeat constructor.
Qed.

Lemma C8_empty_series_list_witness :
  ∃ tr, widget_data (Examples.store Examples.readings AfterLimit)
                    (Examples.get Examples.w0 None None None) =
          (Json200 ∅ (Some (Examples.config_of []))
                   (Some "No series configured"), tr)
        ∧ success (widget_data (Examples.store Examples.readings AfterLimit)
                               (Examples.get Examples.w0 None None None)).1 = true
        ∧ Forall (λ q, is_telemetry q = false) tr.
Proof.
  apply (C8_empty_series_list (Examples.store Examples.readings AfterLimit)
           (Examples.get Examples.w0 None None None)
           (Examples.widget Examples.w0 [],
            {| wt_id := "line"; wt_name := "line_chart";
               wt_component_name := "CustomLineChart" |}) []).
  - vm_compute. reflexivity.
  - left. reflexivity.
Defined.

(** C9, as the code has it.  A [widgetId] that is the text of a [uuid]
    which no widget definition carries gets the 404 response with
    [success = false] and the message [Widget not found], which is not the
    500 response.  A [widgetId] that is not the text of a [uuid] is refused
    by the store when the lookup compares it with the [uuid] column, and
    the request ends in the 500 response with the store's error.  In both
    cases the only statement sent is the widget lookup: no telemetry
    query. *)
Theorem C9_widget_not_found db req :
  (∀ id,
     uuid_in (params_widgetId req) = Ok id →
     (∀ wd, wd ∈ widget_definitions db → wd_id wd ≠ id) →
     ∃ tr, widget_data db req = (Json404 "Widget not found", tr)
           ∧ status (widget_data db req).1 = 404
           ∧ success (widget_data db req).1 = false
           ∧ message (widget_data db req).1 = Some "Widget not found"
           ∧ Forall (λ q, is_telemetry q = false) tr)
  ∧ (∀ e,
       uuid_in (params_widgetId req) = Err e →
       ∃ tr, widget_data db req = (Json500 "Failed to fetch widget data" e, tr)
             ∧ status (widget_data db req).1 = 500
             ∧ success (widget_data db req).1 = false
             ∧ Forall (λ q, is_telemetry q = false) tr).
Proof.
  split.
  - intros id Hid Hnone. rewrite widget_data_unfold.
    unfold widgetLookup. rewrite Hid. simpl.
    destruct (widgetQuery db id) as [|widget rest] eqn:Hw.
    + eexists. split_and!; try done. by repeat constructor.
    + exfalso. destruct (elem_of_widgetQuery db id widget)
        as [Hin Hwid]; [rewrite Hw; left|]. by apply (Hnone _ Hin).
  - intros e He. rewrite widget_data_unfold.
    unfold widgetLookup. rewrite He. simpl.
    eexists. split_and!; try done. by repeat constructor.
Qed.

(** The identifier [w9] is well formed and no widget carries it; the
    identifier [42] is not the text of a [uuid]. *)
Lemma C9_widget_not_found_witness :
  (∃ tr, widget_data (Examples.store Examples.readings AfterLimit)
                     (Examples.get Examples.w9 None None None)
         = (Json404 "Widget not found", tr)
         ∧ status (widget_data (Examples.store Examples.readings AfterLimit)
                               (Examples.get Examples.w9 None None None)).1 = 404
         ∧ success (widget_data (Examples.store Examples.readings AfterLimit)
                                (Examples.get Examples.w9 None None None)).1
           = false
         ∧ message (widget_data (Examples.store Examples.readings AfterLimit)
                                (Examples.get Examples.w9 None None None)).1
           = Some "Widget not found"
         ∧ Forall (λ q, is_telemetry q = false) tr)
  ∧ (∃ tr, widget_data (Examples.store Examples.readings AfterLimit)
                       (Examples.get "42" None None None)
           = (Json500 "Failed to fetch widget data"
                      invalid_input_syntax_for_type_uuid, tr)
           ∧ status (widget_data (Examples.store Examples.readings AfterLimit)
                                 (Examples.get "42" None None None)).1 = 500
           ∧ success (widget_data (Examples.store Examples.readings AfterLimit)
                                  (Examples.get "42" None None None)).1 = false
           ∧ Forall (λ q, is_telemetry q = false) tr).
Proof.
  split.
  - destruct (C9_widget_not_found (Examples.store Examples.readings AfterLimit)
                (Examples.get Examples.w9 None None None)) as [Hmissing _].
    apply (Hmissing Examples.w9).
    + vm_compute. reflexivity.
    + intros wd Hwd. simpl in Hwd.
      repeat (apply elem_of_cons in Hwd as [-> | Hwd]; [by vm_compute|]).
      by apply elem_of_nil in Hwd.
  - destruct (C9_widget_not_found (Examples.store Examples.readings AfterLimit)
                (Examples.get "42" None None None)) as [_ Hmalformed].
    apply Hmalformed. vm_compute. reflexivity.
Defined.

(** C9, as the specification has it, fails: no widget definition has the
    identifier [42], and the request for it ends in the generic 500
    response, not in the 404 response [Widget not found]. *)
Lemma C9_malformed_id_is_not_404 :
  (∀ wd, wd ∈ widget_definitions (Examples.store Examples.readings AfterLimit) →
         wd_id wd ≠ "42")
  ∧ (widget_data (Examples.store Examples.readings AfterLimit)
                 (Examples.get "42" None None None)).1
    = Json500 "Failed to fetch widget data" invalid_input_syntax_for_type_uuid
  ∧ status (widget_data (Examples.store Examples.readings AfterLimit)
                        (Examples.get "42" None None None)).1 = 500
  ∧ message (widget_data (Examples.store Examples.readings AfterLimit)
                         (Examples.get "42" None None None)).1
    = Some "Failed to fetch widget data"
  ∧ (widget_data (Examples.store Examples.readings AfterLimit)
                 (Examples.get "42" None None None)).1
    ≠ Json404 "Widget not found".
Proof.
  split_and!; try (vm_compute; reflexivity); [|by vm_compute].
  intros wd Hwd. simpl in Hwd.
  repeat (apply elem_of_cons in Hwd as [-> | Hwd]; [by vm_compute|]).
  by apply elem_of_nil in Hwd.
Qed.

End widget_data_claims.

Section series_claims.
Import Pg Widgets.

Lemma computed_from_select prop
    (src : list ((device_data_row * device_row) * series_row)) :
  Forall (λ jr, series_select prop jr.1 = Ok jr) src →
  Forall2 (Spec.computed_from prop) (data_point_of_row <$> src.*2) (src.*1).
Proof.
  intros Hsrc. rewrite <-list_fmap_compose.
  apply Forall2_fmap, Forall_Forall2_diag.
  eapply Forall_impl; [exact Hsrc|].
  intros [j r] Hjr; simpl in *. exists r. split; [|done].
  by destruct (series_select_Ok _ _ _ Hjr) as [<- _].
Qed.

Lemma computed_from_timestamp prop points src :
  Forall2 (Spec.computed_from prop) points src →
  dp_timestamp <$> points = (dd_created_at ∘ fst) <$> src.
Proof.
  induction 1 as [|p j points src (r & Hr & ->) _ IH]; csimpl; [done|].
  f_equal; [|done]. by destruct (series_select_Ok _ _ _ Hr) as (_ & ? & _).
Qed.

(** An entry of a successful response holds the first [limit] points, by
    instant, of the rows that pass the WHERE clause of its series. *)
Lemma widget_data_entry_points db req data config msg name e :
  (widget_data db req).1 = Json200 data config msg →
  data !! name = Some e →
  ∃ cfg series s,
    config = Some cfg ∧ seriesConfig cfg = Some series
    ∧ s ∈ series ∧ displayName s = name
    ∧ entry_unit e = default "" (unit s)
    ∧ entry_propertyName e = propertyName s
    ∧ Spec.history_up_to_limit db req cfg s (window_param req) e.
Proof.
  intros Hr He.
  destruct (widget_data_entry _ _ _ _ _ _ _ Hr He)
    as (cfg & series & s & src & n & all & -> & ? & ? & ? & ? & -> & ? & ?
        & ? & ? & Hsrc & Hsel).
  exists cfg, series, s. split_and!; try done.
  exists n, all. split_and!; try done.
  rewrite <-Hsrc. by apply computed_from_select.
Qed.








(** Facts about the time-range chain used by C5. *)
Lemma timeFilter_unrecognised tr :
  tr ∉ ["1h"; "6h"; "24h"; "7d"; "30d"] → timeFilter tr = None.
Proof.
  intros Htr. unfold timeFilter.
  repeat (destruct (decide (tr = _)) as [->|_];
          [exfalso; apply Htr, list_elem_of_In; simpl; tauto|]).
  done.
Qed.

(** C5.  The five time ranges select the trailing hour, 6 hours, 24 hours,
    7 days and 30 days; any other string selects no window.  The WHERE
    clause keeps a sample of the window only when it is no older than the
    window, and keeps samples of any age when there is no window.  Every
    entry of a successful response holds the first [limit] points, by
    instant, of what that clause keeps for the request's time range. *)
Theorem C5_time_range :
  (timeFilter "1h" = Some 3600000
   ∧ timeFilter "6h" = Some (6 * 3600000)
   ∧ timeFilter "24h" = Some (24 * 3600000)
   ∧ timeFilter "7d" = Some (7 * 24 * 3600000)
   ∧ timeFilter "30d" = Some (30 * 24 * 3600000))
  ∧ (∀ tr, tr ∉ ["1h"; "6h"; "24h"; "7d"; "30d"] → timeFilter tr = None)
  ∧ (∀ prop c t now j,
       (∀ i, series_where prop c t (Some i) now j ↔
             d_company_id j.2 = c ∧ d_device_type_id j.2 = t
             ∧ now - i ≤ dd_created_at j.1 ∧ is_Some (dd_data j.1 !! prop))
       ∧ (series_where prop c t None now j ↔
             d_company_id j.2 = c ∧ d_device_type_id j.2 = t
             ∧ is_Some (dd_data j.1 !! prop)))
  ∧ (∀ db req tr data config msg name e,
       query_timeRange req = Some tr →
       (widget_data db req).1 = Json200 data config msg →
       data !! name = Some e →
       ∃ cfg series s,
         config = Some cfg ∧ seriesConfig cfg = Some series
         ∧ s ∈ series ∧ displayName s = name
         ∧ Spec.history_up_to_limit db req cfg s (timeFilter tr) e).
Proof.
  split_and!; try (by vm_compute).
  - apply timeFilter_unrecognised.
  - intros prop c t now j. unfold series_where. split; [intros i|]; tauto.
  - intros db req tr data config msg name e Htr Hr He.
    destruct (widget_data_entry_points _ _ _ _ _ _ _ Hr He)
      as (cfg & series & s & ? & ? & ? & ? & _ & _ & Hh).
    exists cfg, series, s. split_and!; try done.
    unfold window_param in Hh. by rewrite Htr in Hh.
Qed.

(** With the unrecognised range [2w] the reading of instant 1000, far older
    than any window, is returned. *)
Lemma C5_time_range_witness :
  timeFilter "2w" = None
  ∧ ∃ cfg series s,
      Some (Examples.config_of [Examples.ofr]) = Some cfg
      ∧ seriesConfig cfg = Some series
      ∧ s ∈ series ∧ displayName s = "OFR"
      ∧ Spec.history_up_to_limit (Examples.store Examples.readings AfterLimit)
          (Examples.get Examples.w1 None (Some "2w") None) cfg s
          (timeFilter "2w") Examples.ofr_entry_all.
Proof.
  destruct C5_time_range as (_ & Hother & _ & Hfetch). split.
  - apply Hother. rewrite list_elem_of_In. simpl. intuition discriminate.
  - apply (Hfetch (Examples.store Examples.readings AfterLimit)
             (Examples.get Examples.w1 None (Some "2w") None) "2w"
             {[ "OFR" := Examples.ofr_entry_all ]}
             (Some (Examples.config_of [Examples.ofr])) None
             "OFR" Examples.ofr_entry_all).
    + reflexivity.
    + vm_compute. reflexivity.
    + vm_compute. reflexivity.
Defined.

End series_claims.

(** ** Tenant isolation on both endpoints *)

Section tenant_claims.
Import Pg Widgets.

Lemma elem_of_latestQuery db c t j :
  j ∈ latestQuery db c t →
  j.1.1 ∈ device_latest db ∧ j.1.2 ∈ device db
  ∧ dl_device_id j.1.1 = d_id j.1.2
  ∧ d_company_id j.1.2 = c ∧ d_device_type_id j.1.2 = t.
Proof.
  unfold latestQuery. rewrite merge_sort_Permutation, list_elem_of_filter.
  intros [[? ?] Hj]. unfold device_latest_join in Hj.
  apply list_elem_of_bind in Hj as (dl & Hj & ?).
  apply list_elem_of_bind in Hj as (d & Hj & Hd).
  apply list_elem_of_bind in Hj as (dt & Hj & ?).
  apply list_elem_of_filter in Hd as [? ?].
  by apply list_elem_of_singleton in Hj as ->.
Qed.

Lemma for_of_load_latest_sound db req cfg series acc tr :
  ∃ data tr',
    for_of series (load_latest db req cfg) acc tr = (Ok data, tr')
    ∧ ∀ name e, data !! name = Some e →
        acc !! name = Some e
        ∨ ∃ s, s ∈ series ∧ displayName s = name
               ∧ e = latest_entry_of s
                       (latest_point_of (dataSourceProperty s) <$>
                          latestQuery db (user_company_id req) (deviceTypeId cfg)).
Proof.
  revert acc tr; induction series as [|s series IH]; intros acc tr.
  - exists acc, tr. split; [done|]. auto.
  - simpl. unfold bind at 1. unfold load_latest at 1.
    unfold bind, database_query, ret.
    edestruct IH as (data & tr' & -> & Hdata).
    exists data, tr'. split; [done|]. intros name e He.
    destruct (Hdata _ _ He) as [Hacc|(s' & ? & ? & ?)].
    + rewrite lookup_assign in Hacc.
      destruct (decide (displayName s = name ∧ _)) as [[<- _]|_]; [|by auto].
      injection Hacc as <-. right. exists s. split_and!; auto. left.
    + right. exists s'. split_and!; auto. by right.
Qed.

Lemma widget_latest_entry db req data config msg name e :
  (widget_latest db req).1 = Json200 (Some data) config msg →
  data !! name = Some e →
  ∃ cfg s,
    config = Some cfg ∧ displayName s = name
    ∧ latest e = latest_point_of (dataSourceProperty s) <$>
                   latestQuery db (user_company_id req) (deviceTypeId cfg).
Proof.
  unfold widget_latest, widget_latest_try, bind at 1, database_query; simpl.
  destruct (widgetLookup _ _) as [[|widget rest]|]; [done| |done].
  set (cfg := wd_data_source_config widget.1).
  destruct (seriesConfig cfg) as [[|s0 series]|]; [done| |done].
  unfold bind.
  destruct (for_of_load_latest_sound db req cfg (s0 :: series) ∅
              [SelectWidgetDefinition (params_widgetId req)])
    as (data' & tr' & -> & Hdata).
  simpl. intros [= <- <- <-] He.
  destruct (Hdata _ _ He) as [?|(s & ? & ? & ->)]; [done|].
  by exists cfg, s.
Qed.

(** C2.  On the widget-data endpoint and on the latest-data endpoint, the
    points of every entry of a successful response are computed, one for
    one, from rows of the telemetry table joined to a device whose
    [company_id] is the requesting principal's.  The request is arbitrary,
    whatever [hierarchyId] or [deviceId] it names. *)
Theorem C2_tenant_isolation db req :
  (∀ seriesData config msg name e,
     (widget_data db req).1 = Json200 seriesData config msg →
     seriesData !! name = Some e →
     ∃ s, displayName s = name
          ∧ Spec.tenant_points db req (dataSourceProperty s) (data e))
  ∧ (∀ seriesData config msg name e,
       (widget_latest db req).1 = Json200 (Some seriesData) config msg →
       seriesData !! name = Some e →
       ∃ s, displayName s = name
            ∧ Spec.tenant_latest db req (dataSourceProperty s) (latest e)).
Proof.
  split; intros seriesData config msg name e Hr He.
  - destruct (widget_data_entry_points _ _ _ _ _ _ _ Hr He)
      as (cfg & series & s & _ & _ & _ & ? & _ & _
          & n & all & _ & Hall & _ & Hpoints).
    exists s. split; [done|]. exists (take (Z.to_nat n) all). split; [done|].
    apply Forall_take, Forall_forall. intros j Hj.
    rewrite Hall in Hj. apply list_elem_of_filter in Hj as [Hw Hj].
    apply elem_of_device_data_join_device in Hj.
    by destruct Hw as (? & _).
  - destruct (widget_latest_entry _ _ _ _ _ _ _ Hr He) as (cfg & s & _ & ? & ->).
    exists s. split; [done|]. eexists. split; [done|].
    apply Forall_forall. intros j Hj.
    apply elem_of_latestQuery in Hj. tauto.
Qed.

(** Device 3, of company 11, has the newest [ofr] readings in both tables;
    the user of company 10 gets none of them. *)
Lemma C2_tenant_isolation_witness :
  (∃ s, displayName s = "OFR"
        ∧ Spec.tenant_points (Examples.store Examples.readings AfterLimit)
            (Examples.get Examples.w1 None None None)
            (dataSourceProperty s) (data Examples.ofr_entry))
  ∧ (∃ s, displayName s = "OFR"
          ∧ Spec.tenant_latest (Examples.store Examples.readings AfterLimit)
              (Examples.get Examples.w1 None None None)
              (dataSourceProperty s) (latest Examples.ofr_latest)).
Proof.
  destruct (C2_tenant_isolation (Examples.store Examples.readings AfterLimit)
              (Examples.get Examples.w1 None None None)) as [Hdata Hlatest].
  split.
  - apply (Hdata {[ "OFR" := Examples.ofr_entry ]}
             (Some (Examples.config_of [Examples.ofr])) None
             "OFR" Examples.ofr_entry).
    + vm_compute. reflexivity.
    + vm_compute. reflexivity.
  - apply (Hlatest {[ "OFR" := Examples.ofr_latest ]}
             (Some (Examples.config_of [Examples.ofr])) None
             "OFR" Examples.ofr_latest).
    + vm_compute. reflexivity.
    + vm_compute. reflexivity.
Defined.

End tenant_claims.

(** ** Display names, the limit, unparseable values and the scope selectors *)

Section response_claims.
Import Pg Widgets.

Lemma size_list_to_set_le (l : list string) :
  (size (list_to_set l : gset string) ≤ length l)%nat
  ∧ (¬ NoDup l → (size (list_to_set l : gset string) < length l)%nat).
Proof.
  induction l as [|x l [IH1 IH2]].
  - rewrite list_to_set_nil, size_empty.
    split; [done|]. intros H; destruct H; constructor.
  - rewrite list_to_set_cons. cbn [length].
    destruct (decide (x ∈ l)) as [Hx|Hx].
    + assert (({[x]} ∪ list_to_set l : gset string) = list_to_set l) as ->.
      { apply subseteq_union_1_L, singleton_subseteq_l.
        by apply elem_of_list_to_set. }
      split; [lia|]. intros _; lia.
    + rewrite size_union, size_singleton
        by (apply disjoint_singleton_l; by rewrite elem_of_list_to_set).
      split; [lia|]. intros Hdup.
      assert (¬ NoDup l) by (intros ?; apply Hdup; by constructor).
      specialize (IH2 ltac:(done)). lia.
Qed.

Lemma size_list_to_set_filter_le (P : string → Prop) `{∀ x, Decision (P x)}
    (l : list string) :
  (size (list_to_set (filter P l) : gset string)
   ≤ size (list_to_set l : gset string))%nat.
Proof.
  apply subseteq_size. intros x. rewrite !elem_of_list_to_set.
  rewrite list_elem_of_filter. tauto.
Qed.

(** The [data] object of a successful response is keyed by display name:
    it has one entry per distinct display name of the configuration other
    than [__proto__], hence never more entries than configured series and
    fewer as soon as two series share a name; and where a series of another
    name than [__proto__] shares its name with an earlier one and with no
    later one, the entry under that name is made of the rows of the later
    series' own query, with its unit and property name. *)
Lemma widget_data_keyed_by_displayName db req widget rest series seriesData config msg :
  widgetLookup db (params_widgetId req) = Ok (widget :: rest) →
  seriesConfig (wd_data_source_config widget.1) = Some series →
  (widget_data db req).1 = Json200 seriesData config msg →
  dom seriesData
  = list_to_set (filter (λ name, name ≠ "__proto__") (displayName <$> series))
  ∧ seriesData !! "__proto__" = None
  ∧ (size seriesData ≤ length series)%nat
  ∧ (¬ NoDup (displayName <$> series) → (size seriesData < length series)%nat)
  ∧ ∀ pre s1 mid s2 post,
      series = pre ++ s1 :: mid ++ s2 :: post →
      displayName s1 = displayName s2 →
      displayName s2 ≠ "__proto__" →
      displayName s2 ∉ displayName <$> post →
      ∃ rows,
        fetch db req (wd_data_source_config widget.1) s2 = Ok rows
        ∧ seriesData !! displayName s2 = Some (series_entry_of s2 rows).
Proof.
  intros Hw Hcfg. rewrite widget_data_unfold, Hw; simpl. rewrite Hcfg.
  destruct series as [|s0 series].
  { intros [= <- <- <-]. split_and!; try done.
    - intros H; destruct H; constructor.
    - intros pre s1 mid s2 post H. by destruct pre. }
  destruct (for_of _ _ _ _) as [[data'|err] tr] eqn:Hloop; [|done].
  simpl. intros [= <- <- <-].
  pose proof (for_of_load_series_dom _ _ _ _ _ _ _ _ Hloop) as Hdom.
  rewrite dom_empty_L, (left_id_L ∅ (∪)) in Hdom.
  destruct (size_list_to_set_le (displayName <$> s0 :: series)) as [Hle Hlt].
  pose proof (size_list_to_set_filter_le (λ name, name ≠ "__proto__")
                (displayName <$> s0 :: series)) as Hfilter.
  rewrite length_fmap in Hle, Hlt. rewrite <-Hdom, size_dom in Hfilter.
  split_and!; try done.
  - by rewrite (for_of_load_series_proto _ _ _ _ _ _ _ _ Hloop).
  - eapply Nat.le_trans; [exact Hfilter|exact Hle].
  - intros Hdup. eapply Nat.le_lt_trans; [exact Hfilter|exact (Hlt Hdup)].
  - intros pre s1 mid s2 post Hseries _ Hname Hlast.
    assert (pre ++ s1 :: mid ++ s2 :: post = (pre ++ s1 :: mid) ++ s2 :: post)
      as Hassoc by (by rewrite <-app_assoc).
    rewrite Hseries, Hassoc in Hloop.
    by apply (for_of_load_series_last _ _ _ _ _ _ _ _ _ _ Hloop).
Qed.

(** C10.  Widget [w2] configures [ofr] and then [wfr] under the one name
    [OFR]: the response has the single entry [OFR], holding the [wfr]
    reading of the later series.  Widget [w3] configures the same two
    series under the one name [__proto__]: both statements are sent and
    both return rows, and the [data] object of the response is empty, with
    no entry under [__proto__] for the later series. *)
Theorem C10_series_named_proto :
  let db := Examples.store Examples.readings AfterLimit in
  let named := widget_data db (Examples.get Examples.w2 None None None) in
  let proto := widget_data db (Examples.get Examples.w3 None None None) in
  named.1 = Json200 {[ "OFR" := Examples.wfr_entry ]}
              (Some (Examples.config_of [Examples.ofr; Examples.wfr_as_ofr]))
              None
  ∧ widgetLookup db Examples.w3
    = Ok [(Examples.widget Examples.w3
             [Examples.ofr_as_proto; Examples.wfr_as_proto],
           {| wt_id := "line"; wt_name := "line_chart";
              wt_component_name := "CustomLineChart" |})]
  ∧ displayName Examples.ofr_as_proto = displayName Examples.wfr_as_proto
  ∧ (∃ rows,
       fetch db (Examples.get Examples.w3 None None None)
             (Examples.config_of [Examples.ofr_as_proto; Examples.wfr_as_proto])
             Examples.wfr_as_proto
       = Ok rows
       ∧ series_entry_of Examples.wfr_as_proto rows = Examples.wfr_entry)
  ∧ proto
    = (Json200 ∅
         (Some (Examples.config_of
                  [Examples.ofr_as_proto; Examples.wfr_as_proto])) None,
       [SelectWidgetDefinition Examples.w3;
        SelectDeviceData "ofr" 10 1 (Js.Num 200) (Some (24 * 3600000));
        SelectDeviceData "wfr" 10 1 (Js.Num 200) (Some (24 * 3600000))])
  ∧ (∀ seriesData config msg,
       proto.1 = Json200 seriesData config msg →
       seriesData !! displayName Examples.wfr_as_proto = None
       ∧ size seriesData = 0%nat).
Proof.
  intros db named proto.
  assert (Hproto : proto
    = (Json200 ∅
         (Some (Examples.config_of
                  [Examples.ofr_as_proto; Examples.wfr_as_proto])) None,
       [SelectWidgetDefinition Examples.w3;
        SelectDeviceData "ofr" 10 1 (Js.Num 200) (Some (24 * 3600000));
        SelectDeviceData "wfr" 10 1 (Js.Num 200) (Some (24 * 3600000))]))
    by (vm_compute; reflexivity).
  split_and!.
  - vm_compute. reflexivity.
  - vm_compute. reflexivity.
  - reflexivity.
  - eexists. split; vm_compute; reflexivity.
  - exact Hproto.
  - rewrite Hproto. by intros seriesData config msg [= <- <- <-].
Qed.

Lemma seriesQuery_zero db prop c t window :
  seriesQuery db prop c t (Js.Num 0) window = Ok [].
Proof.
  unfold seriesQuery, seriesQuery_src. simpl. by destruct (plan db).
Qed.

Lemma seriesQuery_rejects db prop c t limit window :
  limit = Js.NaN ∨ (∃ n, limit = Js.Num n ∧ n < 0) →
  ∃ err, seriesQuery db prop c t limit window = Err err.
Proof.
  unfold seriesQuery, seriesQuery_src.
  intros [-> | (n & -> & Hn)]; simpl; [by eexists|].
  destruct (decide (bigint_max < n)); [by eexists|].
  destruct (decide (n < 0)); [by eexists|lia].
Qed.

(** C6, as the code has it.  For a widget with at least one series: a limit
    that parses to 0 gives the successful response with no point in any
    entry, and with an entry for every series whose display name the
    object can hold as a key (any but [__proto__]); an absent limit is 200, and no entry then has more than 200
    points; a limit that parses to [NaN] or to a negative number is sent to
    the store as parsed, in the first series' statement, and the request
    ends in the 500 response. *)
Theorem C6_limit_parameter db req widget rest s series :
  widgetLookup db (params_widgetId req) = Ok (widget :: rest) →
  seriesConfig (wd_data_source_config widget.1) = Some (s :: series) →
  (limit_param req = Js.Num 0 →
     ∃ seriesData,
       (widget_data db req).1
       = Json200 seriesData (Some (wd_data_source_config widget.1)) None
       ∧ (∀ name e, seriesData !! name = Some e → data e = [])
       ∧ ∀ s', s' ∈ s :: series → displayName s' ≠ "__proto__" →
           ∃ e, seriesData !! displayName s' = Some e ∧ data e = [])
  ∧ (query_limit req = None →
       limit_param req = Js.Num 200
       ∧ ∀ seriesData config msg name e,
           (widget_data db req).1 = Json200 seriesData config msg →
           seriesData !! name = Some e → (length (data e) ≤ 200)%nat)
  ∧ (limit_param req = Js.NaN ∨ (∃ n, limit_param req = Js.Num n ∧ n < 0) →
       ∃ err,
         widget_data db req
         = (Json500 "Failed to fetch widget data" err,
            [SelectWidgetDefinition (params_widgetId req);
             SelectDeviceData (dataSourceProperty s) (user_company_id req)
               (deviceTypeId (wd_data_source_config widget.1))
               (limit_param req) (window_param req)])).
Proof.
  intros Hw Hcfg. set (cfg := wd_data_source_config widget.1) in *.
  split_and!.
  - intros H0. rewrite widget_data_unfold, Hw; simpl. fold cfg. rewrite Hcfg.
    assert (Hall : Forall (λ s', ∃ rows, fetch db req cfg s' = Ok rows)
                     (s :: series)).
    { apply Forall_forall. intros s' _. exists []. unfold fetch.
      rewrite H0. apply seriesQuery_zero. }
    destruct (for_of_load_series_total db req cfg _ ∅
                [SelectWidgetDefinition (params_widgetId req)] Hall)
      as [seriesData Hloop].
    rewrite Hloop. exists seriesData. split; [done|].
    assert (Hempty : ∀ name e, seriesData !! name = Some e → data e = []).
    { intros name e He.
      destruct (for_of_load_series_sound _ _ _ _ _ _ _ _ _ _ Hloop He)
        as [?|(s'' & rows & _ & _ & Hrows & ->)]; [done|].
      unfold fetch in Hrows. rewrite H0, seriesQuery_zero in Hrows.
      by injection Hrows as <-. }
    split; [exact Hempty|]. intros s' Hs' Hname.
    pose proof (for_of_load_series_dom _ _ _ _ _ _ _ _ Hloop) as Hdom.
    assert (is_Some (seriesData !! displayName s')) as [e He].
    { apply elem_of_dom. rewrite Hdom. apply elem_of_union_r.
      apply elem_of_list_to_set, list_elem_of_filter. split; [done|].
      apply list_elem_of_fmap. eauto. }
    exists e. split; [done|]. by apply (Hempty (displayName s')).
  - intros Hnone.
    assert (Hl : limit_param req = Js.Num 200)
      by (unfold limit_param; by rewrite Hnone).
    split; [done|]. intros seriesData config msg name e Hr He.
    destruct (widget_data_entry_points _ _ _ _ _ _ _ Hr He)
      as (? & ? & ? & _ & _ & _ & _ & _ & _ & n & all & Hn & _ & _ & Hpoints).
    rewrite (Forall2_length _ _ _ Hpoints), length_take.
    assert (n = 200) as -> by congruence. lia.
  - intros Hbad. rewrite widget_data_unfold, Hw; simpl. fold cfg. rewrite Hcfg.
    destruct (seriesQuery_rejects db (dataSourceProperty s) (user_company_id req)
                (deviceTypeId cfg) _ (window_param req) Hbad) as [err Herr].
    exists err. by rewrite (for_of_load_series_fails db req cfg s series _ _ err).
Qed.

(** The three cases at widget [w1]: limit [0], no limit, limit [-5]. *)
Lemma C6_limit_parameter_witness :
  (∃ seriesData,
     (widget_data (Examples.store Examples.readings BeforeSort)
                  (Examples.get Examples.w1 (Some "0") None None)).1
     = Json200 seriesData (Some (Examples.config_of [Examples.ofr])) None
     ∧ (∀ name e, seriesData !! name = Some e → data e = [])
     ∧ ∀ s', s' ∈ [Examples.ofr] → displayName s' ≠ "__proto__" →
         ∃ e, seriesData !! displayName s' = Some e ∧ data e = [])
  ∧ limit_param (Examples.get Examples.w1 None None None) = Js.Num 200
  ∧ (∃ err,
       widget_data (Examples.store Examples.readings BeforeSort)
                   (Examples.get Examples.w1 (Some "-5") None None)
       = (Json500 "Failed to fetch widget data" err,
          [SelectWidgetDefinition Examples.w1;
           SelectDeviceData "ofr" 10 1 (Js.Num (-5)) (Some (24 * 3600000))])).
Proof.
  pose (db := Examples.store Examples.readings BeforeSort).
  pose (w := (Examples.widget Examples.w1 [Examples.ofr],
              {| wt_id := "line"; wt_name := "line_chart";
                 wt_component_name := "CustomLineChart" |})).
  assert (Hw : ∀ limit,
            widgetLookup db (params_widgetId (Examples.get Examples.w1 limit None None))
            = Ok (w :: [])) by (intros limit; vm_compute; reflexivity).
  split_and!.
  - destruct (C6_limit_parameter db (Examples.get Examples.w1 (Some "0") None None)
                w [] Examples.ofr [] (Hw _) eq_refl) as (H0 & _ & _).
    apply H0. reflexivity.
  - destruct (C6_limit_parameter db (Examples.get Examples.w1 None None None)
                w [] Examples.ofr [] (Hw _) eq_refl) as (_ & H200 & _).
    apply H200. reflexivity.
  - destruct (C6_limit_parameter db (Examples.get Examples.w1 (Some "-5") None None)
                w [] Examples.ofr [] (Hw _) eq_refl) as (_ & _ & Hbad).
    apply Hbad. right. exists (-5). split; [reflexivity|lia].
Defined.

(** C6, as the specification has it, fails: with the limits [-5] and [abc]
    the request for widget [w1] ends in the 500 response, which is not what
    the same request without a limit gets: that one succeeds with two
    points. *)
Lemma C6_no_fallback_to_default :
  (widget_data (Examples.store Examples.readings AfterLimit)
               (Examples.get Examples.w1 (Some "-5") None None)).1
  = Json500 "Failed to fetch widget data" limit_must_not_be_negative
  ∧ (widget_data (Examples.store Examples.readings AfterLimit)
                 (Examples.get Examples.w1 (Some "abc") None None)).1
    = Json500 "Failed to fetch widget data" invalid_input_syntax_for_type_bigint
  ∧ (widget_data (Examples.store Examples.readings AfterLimit)
                 (Examples.get Examples.w1 None None None)).1
    = Json200 {[ "OFR" := Examples.ofr_entry ]}
              (Some (Examples.config_of [Examples.ofr])) None
  ∧ (widget_data (Examples.store Examples.readings AfterLimit)
                 (Examples.get Examples.w1 (Some "-5") None None)).1
    ≠ (widget_data (Examples.store Examples.readings AfterLimit)
                   (Examples.get Examples.w1 None None None)).1
  ∧ (widget_data (Examples.store Examples.readings AfterLimit)
                 (Examples.get Examples.w1 (Some "abc") None None)).1
    ≠ (widget_data (Examples.store Examples.readings AfterLimit)
                   (Examples.get Examples.w1 None None None)).1.
Proof. split_and!; vm_compute; (reflexivity || discriminate). Qed.

(** C7.  A reading of device 1 carries the text [abc] under [ofr].  Under
    either plan the widget-data request ends in the 500 response: the cast
    to [numeric] fails before [COALESCE] or [|| 0] can supply a 0.  The
    latest-data handler, which parses the text itself, returns the value 0
    for the same text. *)
Theorem C7_unparseable_value_fails_request p :
  (widget_data (Examples.store Examples.malformed_readings p)
               (Examples.get Examples.w1 None None None)).1
  = Json500 "Failed to fetch widget data" invalid_input_syntax_for_type_numeric
  ∧ (widget_latest (Examples.store Examples.malformed_readings p)
                   (Examples.get Examples.w1 None None None)).1
    = Json200 (Some {[ "OFR" := Examples.ofr_latest ]})
              (Some (Examples.config_of [Examples.ofr])) None.
Proof. destruct p; split; vm_compute; reflexivity. Qed.

(** The handler reads neither [hierarchyId] nor [deviceId]. *)
Lemma widget_data_ignores_scope db req hierarchyId deviceId :
  widget_data db (Spec.with_scope req hierarchyId deviceId) = widget_data db req.
Proof. reflexivity. Qed.

(** C1.  Node 5 has the one descendant 6.  Asked for [hierarchyId = 5], the
    handler returns the reading of device 2 as well, which hangs under node
    7, outside the subtree of node 5. *)
Theorem C1_hierarchy_filter_missing :
  let db := Examples.store Examples.readings AfterLimit in
  let req := Examples.get Examples.w1 None None (Some "5") in
  let reading := Examples.sample 2 "MPFM-002" (Examples.clock - 3000)
                   {[ "ofr" := JNumeric 101 ]} in
  let device2 := {| d_id := 2; d_company_id := 10; d_device_type_id := 1;
                    d_hierarchy_id := Some 7; d_location := None |} in
  let point := {| dp_timestamp := Examples.clock - 3000;
                  dp_serialNumber := "MPFM-002"; dp_value := 101 |} in
  Hierarchy.resolveSubtree db 5 = [5; 6]
  ∧ (widget_data db req).1
    = Json200 {[ "OFR" := Examples.ofr_entry ]}
              (Some (Examples.config_of [Examples.ofr])) None
  ∧ point ∈ data Examples.ofr_entry
  ∧ Spec.joined db (reading, device2)
  ∧ Spec.computed_from "ofr" point (reading, device2)
  ∧ d_hierarchy_id device2 = Some 7
  ∧ 7 ∉ Hierarchy.resolveSubtree db 5.
Proof.
  intros db req reading device2 point.
  assert (Hsub : Hierarchy.resolveSubtree db 5 = [5; 6])
    by (vm_compute; reflexivity).
  split_and!.
  - exact Hsub.
  - vm_compute. reflexivity.
  - left.
  - split_and!; [right; left|right; left|reflexivity].
  - eexists. split; [vm_compute; reflexivity|reflexivity].
  - reflexivity.
  - rewrite Hsub. intros H.
    repeat (apply elem_of_cons in H as [H|H]; [discriminate|]).
    by apply elem_of_nil in H.
Qed.

End response_claims.

(** ** The chart normalizer *)

Section chart_object.
Import Chart.
Context {V : Type}.
Implicit Types (o : list (Z * V)) (k t : Z).

Lemma get_None k o : get k o = None ↔ k ∉ o.*1.
Proof.
  induction o as [|[k' v] o IH]; csimpl.
  - split; [intros _; apply not_elem_of_nil|done].
  - rewrite not_elem_of_cons. destruct (decide (k' = k)) as [->|Hne].
    + split; [done|]. by intros [? _].
    + rewrite IH. split; [by split|by intros [_ ?]].
Qed.

Lemma get_Some k v o : NoDup o.*1 → get k o = Some v ↔ (k, v) ∈ o.
Proof.
  induction o as [|[k' v'] o IH]; csimpl; intros Hnd.
  - split; [done|]. intros H; by apply elem_of_nil in H.
  - apply NoDup_cons in Hnd as [Hk' Hnd]. rewrite elem_of_cons.
    destruct (decide (k' = k)) as [->|Hne].
    + split; [intros [= ->]; by left|]. intros [[= ->]|Hin]; [done|].
      destruct Hk'. apply list_elem_of_fmap. by exists (k, v).
    + rewrite (IH Hnd). split; [by right|]. intros [[= ? ?]|?]; [done|done].
Qed.

Lemma get_alter (f : V → V) k t o :
  get t (alter f k o) = if decide (k = t) then f <$> get t o else get t o.
Proof.
  induction o as [|[k' v] o IH]; simpl; [by destruct (decide _)|].
  destruct (decide (k' = k)) as [->|Hne]; simpl.
  - by destruct (decide (k = t)).
  - rewrite IH. destruct (decide (k' = t)) as [->|]; [|done].
    by rewrite decide_False by done.
Qed.

Lemma keys_alter (f : V → V) k o : (alter f k o).*1 = o.*1.
Proof.
  induction o as [|[k' v] o IH]; csimpl; [done|].
  destruct (decide (k' = k)); csimpl; by rewrite ?IH.
Qed.

Lemma get_insert_index k v t o :
  k ∉ o.*1 →
  get t (insert_index k v o) = if decide (k = t) then Some v else get t o.
Proof.
  induction o as [|[k' v'] o IH]; csimpl; [done|].
  rewrite not_elem_of_cons. intros [Hne Hk].
  destruct (is_array_index k' && (k' <? k)); simpl; [|done].
  rewrite (IH Hk). destruct (decide (k' = t)) as [->|]; [|done].
  by rewrite decide_False by done.
Qed.

Lemma keys_insert_index k v o : (insert_index k v o).*1 ≡ₚ k :: o.*1.
Proof.
  induction o as [|[k' v'] o IH]; csimpl; [done|].
  destruct (is_array_index k' && (k' <? k)); csimpl; [|done].
  rewrite IH. apply Permutation_swap.
Qed.

Lemma get_snoc k v t o :
  k ∉ o.*1 →
  get t (o ++ [(k, v)]) = if decide (k = t) then Some v else get t o.
Proof.
  induction o as [|[k' v'] o IH]; csimpl; [done|].
  rewrite not_elem_of_cons. intros [Hne Hk]. rewrite (IH Hk).
  destruct (decide (k' = t)) as [->|]; [|done].
  by rewrite decide_False by done.
Qed.

Lemma get_create k v t o :
  k ∉ o.*1 →
  get t (create k v o) = if decide (k = t) then Some v else get t o.
Proof.
  intros Hk. unfold create. destruct (is_array_index k).
  - by apply get_insert_index.
  - by apply get_snoc.
Qed.

Lemma keys_create k v o : (create k v o).*1 ≡ₚ k :: o.*1.
Proof.
  unfold create. destruct (is_array_index k).
  - apply keys_insert_index.
  - rewrite fmap_app. csimpl. by rewrite Permutation_app_comm.
Qed.

End chart_object.

Section chart_facts.
Import Chart.
Implicit Types (dm : list (Z * row)) (es : list (string * SeriesData)).

Lemma get_add_point name dm p t :
  get t (add_point name dm p) =
    if decide (timestamp p = t)
    then Some (Js.assign name (value p)
                 (default {[ "timestamp" := t ]} (get t dm)))
    else get t dm.
Proof.
  unfold add_point. destruct (get (timestamp p) dm) as [r|] eqn:Hg.
  - rewrite get_alter. destruct (decide (timestamp p = t)) as [<-|]; [|done].
    by rewrite Hg.
  - apply get_None in Hg. rewrite get_alter, get_create by done.
    destruct (decide (timestamp p = t)) as [<-|]; [|done].
    apply get_None in Hg. by rewrite Hg.
Qed.

Lemma keys_add_point name dm p :
  NoDup dm.*1 → NoDup (add_point name dm p).*1.
Proof.
  intros Hnd. unfold add_point. rewrite keys_alter.
  destruct (get (timestamp p) dm) eqn:Hg; [done|].
  rewrite keys_create. apply NoDup_cons. split; [|done]. by apply get_None.
Qed.

Lemma keys_foldl_add_point name pts dm :
  NoDup dm.*1 → NoDup (foldl (add_point name) dm pts).*1.
Proof.
  revert dm; induction pts as [|p pts IH]; simpl; intros dm Hnd; [done|].
  by apply IH, keys_add_point.
Qed.

Lemma get_foldl_add_point name pts dm t :
  get t (foldl (add_point name) dm pts) =
    match value <$> last (filter (λ p, timestamp p = t) pts) with
    | Some v => Some (Js.assign name v
                        (default {[ "timestamp" := t ]} (get t dm)))
    | None => get t dm
    end.
Proof.
  induction pts as [|p pts IH] using rev_ind; [done|].
  rewrite foldl_snoc, get_add_point, filter_app, (filter_singleton _ p []).
  destruct (decide (timestamp p = t)) as [Hp|Hp].
  - rewrite last_snoc; simpl. rewrite IH.
    destruct (value <$> last _) as [v'|]; simpl; [|done].
    by rewrite assign_assign.
  - by rewrite app_nil_r.
Qed.

Lemma column_at_None series t :
  Spec.column_at series t = None ↔ ∀ p, p ∈ data series → timestamp p ≠ t.
Proof.
  unfold Spec.column_at. rewrite fmap_None, last_None. split.
  - intros Hnil p Hp Ht. by apply (filter_nil_not_elem_of _ _ p Hnil).
  - intros Hall. destruct (filter _ _) as [|p l] eqn:Hf; [done|].
    assert (p ∈ filter (λ p, timestamp p = t) (data series)) as Hp
      by (rewrite Hf; left).
    apply list_elem_of_filter in Hp as [? ?]. by destruct (Hall p).
Qed.

Lemma column_at_Some series t v :
  Spec.column_at series t = Some v →
  ∃ p, p ∈ data series ∧ timestamp p = t.
Proof.
  unfold Spec.column_at. intros (p & Hp & _)%fmap_Some.
  apply last_Some_elem_of, list_elem_of_filter in Hp as [? ?]. eauto.
Qed.

Lemma keys_foldl_add_series es st :
  keys (foldl add_series st es) = keys st ++ es.*1.
Proof.
  revert st; induction es as [|e es IH]; intros st; csimpl.
  - by rewrite app_nil_r.
  - rewrite IH; simpl. by rewrite <-app_assoc.
Qed.

(** What the loops leave in [dataMap] and [unitsMap], for series with
    pairwise distinct names, none of them ["timestamp"] or [__proto__]. *)
Lemma foldl_add_series_inv es :
  NoDup es.*1 → "timestamp" ∉ es.*1 → "__proto__" ∉ es.*1 →
  let st := foldl add_series {| dataMap := []; keys := []; unitsMap := ∅ |} es in
  (∀ name series, (name, series) ∈ es → unitsMap st !! name = Some (unit series))
  ∧ (∀ k, k ∉ es.*1 → unitsMap st !! k = None)
  ∧ NoDup (dataMap st).*1
  ∧ ∀ t,
      match get t (dataMap st) with
      | None => ∀ name series p,
          (name, series) ∈ es → p ∈ data series → timestamp p ≠ t
      | Some r =>
          (∃ name series p,
             (name, series) ∈ es ∧ p ∈ data series ∧ timestamp p = t)
          ∧ Spec.row_of es t r
      end.
Proof.
  induction es as [|[name series] es IH] using rev_ind; intros Hnd Hts Hproto.
  { simpl. split_and!; [|done|constructor|].
    - intros ?? H; by apply elem_of_nil in H.
    - intros t ??? H; by apply elem_of_nil in H. }
  rewrite fmap_app in Hnd, Hts, Hproto. csimpl in *.
  apply NoDup_app in Hnd as (Hnd & Hfresh & _).
  rewrite elem_of_app in Hts. apply Decidable.not_or in Hts as [Hts Hname].
  rewrite list_elem_of_singleton in Hname.
  rewrite elem_of_app in Hproto. apply Decidable.not_or in Hproto as [Hproto Hobj].
  rewrite list_elem_of_singleton in Hobj.
  assert (Hnew : name ∉ es.*1).
  { intros Hin. apply (Hfresh _ Hin). left. }
  destruct (IH Hnd Hts Hproto) as (Hunits & Hnounit & Hkeys & Hrows). clear IH.
  rewrite foldl_snoc. set (st := foldl add_series _ es) in *. simpl.
  rewrite (assign_insert name) by done.
  assert (Hother : ∀ name' series', (name', series') ∈ es → name' ≠ name).
  { intros name' series' Hin ->. apply Hnew, list_elem_of_fmap.
    by exists (name, series'). }
  split_and!.
  - intros name' series' [Hin|Hin%list_elem_of_singleton]%elem_of_app.
    + rewrite lookup_insert_ne by (by intros <-; eapply Hother). by apply Hunits.
    + injection Hin as -> ->. apply lookup_insert_eq.
  - intros k Hk. rewrite fmap_app, not_elem_of_app in Hk. destruct Hk as [? Hk].
    csimpl in Hk. rewrite list_elem_of_singleton in Hk.
    rewrite lookup_insert_ne by done. by apply Hnounit.
  - by apply keys_foldl_add_point.
  - intros t. rewrite get_foldl_add_point. fold (Spec.column_at series t).
    specialize (Hrows t).
    destruct (Spec.column_at series t) as [v|] eqn:Hcol.
    + destruct (column_at_Some _ _ _ Hcol) as (p & Hp & Hpt).
      rewrite (assign_insert name) by done.
      split.
      { exists name, series, p. split_and!; try done.
        apply elem_of_app; right; left. }
      assert (Hbase : ∀ k, k ≠ "timestamp" →
                (∀ series', (k, series') ∈ es →
                   default {[ "timestamp" := t ]} (get t (dataMap st)) !! k
                   = Spec.column_at series' t)
                ∧ (k ∉ es.*1 →
                   default {[ "timestamp" := t ]} (get t (dataMap st)) !! k
                   = None)).
      { intros k Hk. destruct (get t (dataMap st)) as [r|]; simpl.
        - destruct Hrows as (_ & _ & Hcols & Hnone). split; auto.
        - rewrite lookup_singleton_ne by done. split; [|done].
          intros series' Hin. symmetry. apply column_at_None.
          intros p' Hp'. by apply (Hrows k series'). }
      split_and!.
      * rewrite lookup_insert_ne by done.
        destruct (get t (dataMap st)) as [r|]; simpl.
        -- by destruct Hrows as (_ & ? & _).
        -- apply lookup_singleton_eq.
      * intros name' series' [Hin|Hin%list_elem_of_singleton]%elem_of_app.
        -- rewrite lookup_insert_ne by (by intros <-; eapply Hother).
           apply Hbase; [|done]. intros ->. apply Hts, list_elem_of_fmap.
           by exists ("timestamp", series').
        -- injection Hin as -> ->. by rewrite lookup_insert_eq.
      * intros k Hk Hnotin. rewrite fmap_app, not_elem_of_app in Hnotin.
        destruct Hnotin as [Hnotin Hkn]. csimpl in Hkn.
        rewrite list_elem_of_singleton in Hkn.
        rewrite lookup_insert_ne by done. by apply Hbase.
    + pose proof (proj1 (column_at_None _ _) Hcol) as Hnone.
      destruct (get t (dataMap st)) as [r|].
      * destruct Hrows as ((name' & series' & p' & ? & ? & ?) & Hts' & Hcols & Hrest).
        split.
        { exists name', series', p'. split_and!; try done.
          apply elem_of_app; by left. }
        split_and!; [done| |].
        -- intros name'' series'' [Hin|Hin%list_elem_of_singleton]%elem_of_app.
           ++ by apply Hcols.
           ++ injection Hin as -> ->. rewrite Hcol. by apply Hrest.
        -- intros k Hk Hnotin. rewrite fmap_app, not_elem_of_app in Hnotin.
           apply Hrest; tauto.
      * intros name' series' p' [Hin|Hin%list_elem_of_singleton]%elem_of_app.
        -- by apply (Hrows name' series').
        -- injection Hin as -> ->. by apply Hnone.
Qed.

End chart_facts.

Section chart_claims.
Import Chart.
#[local] Abbreviation instant := Spec.instant.

Lemma timestamp_le_total a b : timestamp_le a b ∨ timestamp_le b a.
Proof.
  unfold timestamp_le.
  destruct (a !! "timestamp"), (b !! "timestamp"); auto. lia.
Qed.

Lemma sort_insert_Permutation x l : sort_insert x l ≡ₚ x :: l.
Proof.
  induction l as [|y l IH]; simpl; [done|].
  destruct (decide (timestamp_le x y)); [done|].
  rewrite IH. apply Permutation_swap.
Qed.

Lemma sort_Permutation l : sort l ≡ₚ l.
Proof.
  induction l as [|x l IH]; simpl; [done|].
  by rewrite sort_insert_Permutation, IH.
Qed.

Lemma sort_insert_Sorted x l :
  Sorted timestamp_le l → Sorted timestamp_le (sort_insert x l).
Proof.
  induction 1 as [|y l Hl IH Hy]; simpl; [by repeat constructor|].
  destruct (decide (timestamp_le x y)) as [Hxy|Hxy].
  - by repeat constructor.
  - constructor; [done|].
    assert (timestamp_le y x) by (by destruct (timestamp_le_total x y)).
    destruct Hy as [|z l Hz]; simpl in *; [by constructor|].
    destruct (decide (timestamp_le x z)); by constructor.
Qed.

Lemma sort_Sorted l : Sorted timestamp_le (sort l).
Proof.
  induction l as [|x l IH]; simpl; [constructor|]. by apply sort_insert_Sorted.
Qed.

Lemma Sorted_instant l :
  Forall (λ r : row, is_Some (r !! "timestamp")) l →
  Sorted timestamp_le l → Sorted Z.le (instant <$> l).
Proof.
  intros Hall Hl. induction Hl as [|x l Hl IH Hx]; csimpl; [constructor|].
  apply Forall_cons in Hall as [[tx Hx'] Hall]. constructor; [by apply IH|].
  destruct Hx as [|y l Hxy]; csimpl; constructor.
  apply Forall_cons in Hall as [[ty Hy'] _].
  unfold timestamp_le, instant in *. rewrite Hx', Hy' in *. done.
Qed.

Lemma StronglySorted_lt (l : list Z) :
  NoDup l → StronglySorted Z.le l → StronglySorted Z.lt l.
Proof.
  induction 2 as [|x l Hl IH Hx]; constructor.
  - apply IH. by eapply NoDup_cons_1_2.
  - apply NoDup_cons in H as [Hnotin _].
    rewrite Forall_forall in Hx |- *. intros y Hy.
    specialize (Hx y Hy). assert (x ≠ y) by (by intros ->). lia.
Qed.

(** The normalizer, for series with pairwise distinct names, none of which
    is ["timestamp"] or [__proto__]: the series names in the order of the input, the unit
    of each series, and one row per instant at which some series has a
    point, in strictly ascending order of instant; the row of an instant
    has, under each series' name, the value of that series there, and no
    column for a series without a point there. *)
Lemma formatChartData_rows seriesData :
  NoDup seriesData.*1 → "timestamp" ∉ seriesData.*1 →
  "__proto__" ∉ seriesData.*1 →
  chart_keys (formatChartData seriesData) = seriesData.*1
  ∧ (∀ name series, (name, series) ∈ seriesData →
       chart_units (formatChartData seriesData) !! name = Some (unit series))
  ∧ (∀ k, k ∉ seriesData.*1 →
       chart_units (formatChartData seriesData) !! k = None)
  ∧ ∃ ts,
      StronglySorted Z.lt ts
      ∧ (∀ t, t ∈ ts ↔ ∃ name series p,
                 (name, series) ∈ seriesData ∧ p ∈ data series ∧ timestamp p = t)
      ∧ Forall2 (Spec.row_of seriesData) ts (chart_data (formatChartData seriesData)).
Proof.
  intros Hnd Hts Hproto.
  destruct (foldl_add_series_inv seriesData Hnd Hts Hproto)
    as (Hunits & Hnounit & Hkeys & Hrows).
  unfold formatChartData. simpl.
  set (st := foldl add_series _ seriesData) in *.
  assert (Hentry : ∀ k r, (k, r) ∈ dataMap st →
            Spec.row_of seriesData k r
            ∧ ∃ name series p,
                (name, series) ∈ seriesData ∧ p ∈ data series ∧ timestamp p = k).
  { intros k r Hin%(get_Some _ _ _ Hkeys). specialize (Hrows k).
    rewrite Hin in Hrows. tauto. }
  assert (Hinst : instant <$> (dataMap st).*2 = (dataMap st).*1).
  { rewrite <-list_fmap_compose. apply list_fmap_ext. intros i [k r] Hi.
    apply list_elem_of_lookup_2, Hentry in Hi as [(Hi & _) _].
    simpl. unfold instant. by rewrite Hi. }
  assert (Hperm : instant <$> sort (dataMap st).*2 ≡ₚ (dataMap st).*1)
    by (by rewrite sort_Permutation, Hinst).
  split_and!; [apply keys_foldl_add_series|done|done|].
  exists (instant <$> sort (dataMap st).*2). split_and!.
  - apply StronglySorted_lt; [by rewrite Hperm|].
    apply Sorted_StronglySorted; [apply _|]. apply Sorted_instant, sort_Sorted.
    apply Forall_forall. intros r Hr. rewrite sort_Permutation in Hr.
    apply list_elem_of_fmap in Hr as ([k r'] & -> & Hr).
    apply Hentry in Hr as [(Hr & _) _]. by exists k.
  - intros t. rewrite Hperm. split.
    + intros ([k r] & -> & Hin)%list_elem_of_fmap. by apply Hentry in Hin as [_ ?].
    + intros (name & series & p & Hin & Hp & Hpt). specialize (Hrows t).
      destruct (get t (dataMap st)) as [r|] eqn:Hget.
      * apply (get_Some _ _ _ Hkeys) in Hget.
        apply list_elem_of_fmap. by exists (t, r).
      * by destruct (Hrows name series p).
  - apply Forall2_fmap_l, Forall_Forall2_diag, Forall_forall.
    intros r Hr. rewrite sort_Permutation in Hr.
    apply list_elem_of_fmap in Hr as ([k r'] & -> & Hr).
    apply Hentry in Hr as [Hrow _]. simpl.
    unfold instant. by rewrite (proj1 Hrow).
Qed.

Lemma StronglySorted_lt_NoDup (l : list Z) : StronglySorted Z.lt l → NoDup l.
Proof.
  induction 1 as [|x l _ IH Hx]; constructor; [|done].
  intros Hin. rewrite Forall_forall in Hx. specialize (Hx _ Hin). lia.
Qed.

Lemma sorted_instants (ts : list Z) t1 t2 :
  t1 < t2 → StronglySorted Z.lt ts → (∀ t, t ∈ ts ↔ t = t1 ∨ t = t2) →
  ts = [t1; t2].
Proof.
  intros Hlt Hs Hmem.
  apply (StronglySorted_unique_strong Z.lt); [intros; lia|done| |].
  - repeat constructor; done.
  - apply NoDup_Permutation; [by apply StronglySorted_lt_NoDup| |].
    + apply NoDup_cons. split; [|apply NoDup_singleton].
      rewrite list_elem_of_singleton. lia.
    + intros t. rewrite Hmem, !elem_of_cons, elem_of_nil. tauto.
Qed.

(** The round trip of the specification, for any two instants [t1 < t2]:
    series A = {(t1, 1), (t2, 2)} and B = {(t1, 9)} give the rows
    [{t1, A: 1, B: 9}, {t2, A: 2}] and the names [A, B]. *)
Lemma formatChartData_a_b t1 t2 :
  t1 < t2 →
  formatChartData (Examples.series_a_b t1 t2) =
    {| chart_data := [ {[ "timestamp" := t1; "A" := 1; "B" := 9 ]};
                       {[ "timestamp" := t2; "A" := 2 ]} ];
       chart_keys := ["A"; "B"];
       chart_units := {[ "A" := "l/min"; "B" := "bar" ]} |}.
Proof.
  intros Hlt.
  destruct (formatChartData_rows (Examples.series_a_b t1 t2))
    as (Hkeys & Hunits & Hnounit & ts & Hsorted & Hmem & Hrows).
  { apply (bool_decide_unpack _). by vm_compute. }
  { apply (bool_decide_unpack _). by vm_compute. }
  { apply (bool_decide_unpack _). by vm_compute. }
  destruct (formatChartData _) as [rows keys units]. simpl in *.
  assert (HA : ("A", Examples.chart_series "l/min"
                       [Examples.chart_point t1 1; Examples.chart_point t2 2])
               ∈ Examples.series_a_b t1 t2) by left.
  assert (HB : ("B", Examples.chart_series "bar" [Examples.chart_point t1 9])
               ∈ Examples.series_a_b t1 t2) by (right; left).
  assert (ts = [t1; t2]) as ->.
  { apply sorted_instants; [done..|]. intros t. rewrite Hmem. split.
    - intros (name & series & p & Hin & Hp & <-).
      repeat (apply elem_of_cons in Hin as [[= -> ->]|Hin]);
        [..|by apply elem_of_nil in Hin]; simpl in Hp;
        repeat (apply elem_of_cons in Hp as [->|Hp]);
        try (by apply elem_of_nil in Hp); simpl; auto.
    - intros [-> | ->].
      + eexists "A", _, (Examples.chart_point t1 1).
        split_and!; [exact HA|left|done].
      + eexists "A", _, (Examples.chart_point t2 2).
        split_and!; [exact HA|right; left|done]. }
  f_equal.
  - apply Forall2_cons_inv_l in Hrows as (r1 & rows' & H1 & Hrows & ->).
    apply Forall2_cons_inv_l in Hrows as (r2 & rows'' & H2 & Hrows & ->).
    apply Forall2_nil_inv_l in Hrows as ->.
    destruct H1 as (H1t & H1c & H1n), H2 as (H2t & H2c & H2n).
    pose proof (H1c _ _ HA) as H1A. pose proof (H1c _ _ HB) as H1B.
    pose proof (H2c _ _ HA) as H2A. pose proof (H2c _ _ HB) as H2B.
    unfold Spec.column_at in *. cbn in H1A, H1B, H2A, H2B.
    rewrite !decide_True in H1A, H1B by done.
    rewrite !decide_False in H1A by lia.
    rewrite decide_False, decide_True in H2A by (done || lia).
    rewrite decide_False in H2B by lia. cbn in *.
    f_equal; [|f_equal]; apply map_eq; intros k.
    + destruct (decide (k = "timestamp")) as [->|]; [by rewrite H1t|].
      destruct (decide (k = "A")) as [->|]; [by rewrite H1A|].
      destruct (decide (k = "B")) as [->|]; [by rewrite H1B|].
      rewrite H1n by (done || (rewrite !elem_of_cons, elem_of_nil; tauto)).
      rewrite ?lookup_insert_ne by done. by rewrite lookup_singleton_ne.
    + destruct (decide (k = "timestamp")) as [->|]; [by rewrite H2t|].
      destruct (decide (k = "A")) as [->|]; [by rewrite H2A|].
      destruct (decide (k = "B")) as [->|]; [by rewrite H2B|].
      rewrite H2n by (done || (rewrite !elem_of_cons, elem_of_nil; tauto)).
      rewrite ?lookup_insert_ne by done. by rewrite lookup_singleton_ne.
  - done.
  - apply map_eq. intros k.
    destruct (decide (k = "A")) as [->|]; [by rewrite (Hunits _ _ HA)|].
    destruct (decide (k = "B")) as [->|]; [by rewrite (Hunits _ _ HB)|].
    rewrite Hnounit by (rewrite !elem_of_cons, elem_of_nil; tauto).
    rewrite ?lookup_insert_ne by done. by rewrite lookup_singleton_ne.
Qed.

(** C4.  A series called [timestamp] overwrites the instant of its rows:
    the row built for instant 5000 carries 99999 under ["timestamp"] and
    comes after the row of instant 6000; no row carries the instant 5000,
    at which the input has a point. *)
Theorem C4_series_named_timestamp :
  formatChartData Examples.series_named_timestamp =
    {| chart_data := [ {[ "timestamp" := 6000; "A" := 8 ]};
                       {[ "timestamp" := 99999 ]} ];
       chart_keys := ["timestamp"; "A"];
       chart_units := {[ "timestamp" := "s"; "A" := "l/min" ]} |}
  ∧ (∃ name series p,
       (name, series) ∈ Examples.series_named_timestamp
       ∧ p ∈ data series ∧ timestamp p = 5000)
  ∧ ∀ r, r ∈ chart_data (formatChartData Examples.series_named_timestamp) →
         r !! "timestamp" ≠ Some 5000.
Proof.
  assert (Heq : formatChartData Examples.series_named_timestamp =
    {| chart_data := [ {[ "timestamp" := 6000; "A" := 8 ]};
                       {[ "timestamp" := 99999 ]} ];
       chart_keys := ["timestamp"; "A"];
       chart_units := {[ "timestamp" := "s"; "A" := "l/min" ]} |})
    by (vm_compute; reflexivity).
  split_and!.
  - exact Heq.
  - exists "timestamp", (Examples.chart_series "s" [Examples.chart_point 5000 99999]),
      (Examples.chart_point 5000 99999).
    split_and!; [left|left|reflexivity].
  - rewrite Heq. simpl. intros r Hr.
    repeat (apply elem_of_cons in Hr as [->|Hr]; [by vm_compute|]).
    by apply elem_of_nil in Hr.
Qed.

End chart_claims.
(** ** The dashboard handlers *)

Section admin_client.
Import Pg Admin AdminSpec.

Lemma truthy_number_Some n m : truthy_number n = Some m → n = Some m ∧ m ≠ 0.
Proof. destruct n as [[| |]|]; simpl; intros [= <-]; done. Qed.

Lemma truthy_string_Some s t : truthy_string s = Some t → s = Some t ∧ t ≠ EmptyString.
Proof. destruct s as [[|]|]; simpl; intros [= <-]; done. Qed.

Lemma collect_series_run deviceTypeId propertyIds acc s :
  collect_series deviceTypeId propertyIds acc s =
  match specs_of deviceTypeId propertyIds (current s) with
  | inr specs => (inr (inr (acc ++ specs)), s)
  | inl propId =>
      (inr (inl (Refused 400
                   ("Property with ID " +:+ pretty propId +:+
                    " not found for device type " +:+ pretty deviceTypeId))),
       idle (committed s))
  end.
Proof.
  revert acc. induction propertyIds as [|propId rest IH]; intros acc; simpl.
  - by rewrite app_nil_r.
  - unfold bind at 1, read at 1.
    destruct (mappingQuery propId deviceTypeId (current s)) as [|mapping ?]; [done|].
    rewrite IH. destruct (specs_of deviceTypeId rest (current s)); [done|].
    by rewrite <-app_assoc.
Qed.

(** The series collected come, one per property and in order, from a
    mapping of that property for the device type. *)
Lemma specs_of_inr deviceTypeId propertyIds st specs :
  specs_of deviceTypeId propertyIds st = inr specs →
  Forall2 (λ propId spec,
             ∃ mapping, mapping ∈ device_data_mapping st
                        ∧ m_id mapping = propId
                        ∧ m_device_type_id mapping = deviceTypeId
                        ∧ spec = series_spec_of mapping)
          propertyIds specs.
Proof.
  revert specs; induction propertyIds as [|propId rest IH]; simpl; intros specs.
  - intros [= <-]. constructor.
  - destruct (mappingQuery propId deviceTypeId st) as [|mapping ?] eqn:Hq; [done|].
    destruct (specs_of deviceTypeId rest st) as [|specs']; [done|].
    intros [= <-]. constructor; [|by apply IH].
    assert (mapping ∈ mappingQuery propId deviceTypeId st) as Hin
      by (rewrite Hq; left).
    apply list_elem_of_filter in Hin as [[? ?] ?]. by exists mapping.
Qed.

(** The property reported missing is one of those asked for, and has no
    mapping for the device type. *)
Lemma specs_of_inl deviceTypeId propertyIds st missing :
  specs_of deviceTypeId propertyIds st = inl missing →
  missing ∈ propertyIds
  ∧ ∀ mapping, mapping ∈ device_data_mapping st → m_id mapping = missing →
               m_device_type_id mapping ≠ deviceTypeId.
Proof.
  induction propertyIds as [|propId rest IH]; simpl; [done|].
  destruct (mappingQuery propId deviceTypeId st) as [|mapping ?] eqn:Hq.
  - intros [= <-]. split; [left|]. intros mapping Hin Hid Htype.
    apply (filter_nil_not_elem_of _ _ mapping Hq); done.
  - destruct (specs_of deviceTypeId rest st) as [missing'|]; [|done].
    intros [= <-]. destruct IH as [? ?]; [done|]. split; [by right|done].
Qed.

Lemma foldr_max_ge (o : Z) (os : list Z) :
  o ≤ foldr Z.max o os ∧ Forall (λ a, a ≤ foldr Z.max o os) os.
Proof.
  induction os as [|a os [IH1 IH2]]; simpl; [by split|]. split; [lia|].
  constructor; [lia|]. eapply Forall_impl; [exact IH2|]. simpl. lia.
Qed.

Lemma max_order_ge dashboardId st layout :
  layout ∈ layouts_on dashboardId st →
  lay_display_order layout ≤ max_order dashboardId st.
Proof.
  unfold max_order, layouts_on. intros Hin.
  apply (list_elem_of_fmap_2 lay_display_order) in Hin.
  destruct (lay_display_order <$> _) as [|o os]; [by apply elem_of_nil in Hin|].
  destruct (foldr_max_ge o os) as [Ho Hos].
  apply elem_of_cons in Hin as [->|Hin]; [done|].
  by eapply Forall_forall in Hos.
Qed.

(** What create-widget answers and leaves behind, case by case. *)
Lemma create_widget_unfold st user body new_widget new_layout :
  create_widget st user body new_widget new_layout =
  if decide (role user ≠ "admin")
  then (Refused 403 "Only admins can create widgets", idle st)
  else
    match truthy_number (body_deviceTypeId body),
          truthy_string (body_widgetTypeId body),
          body_propertyIds body with
    | Some deviceTypeId, Some widgetTypeId, Some (propId :: propIds) =>
        match specs_of deviceTypeId (propId :: propIds) st with
        | inl missing =>
            (Refused 400
               ("Property with ID " +:+ pretty missing +:+
                " not found for device type " +:+ pretty deviceTypeId),
             idle st)
        | inr specs =>
            let row := definition_of user new_widget widgetTypeId deviceTypeId
                         (body_displayName body) specs in
            let data :=
              {| created_widgetId := new_widget;
                 created_dataSourceConfig :=
                   {| nc_deviceTypeId := deviceTypeId;
                      numberOfSeries := length (propId :: propIds);
                      nc_seriesConfig := specs |};
                 created_widgetName := wd_name row |} in
            let message :=
              Some "Widget created and added to dashboard successfully" in
            if decide (new_widget ∈ (wd_id ∘ wd_row) <$> definitions st)
            then (Failed "Failed to create widget"
                         "duplicate key value violates unique constraint",
                  idle st)
            else
              let st1 := with_definitions st (definitions st ++ [row]) in
              match company_dashboard (company_id user) st with
              | [] => (Success data message, idle st1)
              | found :: _ =>
                  if decide (new_layout ∈ lay_id <$> dashboard_layouts st)
                  then (Failed "Failed to create widget"
                               "duplicate key value violates unique constraint",
                        idle st)
                  else (Success data message,
                        idle (with_layouts st1
                                (dashboard_layouts st ++
                                 [layout_of new_layout (dash_id found.1) new_widget
                                    created_cell
                                    (max_order (dash_id found.1) st + 1)])))
              end
        end
    | _, _, _ =>
        (Refused 400
           "deviceTypeId, widgetTypeId, and propertyIds array are required",
         idle st)
    end.
Proof.
  unfold create_widget, try_catch_rollback, create_widget_try.
  destruct (decide (role user ≠ "admin")); [done|].
  destruct (truthy_number (body_deviceTypeId body)) as [deviceTypeId|]; [|done].
  destruct (truthy_string (body_widgetTypeId body)) as [widgetTypeId|]; [|done].
  destruct (body_propertyIds body) as [[|propId propIds]|]; [done| |done].
  unfold bind at 1, BEGIN at 1. unfold bind at 1.
  rewrite collect_series_run.
  change (current _) with st.
  destruct (specs_of deviceTypeId (propId :: propIds) st) as [missing|specs];
    [done|].
  cbn zeta. unfold bind at 1, write at 1, insert_definition at 1.
  change (current _) with st.
  destruct (decide (new_widget ∈ (wd_id ∘ wd_row) <$> definitions st)); [done|].
  cbn [working]. unfold bind at 1, read at 1.
  change (company_dashboard (company_id user) (current _))
    with (company_dashboard (company_id user) st).
  destruct (company_dashboard (company_id user) st) as [|found ?]; [done|].
  unfold bind at 1. unfold bind at 1, read at 1.
  unfold bind at 1, write at 1, insert_layout at 1.
  change (dashboard_layouts (current _)) with (dashboard_layouts st).
  destruct (decide (new_layout ∈ lay_id <$> dashboard_layouts st)); done.
Qed.

(** The same for add-to-dashboard. *)
Lemma add_to_dashboard_unfold st user body new_layout :
  add_to_dashboard st user body new_layout =
  if decide (role user ≠ "admin")
  then (Refused 403 "Only admins can add widgets to dashboard", idle st)
  else
    match truthy_string (body_widgetDefinitionId body) with
    | None => (Refused 400 "widgetDefinitionId is required", idle st)
    | Some widgetDefinitionId =>
        match company_dashboard (company_id user) st with
        | [] => (Refused 404 "No active dashboard found for your company", idle st)
        | found :: _ =>
            if decide (new_layout ∈ lay_id <$> dashboard_layouts st)
            then (Failed "Failed to add widget to dashboard"
                         "duplicate key value violates unique constraint",
                  idle st)
            else (Success {| added_layoutId := new_layout;
                             added_dashboardId := dash_id found.1 |}
                          (Some "Widget added to dashboard successfully"),
                  idle (with_layouts st
                          (dashboard_layouts st ++
                           [layout_of new_layout (dash_id found.1)
                              widgetDefinitionId
                              (default added_cell (body_layoutConfig body))
                              (max_order (dash_id found.1) st + 1)])))
        end
    end.
Proof.
  unfold add_to_dashboard, try_catch_rollback, add_to_dashboard_try.
  destruct (decide (role user ≠ "admin")); [done|].
  destruct (truthy_string (body_widgetDefinitionId body)) as [widgetId|]; [|done].
  unfold bind at 1, BEGIN at 1. unfold bind at 1, read at 1.
  change (current _) with st.
  destruct (company_dashboard (company_id user) st) as [|found ?]; [done|].
  unfold bind at 1, read at 1. unfold bind at 1, write at 1, insert_layout at 1.
  change (current _) with st.
  destruct (decide (new_layout ∈ lay_id <$> dashboard_layouts st)); done.
Qed.

End admin_client.

Section admin_properties.
Import Pg Admin AdminSpec.

(** What a success response of create-widget tells. *)
Lemma create_widget_Success st user body new_widget new_layout data message :
  (create_widget st user body new_widget new_layout).1 = Success data message →
  ∃ deviceTypeId widgetTypeId propertyIds specs,
    role user = "admin"
    ∧ body_deviceTypeId body = Some deviceTypeId
    ∧ body_widgetTypeId body = Some widgetTypeId
    ∧ body_propertyIds body = Some propertyIds
    ∧ propertyIds ≠ []
    ∧ specs_of deviceTypeId propertyIds st = inr specs
    ∧ (new_widget ∉ (wd_id ∘ wd_row) <$> definitions st)
    ∧ data = {| created_widgetId := new_widget;
                created_dataSourceConfig :=
                  {| nc_deviceTypeId := deviceTypeId;
                     numberOfSeries := length propertyIds;
                     nc_seriesConfig := specs |};
                created_widgetName :=
                  default (joined_names specs +:+ " Chart")
                          (truthy_string (body_displayName body)) |}
    ∧ message = Some "Widget created and added to dashboard successfully"
    ∧ definitions (committed (create_widget st user body new_widget new_layout).2)
      = definitions st ++ [definition_of user new_widget widgetTypeId deviceTypeId
                             (body_displayName body) specs]
    ∧ same_other_tables st
        (committed (create_widget st user body new_widget new_layout).2)
    ∧ match company_dashboard (company_id user) st with
      | [] =>
          dashboard_layouts
            (committed (create_widget st user body new_widget new_layout).2)
          = dashboard_layouts st
      | found :: _ =>
          (new_layout ∉ lay_id <$> dashboard_layouts st)
          ∧ dashboard_layouts
              (committed (create_widget st user body new_widget new_layout).2)
            = dashboard_layouts st ++
              [layout_of new_layout (dash_id found.1) new_widget created_cell
                 (max_order (dash_id found.1) st + 1)]
      end.
Proof.
  rewrite create_widget_unfold.
  destruct (decide (role user ≠ "admin")) as [|Hrole]; [done|].
  apply dec_stable in Hrole.
  destruct (truthy_number _) as [deviceTypeId|] eqn:Hd; [|done].
  destruct (truthy_string _) as [widgetTypeId|] eqn:Hw; [|done].
  destruct (body_propertyIds body) as [[|propId propIds]|] eqn:Hp; [done| |done].
  destruct (specs_of _ _ _) as [|specs] eqn:Hspecs; [done|].
  apply truthy_number_Some in Hd as [Hd _].
  apply truthy_string_Some in Hw as [Hw _].
  cbn zeta.
  destruct (decide (new_widget ∈ _)) as [|Hfresh]; [done|].
  destruct (company_dashboard _ _) as [|found ?].
  - simpl. intros [= <- <-].
    exists deviceTypeId, widgetTypeId, (propId :: propIds), specs.
    by split_and!.
  - destruct (decide (new_layout ∈ _)) as [|Hfresh']; [done|].
    simpl. intros [= <- <-].
    exists deviceTypeId, widgetTypeId, (propId :: propIds), specs.
    by split_and!.
Qed.

(** X1.  Create-widget is all or nothing: the connection is released with no
    transaction open, and whenever the answer is not the success response
    (a refusal or the 500 response) the store is exactly as it was before
    the request. *)
Theorem create_widget_all_or_nothing st user body new_widget new_layout :
  working (create_widget st user body new_widget new_layout).2 = None
  ∧ (succeeded (create_widget st user body new_widget new_layout).1 = false →
     committed (create_widget st user body new_widget new_layout).2 = st).
Proof.
  rewrite create_widget_unfold.
  repeat (case_match || case_decide); simpl; done.
Qed.

Lemma create_widget_all_or_nothing_witness :
  working (create_widget AdminExamples.store AdminExamples.admin
             AdminExamples.wrong_property Examples.w9 "l9").2 = None
  ∧ committed (create_widget AdminExamples.store AdminExamples.admin
                 AdminExamples.wrong_property Examples.w9 "l9").2
    = AdminExamples.store.
Proof.
  destruct (create_widget_all_or_nothing AdminExamples.store AdminExamples.admin
              AdminExamples.wrong_property Examples.w9 "l9") as [Hidle Hsame].
  split; [exact Hidle|]. apply Hsame. vm_compute. reflexivity.
Defined.

(** X2.  A successful create-widget was asked by an admin, and the
    configuration it returns has the device type of the request and one
    series per requested property, in the order of the request; each series
    is made of a mapping of that property for that device type: its
    variable name as display name and property name, its variable tag as
    data source property, its unit.  The widget is named as the request
    says, or after its series when the request gives no name. *)
Theorem create_widget_series st user body new_widget new_layout data message :
  (create_widget st user body new_widget new_layout).1 = Success data message →
  role user = "admin"
  ∧ created_widgetId data = new_widget
  ∧ (∃ deviceTypeId propertyIds,
      body_deviceTypeId body = Some deviceTypeId
      ∧ body_propertyIds body = Some propertyIds
      ∧ nc_deviceTypeId (created_dataSourceConfig data) = deviceTypeId
      ∧ numberOfSeries (created_dataSourceConfig data) = length propertyIds
      ∧ Forall2 (λ propId spec,
                   ∃ mapping, mapping ∈ device_data_mapping st
                     ∧ m_id mapping = propId
                     ∧ m_device_type_id mapping = deviceTypeId
                     ∧ propertyId spec = propId
                     ∧ displayName (series spec) = m_variable_name mapping
                     ∧ propertyName (series spec) = m_variable_name mapping
                     ∧ dataSourceProperty (series spec) = m_variable_tag mapping
                     ∧ unit (series spec) = m_unit mapping)
                propertyIds
                (nc_seriesConfig (created_dataSourceConfig data)))
  ∧ created_widgetName data =
      match body_displayName body with
      | Some name => if decide (name = EmptyString)
                     then joined_names (nc_seriesConfig (created_dataSourceConfig data))
                          +:+ " Chart"
                     else name
      | None => joined_names (nc_seriesConfig (created_dataSourceConfig data))
                +:+ " Chart"
      end.
Proof.
  intros (deviceTypeId & widgetTypeId & propertyIds & specs & ? & ? & ? & ? & ?
          & Hspecs%specs_of_inr & ? & -> & _)%create_widget_Success.
  simpl. split_and!; try done.
  - exists deviceTypeId, propertyIds. split_and!; try done.
    eapply Forall2_impl; [exact Hspecs|].
    intros p spec (mapping & ? & ? & ? & ->). exists mapping. by split_and!.
  - by destruct (body_displayName body) as [[|]|].
Qed.

Lemma create_widget_series_witness :
  role AdminExamples.admin = "admin"
  ∧ created_widgetId AdminExamples.flow_chart_created = Examples.w9
  ∧ (∃ deviceTypeId propertyIds,
      body_deviceTypeId AdminExamples.flow_chart = Some deviceTypeId
      ∧ body_propertyIds AdminExamples.flow_chart = Some propertyIds
      ∧ nc_deviceTypeId (created_dataSourceConfig AdminExamples.flow_chart_created)
        = deviceTypeId
      ∧ numberOfSeries (created_dataSourceConfig AdminExamples.flow_chart_created)
        = length propertyIds
      ∧ Forall2 (λ propId spec,
                   ∃ mapping, mapping ∈ device_data_mapping AdminExamples.store
                     ∧ m_id mapping = propId
                     ∧ m_device_type_id mapping = deviceTypeId
                     ∧ propertyId spec = propId
                     ∧ displayName (series spec) = m_variable_name mapping
                     ∧ propertyName (series spec) = m_variable_name mapping
                     ∧ dataSourceProperty (series spec) = m_variable_tag mapping
                     ∧ unit (series spec) = m_unit mapping)
                propertyIds
                (nc_seriesConfig
                   (created_dataSourceConfig AdminExamples.flow_chart_created)))
  ∧ created_widgetName AdminExamples.flow_chart_created =
      match body_displayName AdminExamples.flow_chart with
      | Some name =>
          if decide (name = EmptyString)
          then joined_names
                 (nc_seriesConfig
                    (created_dataSourceConfig AdminExamples.flow_chart_created))
               +:+ " Chart"
          else name
      | None =>
          joined_names
            (nc_seriesConfig
               (created_dataSourceConfig AdminExamples.flow_chart_created))
          +:+ " Chart"
      end.
Proof.
  apply (create_widget_series AdminExamples.store AdminExamples.admin
           AdminExamples.flow_chart Examples.w9 "l9" AdminExamples.flow_chart_created
           AdminExamples.created_message).
  vm_compute. reflexivity.
Defined.



End admin_properties.

Section created_widget.
Import Pg Admin AdminSpec.

Lemma elem_of_widgetQuery_2 db wd wt :
  wd ∈ widget_definitions db → wt ∈ widget_types db →
  wd_widget_type_id wd = wt_id wt →
  (wd, wt) ∈ Widgets.widgetQuery db (wd_id wd).
Proof.
  intros Hwd Hwt Htype. unfold Widgets.widgetQuery.
  apply list_elem_of_filter. split; [done|].
  apply list_elem_of_bind. exists wd. split; [|done].
  apply list_elem_of_bind. exists wt. split; [by apply list_elem_of_singleton|].
  by apply list_elem_of_filter.
Qed.

(** The latest-data handler has no failing statement but the lookup. *)
Lemma widget_latest_status db req :
  Widgets.status (Widgets.widget_latest db req).1 =
    match Widgets.widgetLookup db (Widgets.params_widgetId req) with
    | Err _ => 500
    | Ok [] => 404
    | Ok (_ :: _) => 200
    end.
Proof.
  unfold Widgets.widget_latest, Widgets.widget_latest_try, Widgets.bind at 1,
    Widgets.database_query; simpl.
  destruct (Widgets.widgetLookup _ _) as [[|widget rest]|]; [done| |done].
  destruct (seriesConfig _) as [[|s0 series]|]; [done| |done].
  unfold Widgets.bind.
  destruct (for_of_load_latest_sound db req (wd_data_source_config widget.1)
              (s0 :: series) ∅
              [Widgets.SelectWidgetDefinition (Widgets.params_widgetId req)])
    as (data' & tr' & -> & _).
  done.
Qed.

(** X4.  A widget that create-widget has made is served by the telemetry
    endpoints: when the widget type of the request exists, a widget-data
    request whose [widgetId] is a text of the [uuid] returned is never
    answered 404, the latest request is answered 200, and a successful
    widget-data response carries the configuration that create-widget
    returned and one entry per display name of its series, the name
    [__proto__] apart, under which it has none. *)
Theorem created_widget_is_served st user body new_widget new_layout data message
    wt req :
  (create_widget st user body new_widget new_layout).1 = Success data message →
  wt ∈ widget_types (tables st) →
  body_widgetTypeId body = Some (wt_id wt) →
  uuid_in (Widgets.params_widgetId req) = Ok (created_widgetId data) →
  Widgets.status
    (Widgets.widget_latest
       (database_of (committed (create_widget st user body new_widget new_layout).2))
       req).1 = 200
  ∧ match (Widgets.widget_data
             (database_of
                (committed (create_widget st user body new_widget new_layout).2))
             req).1 with
    | Widgets.Json200 seriesData config msg =>
        config = Some (stored_config (created_dataSourceConfig data))
        ∧ msg = None
        ∧ dom seriesData =
            list_to_set
              (filter (λ name, name ≠ "__proto__")
                 ((displayName ∘ series) <$>
                    nc_seriesConfig (created_dataSourceConfig data)))
        ∧ seriesData !! "__proto__" = None
    | Widgets.Json404 _ => False
    | Widgets.Json500 _ _ => True
    end.
Proof.
  intros (deviceTypeId & widgetTypeId & propertyIds & specs & _ & _ & Hw & _
          & Hne & Hspecs%specs_of_inr & Hfresh & -> & _ & Hdefs & Htables & _)
         %create_widget_Success Hwt Htype Hid.
  set (st' := committed _) in *. simpl in Hid.
  rewrite Hw in Htype. injection Htype as ->.
  set (row := definition_of user new_widget (wt_id wt) deviceTypeId
                (body_displayName body) specs) in *.
  assert (Hlookup :
    Widgets.widgetLookup (database_of st') (Widgets.params_widgetId req)
    = Ok (Widgets.widgetQuery (database_of st') new_widget)).
  { unfold Widgets.widgetLookup. by rewrite Hid. }
  assert (Hin : (wd_row row, wt)
                ∈ Widgets.widgetQuery (database_of st') new_widget).
  { apply (elem_of_widgetQuery_2 (database_of st') (wd_row row) wt).
    - simpl. rewrite Hdefs, fmap_app. apply elem_of_app. right. left.
    - simpl. destruct Htables as [-> _]. done.
    - done. }
  assert (Hall : ∀ j, j ∈ Widgets.widgetQuery (database_of st') new_widget →
                      j.1 = wd_row row).
  { intros j [Hj Hjid]%elem_of_widgetQuery. simpl in Hj.
    rewrite Hdefs, fmap_app, elem_of_app in Hj. destruct Hj as [Hj|Hj].
    - exfalso. apply Hfresh. rewrite <-Hjid, list_fmap_compose.
      by apply list_elem_of_fmap_2.
    - by apply list_elem_of_singleton in Hj. }
  assert (Hsome : specs ≠ []).
  { intros ->. apply Forall2_nil_inv_r in Hspecs. done. }
  split.
  - rewrite widget_latest_status, Hlookup.
    destruct (Widgets.widgetQuery _ _); [by apply elem_of_nil in Hin|done].
  - rewrite widget_data_unfold, Hlookup. cbn zeta.
    destruct (Widgets.widgetQuery _ _) as [|widget rest];
      [by apply elem_of_nil in Hin|].
    rewrite (Hall widget) by left. simpl.
    destruct specs as [|spec specs]; [done|]. rewrite fmap_cons.
    destruct (Widgets.for_of _ _ _ _) as [[seriesData|e] tr] eqn:Hloop; [|done].
    simpl. split_and!; try done.
    + apply for_of_load_series_dom in Hloop. rewrite Hloop, dom_empty_L.
      rewrite (left_id_L ∅ (∪)). by rewrite <-fmap_cons, list_fmap_compose.
    + by rewrite (for_of_load_series_proto _ _ _ _ _ _ _ _ Hloop).
Qed.

Lemma created_widget_is_served_witness :
  Widgets.status
    (Widgets.widget_latest
       (database_of (committed (create_widget AdminExamples.store AdminExamples.admin
                                  AdminExamples.flow_chart Examples.w9 "l9").2))
       (Examples.get Examples.w9 None None None)).1 = 200
  ∧ match (Widgets.widget_data
             (database_of
                (committed (create_widget AdminExamples.store AdminExamples.admin
                              AdminExamples.flow_chart Examples.w9 "l9").2))
             (Examples.get Examples.w9 None None None)).1 with
    | Widgets.Json200 seriesData config msg =>
        config = Some (stored_config
                         (created_dataSourceConfig AdminExamples.flow_chart_created))
        ∧ msg = None
        ∧ dom seriesData =
            list_to_set
              (filter (λ name, name ≠ "__proto__")
                 ((displayName ∘ series) <$>
                    nc_seriesConfig
                      (created_dataSourceConfig
                         AdminExamples.flow_chart_created)))
        ∧ seriesData !! "__proto__" = None
    | Widgets.Json404 _ => False
    | Widgets.Json500 _ _ => True
    end.
Proof.
  apply (created_widget_is_served AdminExamples.store AdminExamples.admin
           AdminExamples.flow_chart Examples.w9 "l9" AdminExamples.flow_chart_created
           AdminExamples.created_message
           {| wt_id := "line"; wt_name := "line_chart";
              wt_component_name := "CustomLineChart" |}
           (Examples.get Examples.w9 None None None)).
  - vm_compute. reflexivity.
  - left.
  - reflexivity.
  - vm_compute. reflexivity.
Defined.

End created_widget.

Section layout_handlers.
Import Pg Admin AdminSpec.


Lemma filter_other_id layoutId (layouts : list dashboard_layout_row) :
  layoutId ∉ lay_id <$> layouts →
  filter (λ l, lay_id l ≠ layoutId) layouts = layouts.
Proof.
  intros Hfresh. induction layouts as [|l layouts IH]; [done|].
  rewrite fmap_cons, not_elem_of_cons in Hfresh. destruct Hfresh as [? ?].
  rewrite filter_cons_True by done. by rewrite IH.
Qed.



(** X7.  Removing the layout that add-to-dashboard has just added gives the
    store back as it was before the two requests. *)
Theorem add_then_remove st user body new_layout data message :
  (add_to_dashboard st user body new_layout).1 = Success data message →
  remove_widget (committed (add_to_dashboard st user body new_layout).2) user
                (added_layoutId data)
  = (Success () (Some "Widget removed successfully"), st).
Proof.
  rewrite add_to_dashboard_unfold.
  destruct (decide (role user ≠ "admin")) as [|Hrole]; [done|].
  destruct (truthy_string _) as [widgetId|]; [|done].
  destruct (company_dashboard _ _) as [|found rest]; [done|].
  destruct (decide (new_layout ∈ _)) as [|Hfresh]; [done|].
  simpl. intros [= <- <-]. simpl.
  unfold remove_widget. rewrite decide_False by done.
  unfold delete_layout. simpl.
  rewrite !filter_app, filter_other_id by done.
  rewrite (filter_cons_True (λ l, lay_id l = new_layout)) by reflexivity.
  rewrite (filter_cons_False (λ l, lay_id l ≠ new_layout))
    by (intros Hne; by apply Hne).
  rewrite !filter_nil, app_nil_r, fmap_app. simpl.
  destruct (lay_id <$> filter _ (dashboard_layouts st)); simpl.
  all: f_equal; by destruct st.
Qed.

Lemma add_then_remove_witness :
  remove_widget
    (committed (add_to_dashboard AdminExamples.store AdminExamples.admin
                  {| body_widgetDefinitionId := Some Examples.w1;
                     body_layoutConfig := None |} "l9").2)
    AdminExamples.admin
    (added_layoutId {| added_layoutId := "l9"; added_dashboardId := "d1" |})
  = (Success () (Some "Widget removed successfully"), AdminExamples.store).
Proof.
  apply (add_then_remove AdminExamples.store AdminExamples.admin
           {| body_widgetDefinitionId := Some Examples.w1; body_layoutConfig := None |}
           "l9" {| added_layoutId := "l9"; added_dashboardId := "d1" |}
           (Some "Widget added to dashboard successfully")).
  vm_compute. reflexivity.
Defined.

End layout_handlers.

Section update_layout_facts.
Import Pg Admin AdminSpec.





End update_layout_facts.

Section dashboard_facts.
Import Pg Admin AdminSpec.

#[local] Instance older_total {B} : Total (@older B).
Proof. intros a b; unfold older; lia. Qed.

#[local] Instance older_trans {B} : Transitive (@older B).
Proof. intros a b c; unfold older; lia. Qed.

#[local] Instance display_order_le_total {B} : Total (@display_order_le B).
Proof. intros a b; unfold display_order_le; lia. Qed.

(** [ORDER BY ... LIMIT 1] returns nothing when nothing is selected, and
    otherwise a selected row that no selected row precedes. *)
Lemma take_1_merge_sort {A} (R : relation A) `{!Total R, !Transitive R}
    `{∀ x y, Decision (R x y)} (l : list A) :
  match take 1 (merge_sort R l) with
  | [] => l = []
  | x :: _ => x ∈ l ∧ ∀ y, y ∈ l → R x y
  end.
Proof.
  pose proof (merge_sort_Permutation R l) as Hperm.
  pose proof (StronglySorted_merge_sort R l) as Hsorted.
  destruct (merge_sort R l) as [|x l']; simpl.
  - by apply Permutation_nil_l in Hperm.
  - split; [rewrite <-Hperm; left|].
    intros y Hy. rewrite <-Hperm in Hy.
    apply StronglySorted_inv in Hsorted as [_ Hx].
    apply elem_of_cons in Hy as [->|Hy].
    + by destruct (total R x x).
    + by eapply Forall_forall in Hx.
Qed.

Lemma elem_of_dashboards_join_company st d u c :
  (d, u, c) ∈ dashboards_join_company st ↔
  d ∈ dashboards st ∧ u ∈ users st ∧ c ∈ companies st
  ∧ dash_created_by d = u_id u ∧ u_company_id u = c_id c.
Proof.
  unfold dashboards_join_company. rewrite list_elem_of_bind. split.
  - intros (d' & Hj & ?). apply list_elem_of_bind in Hj as (u' & Hj & Hu).
    apply list_elem_of_bind in Hj as (c' & Hj & Hc).
    apply list_elem_of_filter in Hu as [? ?].
    apply list_elem_of_filter in Hc as [? ?].
    apply list_elem_of_singleton in Hj. injection Hj as -> -> ->. done.
  - intros (? & ? & ? & ? & ?). exists d. split; [|done].
    apply list_elem_of_bind. exists u. split; [|by apply list_elem_of_filter].
    apply list_elem_of_bind. exists c. split; [|by apply list_elem_of_filter].
    by apply list_elem_of_singleton.
Qed.

Lemma elem_of_layouts_join_widgets st dl wd wt :
  (dl, (wd, wt)) ∈ layouts_join_widgets st ↔
  dl ∈ dashboard_layouts st ∧ wd ∈ definitions st
  ∧ wt ∈ widget_types (tables st)
  ∧ lay_widget_definition_id dl = wd_id (wd_row wd)
  ∧ wd_widget_type_id (wd_row wd) = wt_id wt.
Proof.
  unfold layouts_join_widgets. rewrite list_elem_of_bind. split.
  - intros (dl' & Hj & ?). apply list_elem_of_bind in Hj as (wd' & Hj & Hwd).
    apply list_elem_of_bind in Hj as (wt' & Hj & Hwt).
    apply list_elem_of_filter in Hwd as [? ?].
    apply list_elem_of_filter in Hwt as [? ?].
    apply list_elem_of_singleton in Hj. injection Hj as -> -> ->. done.
  - intros (? & ? & ? & ? & ?). exists dl. split; [|done].
    apply list_elem_of_bind. exists wd. split; [|by apply list_elem_of_filter].
    apply list_elem_of_bind. exists wt. split; [|by apply list_elem_of_filter].
    by apply list_elem_of_singleton.
Qed.

(** What [dashboardQuery] returns. *)
Lemma dashboardQuery_spec st companyId :
  match dashboardQuery st companyId with
  | [] =>
      ∀ d u c, (d, u, c) ∈ dashboards_join_company st → c_id c = companyId →
               dash_is_active d = false
  | row :: _ =>
      (row.1, row.2.1, row.2.2) ∈ dashboards_join_company st
      ∧ c_id row.2.2 = companyId ∧ dash_is_active row.1 = true
      ∧ ∀ d u c, (d, u, c) ∈ dashboards_join_company st → c_id c = companyId →
                 dash_is_active d = true →
                 dash_created_at row.1 ≤ dash_created_at d
  end.
Proof.
  unfold dashboardQuery.
  set (selected := filter _ _).
  assert (Hsel : ∀ d u c, (d, (u, c)) ∈ selected ↔
            (d, u, c) ∈ dashboards_join_company st
            ∧ c_id c = companyId ∧ dash_is_active d = true).
  { intros d u c. unfold selected.
    rewrite list_elem_of_filter, list_elem_of_fmap. simpl. split.
    - intros [[? ?] ([[d' u'] c'] & [= -> -> ->] & ?)]. done.
    - intros (? & ? & ?). split; [done|]. by exists (d, u, c). }
  pose proof (take_1_merge_sort older selected) as Hhead.
  destruct (take 1 (merge_sort older selected)) as [|[d [u c]] ?].
  - intros d u c Hj Hc. destruct (dash_is_active d) eqn:Hactive; [|done].
    assert ((d, (u, c)) ∈ selected) as Hin by (by apply Hsel).
    rewrite Hhead in Hin. by apply elem_of_nil in Hin.
  - destruct Hhead as [Hin Hmin]. apply Hsel in Hin as (? & ? & ?). simpl.
    split_and!; try done.
    intros d' u' c' ? ? ?. apply (Hmin (d', (u', c'))). by apply Hsel.
Qed.

(** X9.  User-dashboard always succeeds.  When no active dashboard was
    created by a user of the caller's company it returns no dashboard, no
    widget and the message that none is configured.  Otherwise it returns
    the oldest such dashboard with the company's name, editable exactly for
    an admin, and as widgets the layouts of that dashboard, each with its
    widget definition and widget type, in ascending display order; a
    layout whose widget definition or widget type is missing is not
    listed. *)
Theorem user_dashboard_view st user :
  ∃ data,
    user_dashboard st user = Success data None
    ∧ match dashboard data with
      | None =>
          widgets data = []
          ∧ message data = Some "No dashboard configured for your company yet"
          ∧ ∀ d u c,
              d ∈ dashboards st → u ∈ users st → c ∈ companies st →
              dash_created_by d = u_id u → u_company_id u = c_id c →
              c_id c = company_id user → dash_is_active d = false
      | Some view =>
          message data = None
          ∧ dv_canEdit view = bool_decide (role user = "admin")
          ∧ (∃ d u c,
               d ∈ dashboards st ∧ u ∈ users st ∧ c ∈ companies st
               ∧ dash_created_by d = u_id u ∧ u_company_id u = c_id c
               ∧ c_id c = company_id user ∧ dash_is_active d = true
               ∧ dv_id view = dash_id d ∧ dv_name view = dash_name d
               ∧ dv_companyName view = c_name c
               ∧ ∀ d' u' c',
                   d' ∈ dashboards st → u' ∈ users st → c' ∈ companies st →
                   dash_created_by d' = u_id u' → u_company_id u' = c_id c' →
                   c_id c' = company_id user → dash_is_active d' = true →
                   dash_created_at d ≤ dash_created_at d')
          ∧ Sorted Z.le (wv_displayOrder <$> widgets data)
          ∧ ∀ wv,
              wv ∈ widgets data ↔
              ∃ dl wd wt,
                dl ∈ dashboard_layouts st ∧ wd ∈ definitions st
                ∧ wt ∈ widget_types (tables st)
                ∧ lay_dashboard_id dl = dv_id view
                ∧ lay_widget_definition_id dl = wd_id (wd_row wd)
                ∧ wd_widget_type_id (wd_row wd) = wt_id wt
                ∧ wv = widget_view_of (dl, (wd, wt))
      end.
Proof.
  unfold user_dashboard. cbn zeta.
  pose proof (dashboardQuery_spec st (company_id user)) as Hq.
  destruct (dashboardQuery st (company_id user)) as [|[d [u c]] ?].
  - eexists. split; [done|]. simpl. split_and!; try done.
    intros d u c ? ? ? ? ? ?. apply (Hq d u c); [|done].
    by apply elem_of_dashboards_join_company.
  - eexists. split; [done|]. simpl in *.
    destruct Hq as ((? & ? & ? & ? & ?)%elem_of_dashboards_join_company
                    & ? & ? & Hmin).
    split_and!; try done.
    + exists d, u, c. split_and!; try done.
      intros d' u' c' ? ? ? ? ? ? ?. apply (Hmin d' u' c'); [|done..].
      by apply elem_of_dashboards_join_company.
    + rewrite <-list_fmap_compose.
      eapply Sorted_fmap; [|apply (Sorted_merge_sort display_order_le)].
      done.
    + intros wv. rewrite list_elem_of_fmap. unfold widgetsQuery. split.
      * intros ([dl [wd wt]] & -> & Hin).
        rewrite merge_sort_Permutation, list_elem_of_filter in Hin.
        destruct Hin as [? (? & ? & ? & ? & ?)%elem_of_layouts_join_widgets].
        exists dl, wd, wt. by split_and!.
      * intros (dl & wd & wt & ? & ? & ? & ? & ? & ? & ->).
        exists (dl, (wd, wt)). split; [done|].
        rewrite merge_sort_Permutation, list_elem_of_filter. split; [done|].
        by apply elem_of_layouts_join_widgets.
Qed.

(** The rows the dashboard lookup of the writing handlers selects. *)
Lemma elem_of_company_selected companyId st d u :
  (d, u) ∈ filter (λ j : dashboard_row * user_row,
                     u_company_id j.2 = companyId ∧ dash_is_active j.1 = true)
             (d ← dashboards st;
              u ← filter (λ u, dash_created_by d = u_id u) (users st);
              [(d, u)]) ↔
  d ∈ dashboards st ∧ u ∈ users st ∧ dash_created_by d = u_id u
  ∧ u_company_id u = companyId ∧ dash_is_active d = true.
Proof.
  rewrite list_elem_of_filter, list_elem_of_bind. simpl. split.
  - intros [[? ?] (d' & Hj & ?)].
    apply list_elem_of_bind in Hj as (u' & Hj & [? ?]%list_elem_of_filter).
    apply list_elem_of_singleton in Hj. injection Hj as -> ->. done.
  - intros (? & ? & ? & ? & ?). split; [done|]. exists d. split; [|done].
    apply list_elem_of_bind. exists u.
    split; [by apply list_elem_of_singleton|by apply list_elem_of_filter].
Qed.

(** The dashboard the lookup returns. *)
Lemma company_dashboard_found companyId st found rest :
  company_dashboard companyId st = found :: rest →
  found.1 ∈ dashboards st ∧ found.2 ∈ users st
  ∧ dash_created_by found.1 = u_id found.2
  ∧ u_company_id found.2 = companyId
  ∧ dash_is_active found.1 = true
  ∧ ∀ d u, d ∈ dashboards st → u ∈ users st →
           dash_created_by d = u_id u → u_company_id u = companyId →
           dash_is_active d = true →
           dash_created_at found.1 ≤ dash_created_at d.
Proof.
  unfold company_dashboard. intros Hfound.
  pose proof (take_1_merge_sort older
                (filter (λ j : dashboard_row * user_row,
                           u_company_id j.2 = companyId
                           ∧ dash_is_active j.1 = true)
                   (d ← dashboards st;
                    u ← filter (λ u, dash_created_by d = u_id u) (users st);
                    [(d, u)]))) as Hhead.
  rewrite Hfound in Hhead. destruct found as [d u], Hhead as [Hin Hmin].
  apply elem_of_company_selected in Hin as (? & ? & ? & ? & ?).
  simpl. split_and!; try done.
  intros d' u' ? ? ? ? ?. apply (Hmin (d', u')).
  by apply elem_of_company_selected.
Qed.

(** X10.  The dashboard that create-widget and add-to-dashboard put a
    widget on is an active dashboard created by a user of the caller's
    company, and no such dashboard was created before it; the handlers find
    none only when the company has none. *)
Theorem company_dashboard_oldest companyId st :
  match company_dashboard companyId st with
  | [] =>
      ∀ d u, d ∈ dashboards st → u ∈ users st →
             dash_created_by d = u_id u → u_company_id u = companyId →
             dash_is_active d = false
  | found :: _ =>
      found.1 ∈ dashboards st ∧ found.2 ∈ users st
      ∧ dash_created_by found.1 = u_id found.2
      ∧ u_company_id found.2 = companyId
      ∧ dash_is_active found.1 = true
      ∧ ∀ d u, d ∈ dashboards st → u ∈ users st →
               dash_created_by d = u_id u → u_company_id u = companyId →
               dash_is_active d = true →
               dash_created_at found.1 ≤ dash_created_at d
  end.
Proof.
  destruct (company_dashboard companyId st) as [|found rest] eqn:Hfound;
    [|by eapply company_dashboard_found].
  unfold company_dashboard in Hfound. set (selected := filter _ _) in Hfound.
  pose proof (take_1_merge_sort older selected) as Hhead.
  rewrite Hfound in Hhead.
  intros d u ? ? ? ?. destruct (dash_is_active d) eqn:Hactive; [|done].
  assert ((d, u) ∈ selected) as Hin by (by apply elem_of_company_selected).
  rewrite Hhead in Hin. by apply elem_of_nil in Hin.
Qed.

Lemma NoDup_fmap_eq {A B} (f : A → B) (l : list A) x y :
  NoDup (f <$> l) → x ∈ l → y ∈ l → f x = f y → x = y.
Proof.
  induction l as [|a l IH]; csimpl; [by intros _ ?%elem_of_nil|].
  intros [Ha Hnd]%NoDup_cons [->|Hx]%elem_of_cons [->|Hy]%elem_of_cons Heq;
    [done| | |by apply IH].
  - destruct Ha. rewrite Heq. by apply list_elem_of_fmap_2.
  - destruct Ha. rewrite <-Heq. by apply list_elem_of_fmap_2.
Qed.

Lemma dashboardQuery_same st st' companyId :
  same_other_tables st st' →
  dashboardQuery st' companyId = dashboardQuery st companyId.
Proof.
  intros (_ & Hu & Hc & Hd & _).
  unfold dashboardQuery, dashboards_join_company. by rewrite Hu, Hc, Hd.
Qed.

(** X11.  After a successful create-widget, user-dashboard shows the new
    widget to the users of the company: when the company's row and the
    widget type of the request exist, the company has an active dashboard
    and no two dashboards were created at the same instant, the dashboard
    returned is the one the widget was put on, and its widgets include the
    new one, under the identifier, name and configuration that
    create-widget returned, in the cell (0, 0) of size 6 by 3, with a
    display order above that of every other widget shown. *)
Theorem created_widget_is_shown st user body new_widget new_layout data message
    viewer company wt found rest :
  (create_widget st user body new_widget new_layout).1 = Success data message →
  company_id viewer = company_id user →
  company ∈ companies st → c_id company = company_id user →
  wt ∈ widget_types (tables st) → body_widgetTypeId body = Some (wt_id wt) →
  company_dashboard (company_id user) st = found :: rest →
  NoDup (dash_created_at <$> dashboards st) →
  ∃ shown view wv,
    user_dashboard (committed (create_widget st user body new_widget new_layout).2)
                   viewer
    = Success shown None
    ∧ dashboard shown = Some view
    ∧ dv_id view = dash_id found.1
    ∧ wv ∈ widgets shown
    ∧ wv_widgetId wv = created_widgetId data
    ∧ wv_layoutId wv = new_layout
    ∧ wv_name wv = created_widgetName data
    ∧ wv_dataSourceConfig wv = stored_config (created_dataSourceConfig data)
    ∧ wv_layoutConfig wv = created_cell
    ∧ ∀ other, other ∈ widgets shown → wv_layoutId other ≠ new_layout →
               wv_displayOrder other < wv_displayOrder wv.
Proof.
  intros (deviceTypeId & widgetTypeId & propertyIds & specs & _ & _ & Hw & _
          & _ & _ & _ & -> & _ & Hdefs & Hsame & Hlayouts)
         %create_widget_Success Hviewer Hcompany Hcid Hwt Htype Hfound Hdistinct.
  set (st' := committed _) in *.
  rewrite Hw in Htype. injection Htype as ->.
  rewrite Hfound in Hlayouts. destruct Hlayouts as [Hfresh Hlayouts].
  destruct (company_dashboard_found _ _ _ _ Hfound)
    as (Hfd & Hfu & Hfby & Hfc & Hfactive & Hfmin).
  unfold user_dashboard. cbn zeta. rewrite Hviewer.
  rewrite (dashboardQuery_same st st') by done.
  pose proof (dashboardQuery_spec st (company_id user)) as Hq.
  destruct (dashboardQuery st (company_id user)) as [|[d [u c]] ?].
  { assert (dash_is_active found.1 = false); [|congruence].
    apply (Hq found.1 found.2 company); [|done].
    apply elem_of_dashboards_join_company. split_and!; try done. congruence. }
  simpl in Hq.
  destruct Hq as ((Hd & Hu & Hc & Hby & Huc)%elem_of_dashboards_join_company
                  & Hcc & Hactive & Hmin).
  assert (d = found.1) as ->.
  { apply (NoDup_fmap_eq dash_created_at (dashboards st)); try done.
    apply Z.le_antisymm.
    - apply (Hmin found.1 found.2 company); try done.
      apply elem_of_dashboards_join_company. split_and!; try done. congruence.
    - apply (Hfmin d u); try done. congruence. }
  set (row := definition_of user new_widget (wt_id wt) deviceTypeId
                (body_displayName body) specs) in *.
  set (layout := layout_of new_layout (dash_id found.1) new_widget created_cell
                   (max_order (dash_id found.1) st + 1)) in *.
  assert (Htypes : widget_types (tables st') = widget_types (tables st))
    by (by destruct Hsame as [-> _]).
  eexists _, _, (widget_view_of (layout, (row, wt))).
  split; [done|]. simpl. split_and!; try done.
  - apply list_elem_of_fmap. exists (layout, (row, wt)). split; [done|].
    unfold widgetsQuery.
    rewrite merge_sort_Permutation, list_elem_of_filter. split; [done|].
    apply elem_of_layouts_join_widgets. rewrite Hlayouts, Hdefs, Htypes.
    split_and!; try done; apply elem_of_app; right; left.
  - intros other ([dl [wd wt']] & -> & Hin)%list_elem_of_fmap Hother.
    unfold widgetsQuery in Hin.
    rewrite merge_sort_Permutation, list_elem_of_filter in Hin.
    destruct Hin as [Hon (Hdl & _)%elem_of_layouts_join_widgets].
    simpl in *. rewrite Hlayouts, elem_of_app in Hdl.
    destruct Hdl as [Hdl|Hdl%list_elem_of_singleton]; [|by subst dl].
    assert (lay_display_order dl ≤ max_order (dash_id found.1) st).
    { apply max_order_ge. unfold layouts_on. by apply list_elem_of_filter. }
    lia.
Qed.

Lemma created_widget_is_shown_witness :
  ∃ shown view wv,
    user_dashboard
      (committed (create_widget AdminExamples.store AdminExamples.admin
                    AdminExamples.flow_chart Examples.w9 "l9").2)
      AdminExamples.viewer
    = Success shown None
    ∧ dashboard shown = Some view
    ∧ dv_id view = "d1"
    ∧ wv ∈ widgets shown
    ∧ wv_widgetId wv = created_widgetId AdminExamples.flow_chart_created
    ∧ wv_layoutId wv = "l9"
    ∧ wv_name wv = created_widgetName AdminExamples.flow_chart_created
    ∧ wv_dataSourceConfig wv
      = stored_config (created_dataSourceConfig AdminExamples.flow_chart_created)
    ∧ wv_layoutConfig wv = created_cell
    ∧ ∀ other, other ∈ widgets shown → wv_layoutId other ≠ "l9" →
               wv_displayOrder other < wv_displayOrder wv.
Proof.
  apply (created_widget_is_shown AdminExamples.store AdminExamples.admin
           AdminExamples.flow_chart Examples.w9 "l9" AdminExamples.flow_chart_created
           AdminExamples.created_message AdminExamples.viewer
           {| c_id := 10; c_name := "Acme" |}
           {| wt_id := "line"; wt_name := "line_chart";
              wt_component_name := "CustomLineChart" |}
           (AdminExamples.board "d1" 100 true 50, {| u_id := 100; u_company_id := 10 |})
           []).
  - vm_compute. reflexivity.
  - reflexivity.
  - left.
  - reflexivity.
  - left.
  - reflexivity.
  - vm_compute. reflexivity.
  - apply (bool_decide_unpack _). vm_compute. reflexivity.
Defined.

End dashboard_facts.

(** ** The wizard and the chart's request *)

Section wizard_facts.
Import Pg Admin AdminSpec Wizard.

(** X12.  Toggling a property in a selection without repetition gives a
    selection without repetition, in which that property is present
    exactly if it was absent and every other property is as before;
    toggling it twice gives the same properties back. *)
Theorem handlePropertyToggle_selection propertyId prev :
  NoDup prev →
  NoDup (handlePropertyToggle propertyId prev)
  ∧ (propertyId ∈ handlePropertyToggle propertyId prev ↔ propertyId ∉ prev)
  ∧ (∀ other, other ≠ propertyId →
       other ∈ handlePropertyToggle propertyId prev ↔ other ∈ prev)
  ∧ handlePropertyToggle propertyId (handlePropertyToggle propertyId prev)
    ≡ₚ prev.
Proof.
  intros Hnd. unfold handlePropertyToggle at 1 2 3 5.
  destruct (decide (propertyId ∈ prev)) as [Hin|Hout].
  - split_and!.
    + by apply NoDup_filter.
    + rewrite list_elem_of_filter. split; [by intros [? _]|done].
    + intros other Hother. rewrite list_elem_of_filter. tauto.
    + unfold handlePropertyToggle.
      rewrite decide_False by (rewrite list_elem_of_filter; tauto).
      apply NoDup_Permutation; [|done|].
      * apply NoDup_app. split_and!; [by apply NoDup_filter| |apply NoDup_singleton].
        intros x [? _]%list_elem_of_filter ->%list_elem_of_singleton. done.
      * intros x. rewrite elem_of_app, list_elem_of_filter, list_elem_of_singleton.
        destruct (decide (x = propertyId)) as [->|]; tauto.
  - split_and!.
    + apply NoDup_app. split_and!; [done| |apply NoDup_singleton].
      by intros x ? ->%list_elem_of_singleton.
    + rewrite elem_of_app, list_elem_of_singleton. tauto.
    + intros other Hother. rewrite elem_of_app, list_elem_of_singleton. tauto.
    + unfold handlePropertyToggle.
      rewrite decide_True by (apply elem_of_app; right; left).
      rewrite filter_app, filter_cons_False, filter_nil, app_nil_r
        by (intros Hne; by apply Hne).
      induction prev as [|p prev IH]; [done|].
      apply not_elem_of_cons in Hout as [? ?]. apply NoDup_cons in Hnd as [? ?].
      rewrite filter_cons_True by done. by rewrite IH.
Qed.

Lemma handlePropertyToggle_selection_witness :
  NoDup (handlePropertyToggle 1 [1; 2])
  ∧ (1 ∈ handlePropertyToggle 1 [1; 2] ↔ 1 ∉ [1; 2])
  ∧ (∀ other, other ≠ 1 → other ∈ handlePropertyToggle 1 [1; 2] ↔ other ∈ [1; 2])
  ∧ handlePropertyToggle 1 (handlePropertyToggle 1 [1; 2]) ≡ₚ [1; 2].
Proof.
  apply (handlePropertyToggle_selection 1 [1; 2]).
  apply (bool_decide_unpack _). vm_compute. reflexivity.
Defined.

(** X13.  A request that the wizard sends carries the device type, the
    widget type and the properties selected in the wizard, and the name
    unless it is empty.  Sent by an admin, it is never refused for a
    missing field: create-widget refuses it only with status 400 for one
    of the selected properties that has no mapping for the selected device
    type. *)
Theorem wizard_request_passes_validation s body st user new_widget new_layout :
  handleCreateWidget s = Some body → role user = "admin" →
  body_deviceTypeId body = selectedDeviceType s
  ∧ body_widgetTypeId body = selectedWidgetType s
  ∧ body_propertyIds body = Some (selectedProperties s)
  ∧ body_displayName body
    = (if decide (widgetName s = EmptyString) then None else Some (widgetName s))
  ∧ match (create_widget st user body new_widget new_layout).1 with
    | Refused status message =>
        status = 400
        ∧ ∃ propId deviceTypeId,
            propId ∈ selectedProperties s
            ∧ selectedDeviceType s = Some deviceTypeId
            ∧ message = "Property with ID " +:+ pretty propId +:+
                        " not found for device type " +:+ pretty deviceTypeId
            ∧ ∀ mapping, mapping ∈ device_data_mapping st →
                         m_id mapping = propId →
                         m_device_type_id mapping ≠ deviceTypeId
    | Success _ _ | Failed _ _ => True
    end.
Proof.
  unfold handleCreateWidget. intros Hbody Hrole.
  destruct (truthy_string (token s)) as [?|]; [|done].
  destruct (truthy_number (selectedDeviceType s)) as [deviceType|] eqn:Hd;
    [|done].
  destruct (truthy_string (selectedWidgetType s)) as [widgetType|] eqn:Hw;
    [|done].
  destruct (selectedProperties s) as [|propId propIds] eqn:Hp; [done|].
  injection Hbody as <-.
  pose proof (truthy_number_Some _ _ Hd) as [Hd' _].
  pose proof (truthy_string_Some _ _ Hw) as [Hw' _].
  rewrite Hd' in Hd. rewrite Hw' in Hw.
  split_and!; try done.
  { simpl. by destruct (widgetName s). }
  rewrite create_widget_unfold.
  cbn [body_deviceTypeId body_widgetTypeId body_propertyIds body_displayName].
  rewrite Hd, Hw, decide_False by (by intros Hne).
  destruct (specs_of _ (propId :: propIds) st) as [missing|specs] eqn:Hspecs.
  - apply specs_of_inl in Hspecs as [? ?]. simpl. split; [done|].
    exists missing, deviceType. by split_and!.
  - cbn zeta. repeat (case_match || case_decide); done.
Qed.

Lemma wizard_request_passes_validation_witness :
  body_deviceTypeId AdminExamples.flow_chart
  = selectedDeviceType AdminExamples.wizard
  ∧ body_widgetTypeId AdminExamples.flow_chart
    = selectedWidgetType AdminExamples.wizard
  ∧ body_propertyIds AdminExamples.flow_chart
    = Some (selectedProperties AdminExamples.wizard)
  ∧ body_displayName AdminExamples.flow_chart
    = (if decide (widgetName AdminExamples.wizard = EmptyString)
       then None else Some (widgetName AdminExamples.wizard))
  ∧ match (create_widget AdminExamples.store AdminExamples.admin
             AdminExamples.flow_chart Examples.w9 "l9").1 with
    | Refused status message =>
        status = 400
        ∧ ∃ propId deviceTypeId,
            propId ∈ selectedProperties AdminExamples.wizard
            ∧ selectedDeviceType AdminExamples.wizard = Some deviceTypeId
            ∧ message = "Property with ID " +:+ pretty propId +:+
                        " not found for device type " +:+ pretty deviceTypeId
            ∧ ∀ mapping, mapping ∈ device_data_mapping AdminExamples.store →
                         m_id mapping = propId →
                         m_device_type_id mapping ≠ deviceTypeId
    | Success _ _ | Failed _ _ => True
    end.
Proof.
  apply (wizard_request_passes_validation AdminExamples.wizard
           AdminExamples.flow_chart AdminExamples.store AdminExamples.admin
           Examples.w9 "l9").
  - reflexivity.
  - reflexivity.
Defined.

End wizard_facts.

Section chart_request.
Import Pg Widgets Wizard.

Lemma history_up_to_limit_bounds db req cfg s window n e :
  limit_param req = Js.Num n →
  Spec.history_up_to_limit db req cfg s window e →
  (length (data e) ≤ Z.to_nat n)%nat
  ∧ ∀ i, window = Some i → Forall (λ p, now db - i ≤ dp_timestamp p) (data e).
Proof.
  intros Hn (n' & all & Hn' & Hall & _ & Hpoints).
  rewrite Hn in Hn'. injection Hn' as <-. split.
  - rewrite (Forall2_length _ _ _ Hpoints), length_take. lia.
  - intros i ->.
    apply (proj1 (Forall_fmap dp_timestamp (λ t, now db - i ≤ t) (data e))).
    rewrite (computed_from_timestamp _ _ _ Hpoints).
    apply Forall_fmap, Forall_take, Forall_forall. intros j Hj. simpl.
    rewrite Hall in Hj. apply list_elem_of_filter in Hj as [Hw _].
    by destruct Hw as (_ & _ & ? & _).
Qed.

Lemma strip_prefix_app p s : strip_prefix p (p +:+ s) = Some s.
Proof.
  induction p as [|a p IH]; simpl; [by destruct s|]. by rewrite decide_True.
Qed.

Lemma span_unreserved_app id c rest :
  Forall (λ a, unreserved a = true) (String.list_ascii_of_string id) →
  unreserved c = false →
  span_unreserved (id +:+ String c rest) = (id, String c rest).
Proof.
  intros Hid Hc. induction id as [|a id IH]; simpl in *.
  - by rewrite Hc.
  - apply Forall_cons in Hid as [-> Hid]. by rewrite IH.
Qed.

(** X14.  What the chart asks for and gets, for a widget id made of
    unreserved characters (as the text of a [uuid] is), not a dot segment
    and of at most 255 characters: the URL it fetches reaches the handler
    as a request for that widget which names, for each of the chart's three
    time ranges, the window of 24 hours, 7 days or 30 days and the limit
    200, and no hierarchy node or device; every series of a successful
    response to it has at most 200 points, none of them older than the
    window. *)
Theorem chart_request_is_bounded token widgetId t url companyId db :
  loadWidgetData token widgetId t = Some url →
  Forall (λ a, unreserved a = true) (String.list_ascii_of_string widgetId) →
  widgetId ∉ ["."; ".."] →
  (String.length widgetId ≤ 255)%nat →
  ∃ req,
    received url companyId = Some req
    ∧ params_widgetId req = widgetId
    ∧ user_company_id req = companyId
    ∧ limit_param req = Js.Num 200
    ∧ window_param req
      = Some (match t with
              | one_day => 24 * hour
              | seven_days => 7 * day
              | one_month => 30 * day
              end)
    ∧ query_hierarchyId req = None ∧ query_deviceId req = None
    ∧ match (widget_data db req).1 with
      | Json200 seriesData _ _ =>
          ∀ name e, seriesData !! name = Some e →
            (length (data e) ≤ 200)%nat
            ∧ Forall (λ p, now db - match t with
                                    | one_day => 24 * hour
                                    | seven_days => 7 * day
                                    | one_month => 30 * day
                                    end ≤ dp_timestamp p) (data e)
      | _ => True
      end.
Proof.
  unfold loadWidgetData.
  destruct (Admin.truthy_string token) as [?|]; [|done].
  destruct (Admin.truthy_string (Some widgetId)) as [widgetId'|] eqn:Hw; [|done].
  apply truthy_string_Some in Hw as [[= <-] Hne].
  intros [= <-] Hid Hdot Hlen.
  set (req := {| params_widgetId := widgetId;
                 query_limit := Some "200";
                 query_timeRange := Some (timeRangeMap t);
                 query_hierarchyId := None;
                 query_deviceId := None;
                 user_company_id := companyId |}).
  assert (Hreceived :
    received ("http://localhost:5000/api/widgets/widget-data/" +:+ widgetId +:+
              "?timeRange=" +:+ timeRangeMap t +:+ "&limit=200") companyId
    = Some req).
  { unfold received. rewrite strip_prefix_app. cbn [mbind option_bind].
    change ("?timeRange=" +:+ timeRangeMap t +:+ "&limit=200")
      with (String "?" ("timeRange=" +:+ timeRangeMap t +:+ "&limit=200")).
    rewrite (span_unreserved_app widgetId) by done.
    change (String "?" ("timeRange=" +:+ timeRangeMap t +:+ "&limit=200"))
      with ("?timeRange=" +:+ timeRangeMap t +:+ "&limit=200").
    rewrite strip_prefix_app. cbn [mbind option_bind].
    assert (Hrest :
      span_unreserved (timeRangeMap t +:+ "&limit=200")
      = (timeRangeMap t, "&limit=200")) by (by destruct t).
    rewrite Hrest. clear Hrest.
    change (strip_prefix "&limit=" "&limit=200") with (Some "200").
    cbn [mbind option_bind].
    change (span_unreserved "200") with ("200", EmptyString).
    cbv beta iota. rewrite decide_True; [done|]. split_and!; [done| |done].
    intros [->|Hin]%elem_of_cons; [done|by apply Hdot]. }
  exists req. split; [exact Hreceived|].
  assert (Hlimit : limit_param req = Js.Num 200) by done.
  assert (Hwindow : window_param req
          = Some (match t with
                  | one_day => 24 * hour
                  | seven_days => 7 * day
                  | one_month => 30 * day
                  end)) by (by destruct t).
  split_and!; try done.
  destruct (widget_data db req).1 as [seriesData config msg| |] eqn:Hr; [|done..].
  intros name e He.
  destruct (widget_data_entry_points _ _ _ _ _ _ _ Hr He)
    as (cfg & series & s' & _ & _ & _ & _ & _ & _ & Hh).
  destruct (history_up_to_limit_bounds _ _ _ _ _ _ _ Hlimit Hh) as [? Hold].
  split; [done|]. apply Hold. exact Hwindow.
Qed.

(** The chart of widget [w1], set to seven days. *)
Lemma chart_request_is_bounded_witness :
  ∃ req,
    received
      "http://localhost:5000/api/widgets/widget-data/6f1c2a40-0000-4000-8000-000000000001?timeRange=7d&limit=200"
      10 = Some req
    ∧ params_widgetId req = Examples.w1
    ∧ user_company_id req = 10
    ∧ limit_param req = Js.Num 200
    ∧ window_param req = Some (7 * day)
    ∧ query_hierarchyId req = None ∧ query_deviceId req = None
    ∧ match (widget_data (Examples.store Examples.readings AfterLimit) req).1 with
      | Json200 seriesData _ _ =>
          ∀ name e, seriesData !! name = Some e →
            (length (data e) ≤ 200)%nat
            ∧ Forall (λ p, now (Examples.store Examples.readings AfterLimit)
                           - 7 * day ≤ dp_timestamp p) (data e)
      | _ => True
      end.
Proof.
  apply (chart_request_is_bounded (Some "jwt") Examples.w1 seven_days
           "http://localhost:5000/api/widgets/widget-data/6f1c2a40-0000-4000-8000-000000000001?timeRange=7d&limit=200"
           10 (Examples.store Examples.readings AfterLimit)).
  - reflexivity.
  - apply (bool_decide_unpack _). by vm_compute.
  - apply (bool_decide_unpack _). by vm_compute.
  - simpl. lia.
Defined.

Lemma maxValue_point (chartData : list Chart.row) key m :
  let m' := foldl (λ maxValue (point : Chart.row),
                     match point !! key with
                     | Some v => if decide (v > maxValue) then v else maxValue
                     | None => maxValue
                     end) m chartData in
  m ≤ m'
  ∧ (∀ point v, point ∈ chartData → point !! key = Some v → v ≤ m')
  ∧ (m' = m ∨ ∃ point, point ∈ chartData ∧ point !! key = Some m').
Proof.
  revert m. induction chartData as [|point chartData IH]; intros m; simpl.
  - split_and!; [done| |by left]. by intros ?? ?%elem_of_nil.
  - set (m1 := match point !! key with Some v => _ | None => m end).
    destruct (IH m1) as (Hle & Hall & Hmax).
    assert (Hm1 : m ≤ m1 ∧ (∀ v, point !! key = Some v → v ≤ m1)
                  ∧ (m1 = m ∨ point !! key = Some m1)).
    { unfold m1. destruct (point !! key) as [v|].
      - destruct (decide (v > m)); split_and!; auto; try lia;
          intros ? [= <-]; lia.
      - split_and!; [done|done|by left]. }
    destruct Hm1 as (? & Hv & Hm1). split_and!; [lia| |].
    + intros p v [->|Hp]%elem_of_cons Hpv; [|by eapply Hall].
      specialize (Hv _ Hpv). lia.
    + destruct Hmax as [->|(p & ? & ?)].
      * destruct Hm1 as [->|?]; [by left|]. right. exists point. split; [left|done].
      * right. exists p. split; [by right|done].
Qed.

(** X15.  The largest value that the chart's axis is scaled to is never
    negative and is at least every value plotted for a series key; it is 0
    or the value of some plotted point. *)
Theorem maxValue_bounds chartData seriesKeys :
  0 ≤ maxValue chartData seriesKeys
  ∧ (∀ point key v, point ∈ chartData → key ∈ seriesKeys →
                    point !! key = Some v → v ≤ maxValue chartData seriesKeys)
  ∧ (maxValue chartData seriesKeys = 0
     ∨ ∃ point key, point ∈ chartData ∧ key ∈ seriesKeys
                    ∧ point !! key = Some (maxValue chartData seriesKeys)).
Proof.
  unfold maxValue.
  assert (Hgen : ∀ m,
    let m' := foldl (λ maxValue key,
                foldl (λ maxValue (point : Chart.row),
                         match point !! key with
                         | Some v => if decide (v > maxValue) then v else maxValue
                         | None => maxValue
                         end) maxValue chartData) m seriesKeys in
    m ≤ m'
    ∧ (∀ point key v, point ∈ chartData → key ∈ seriesKeys →
                      point !! key = Some v → v ≤ m')
    ∧ (m' = m ∨ ∃ point key, point ∈ chartData ∧ key ∈ seriesKeys
                             ∧ point !! key = Some m')).
  { induction seriesKeys as [|key seriesKeys IH]; intros m; simpl.
    - split_and!; [done| |by left]. by intros ??? _ ?%elem_of_nil.
    - destruct (maxValue_point chartData key m) as (Hle & Hall & Hmax).
      set (m1 := foldl _ m chartData) in *.
      destruct (IH m1) as (Hle' & Hall' & Hmax'). split_and!; [lia| |].
      + intros p k v Hp [->|Hk]%elem_of_cons Hpv; [|by eapply Hall'].
        specialize (Hall _ _ Hp Hpv). lia.
      + destruct Hmax' as [->|(p & k & ? & ? & ?)].
        * destruct Hmax as [->|(p & ? & ?)]; [by left|].
          right. exists p, key. split_and!; [done|left|done].
        * right. exists p, k. split_and!; [done|by right|done]. }
  exact (Hgen 0).
Qed.

End chart_request.

(** ** More on the telemetry handlers *)

Section telemetry_facts.
Import Pg Widgets.

(** A loop that fails has sent the statements of the series up to the one
    whose statement failed, all of which succeeded before it. *)
Lemma for_of_load_series_Err db req cfg series acc tr e tr' :
  for_of series (load_series db req cfg) acc tr = (Err e, tr') →
  ∃ before s after,
    series = before ++ s :: after
    ∧ tr' = tr ++ (statement_of req cfg <$> before ++ [s])
    ∧ fetch db req cfg s = Err e
    ∧ Forall (λ s', ∃ rows, fetch db req cfg s' = Ok rows) before.
Proof.
  revert acc tr; induction series as [|s series IH]; intros acc tr; [done|].
  rewrite for_of_load_series_cons.
  destruct (fetch db req cfg s) as [rows|e'] eqn:Hs.
  - intros (before & s' & after & -> & -> & ? & ?)%IH.
    exists (s :: before), s', after. split_and!; try done.
    + by rewrite <-app_assoc.
    + constructor; [by exists rows|done].
  - intros [= <- <-]. exists [], s, series. by split_and!.
Qed.

(** X16.  The widget-data handler first looks the widget up and then sends
    one telemetry statement per configured series, in the order of the
    configuration, each for the caller's company, the widget's device type
    and the limit and window of the request.  It sends none when the
    lookup finds no widget, and none when the lookup itself fails, which it
    does for a [widgetId] that is not the text of a [uuid]: the response is
    then the 500 response with the error of the lookup.  Otherwise it
    stops at the first series statement that fails: the response is then
    the 500 response with that statement's error, and it carries no data of
    the series fetched before. *)
Theorem widget_data_statements db req :
  ∃ sent,
    (widget_data db req).2
    = SelectWidgetDefinition (params_widgetId req) :: sent
    ∧ match (widget_data db req).1 with
      | Json404 _ =>
          sent = []
          ∧ ∃ id, uuid_in (params_widgetId req) = Ok id ∧ widgetQuery db id = []
      | Json200 _ config _ =>
          ∃ cfg, config = Some cfg
                 ∧ sent = statement_of req cfg <$> default [] (seriesConfig cfg)
      | Json500 message e =>
          message = "Failed to fetch widget data"
          ∧ (sent = [] ∧ uuid_in (params_widgetId req) = Err e
             ∨ ∃ id widget rest before s after,
                 uuid_in (params_widgetId req) = Ok id
                 ∧ widgetQuery db id = widget :: rest
                 ∧ seriesConfig (wd_data_source_config widget.1)
                   = Some (before ++ s :: after)
                 ∧ sent = statement_of req (wd_data_source_config widget.1)
                            <$> before ++ [s]
                 ∧ fetch db req (wd_data_source_config widget.1) s = Err e
                 ∧ Forall (λ s', ∃ rows,
                             fetch db req (wd_data_source_config widget.1) s'
                             = Ok rows) before)
      end.
Proof.
  rewrite widget_data_unfold. cbn zeta. unfold widgetLookup.
  destruct (uuid_in (params_widgetId req)) as [id|e0] eqn:Hid; simpl.
  2:{ exists []. split; [done|]. split; [done|]. by left. }
  destruct (widgetQuery _ _) as [|widget rest] eqn:Hq.
  { exists []. split; [done|]. split; [done|]. by exists id. }
  set (cfg := wd_data_source_config widget.1).
  destruct (seriesConfig cfg) as [[|s0 series]|] eqn:Hcfg.
  - exists []. split; [done|]. exists cfg. by rewrite Hcfg.
  - destruct (for_of _ _ _ _) as [[seriesData|e] tr] eqn:Hloop.
    + destruct (for_of_load_series_trace _ _ _ _ _ _ _ _ Hloop)
        as (sent & _ & -> & Hall).
      exists (statement_of req cfg <$> sent). split; [done|].
      exists cfg. by rewrite Hcfg, (Hall seriesData eq_refl).
    + apply for_of_load_series_Err in Hloop
        as (before & s & after & Hseries & -> & ? & ?).
      eexists. split; [done|]. simpl. split; [done|]. right.
      exists id, widget, rest, before, s, after. split_and!; try done.
      fold cfg. by rewrite Hcfg, Hseries.
  - exists []. split; [done|]. exists cfg. by rewrite Hcfg.
Qed.


#[local] Instance updated_at_ge_total : Total updated_at_ge.
Proof. intros a b; unfold updated_at_ge; lia. Qed.




End telemetry_facts.

(** ** More on the chart normalizer *)

Section chart_shape.
Import Chart.
Implicit Types (dm : list (Z * row)) (es : list (string * SeriesData)).

(** X18.  For series with pairwise distinct names, none of them
    [timestamp] or [__proto__], the normalizer returns the names in the order of the
    input and the unit of every series; its rows are in strictly ascending
    order of instant, the instants of the rows are exactly those at which
    some series has a point, and every row has under each series' name the
    value of that series at the row's instant, and no column for a series
    without a point there. *)
Theorem formatChartData_one_row_per_instant seriesData :
  NoDup seriesData.*1 → "timestamp" ∉ seriesData.*1 →
  "__proto__" ∉ seriesData.*1 →
  chart_keys (formatChartData seriesData) = seriesData.*1
  ∧ (∀ name series, (name, series) ∈ seriesData →
       chart_units (formatChartData seriesData) !! name = Some (unit series))
  ∧ StronglySorted Z.lt
      (Spec.instant <$> chart_data (formatChartData seriesData))
  ∧ (∀ t, t ∈ Spec.instant <$> chart_data (formatChartData seriesData) ↔
          ∃ name series p,
            (name, series) ∈ seriesData ∧ p ∈ data series ∧ timestamp p = t)
  ∧ Forall (λ r, Spec.row_of seriesData (Spec.instant r) r)
           (chart_data (formatChartData seriesData)).
Proof.
  intros Hnd Hts Hproto.
  destruct (formatChartData_rows seriesData Hnd Hts Hproto)
    as (Hkeys & Hunits & _ & ts & Hsorted & Hmem & Hrows).
  assert (Hinstants : Spec.instant <$> chart_data (formatChartData seriesData)
                      = ts).
  { clear Hsorted Hmem.
    induction Hrows as [|t r ts rows (Ht & _) _ IH]; csimpl; [done|].
    unfold Spec.instant at 1. by rewrite Ht, IH. }
  rewrite Hinstants. split_and!; try done.
  clear Hsorted Hmem Hinstants.
  induction Hrows as [|t r ts rows Hr _ IH]; constructor; [|done].
  unfold Spec.instant. by rewrite (proj1 Hr).
Qed.

Lemma formatChartData_one_row_per_instant_witness :
  chart_keys (formatChartData (Examples.series_a_b 1000 2000))
  = (Examples.series_a_b 1000 2000).*1
  ∧ (∀ name series, (name, series) ∈ Examples.series_a_b 1000 2000 →
       chart_units (formatChartData (Examples.series_a_b 1000 2000)) !! name
       = Some (unit series))
  ∧ StronglySorted Z.lt
      (Spec.instant <$>
         chart_data (formatChartData (Examples.series_a_b 1000 2000)))
  ∧ (∀ t, t ∈ Spec.instant <$>
                chart_data (formatChartData (Examples.series_a_b 1000 2000)) ↔
          ∃ name series p,
            (name, series) ∈ Examples.series_a_b 1000 2000
            ∧ p ∈ data series ∧ timestamp p = t)
  ∧ Forall (λ r, Spec.row_of (Examples.series_a_b 1000 2000) (Spec.instant r) r)
           (chart_data (formatChartData (Examples.series_a_b 1000 2000))).
Proof.
  apply (formatChartData_one_row_per_instant (Examples.series_a_b 1000 2000)).
  - apply (bool_decide_unpack _). vm_compute. reflexivity.
  - apply (bool_decide_unpack _). vm_compute. reflexivity.
  - apply (bool_decide_unpack _). vm_compute. reflexivity.
Defined.

(** What one series adds to [dataMap], whatever its name. *)
Lemma foldl_add_point_shape name pts dm :
  NoDup dm.*1 →
  (∀ k r, (k, r) ∈ dm → is_Some (r !! "timestamp")) →
  NoDup (foldl (add_point name) dm pts).*1
  ∧ (∀ k, k ∈ (foldl (add_point name) dm pts).*1 ↔
          k ∈ dm.*1 ∨ k ∈ timestamp <$> pts)
  ∧ (∀ k r, (k, r) ∈ foldl (add_point name) dm pts →
            is_Some (r !! "timestamp")).
Proof.
  intros Hnd Hts.
  pose proof (keys_foldl_add_point name pts dm Hnd) as Hnd'.
  assert (Hlast : ∀ k, is_Some (last (filter (λ p, timestamp p = k) pts))
                       ↔ k ∈ timestamp <$> pts).
  { intros k. rewrite <-not_eq_None_Some, last_None. split.
    - intros Hne. destruct (filter _ pts) as [|p l] eqn:Hf; [done|].
      assert (p ∈ filter (λ p, timestamp p = k) pts) as Hp by (rewrite Hf; left).
      apply list_elem_of_filter in Hp as [<- ?]. by apply list_elem_of_fmap_2.
    - intros (p & -> & Hp)%list_elem_of_fmap Hnil.
      by apply (filter_nil_not_elem_of _ _ p Hnil). }
  split_and!; [done| |].
  - intros k. specialize (Hlast k).
    pose proof (get_foldl_add_point name pts dm k) as Hget.
    destruct (last _) as [p|]; simpl in Hget.
    + split; [intros _; right; apply Hlast; by eexists|].
      intros _. apply dec_stable. intros Hk%get_None. congruence.
    + assert (k ∉ timestamp <$> pts) as Hk.
      { intros [? ?]%Hlast. done. }
      split.
      * intros Hin. left. apply dec_stable. intros Hout%get_None.
        rewrite Hout in Hget. by apply get_None in Hget.
      * intros [Hin|?]; [|done]. apply dec_stable. intros Hout%get_None.
        rewrite Hout in Hget. symmetry in Hget. by apply get_None in Hget.
  - intros k r Hin. apply (get_Some _ _ _ Hnd') in Hin.
    rewrite get_foldl_add_point in Hin.
    destruct (value <$> last _) as [v|].
    + injection Hin as <-. rewrite lookup_assign.
      destruct (decide (name = "timestamp" ∧ _)); [by eexists|].
      destruct (get k dm) as [r|] eqn:Hr; simpl.
      * apply (get_Some _ _ _ Hnd) in Hr. by eapply Hts.
      * rewrite lookup_singleton_eq. by eexists.
    + apply (get_Some _ _ _ Hnd) in Hin. by eapply Hts.
Qed.

Lemma foldl_add_series_shape es st :
  NoDup (dataMap st).*1 →
  (∀ k r, (k, r) ∈ dataMap st → is_Some (r !! "timestamp")) →
  NoDup (dataMap (foldl add_series st es)).*1
  ∧ (∀ k, k ∈ (dataMap (foldl add_series st es)).*1 ↔
          k ∈ (dataMap st).*1
          ∨ k ∈ (es.*2 ≫= λ series, timestamp <$> data series))
  ∧ (∀ k r, (k, r) ∈ dataMap (foldl add_series st es) →
            is_Some (r !! "timestamp")).
Proof.
  revert st. induction es as [|[name series] es IH]; intros st Hnd Hts.
  - simpl. split_and!; [done| |done].
    intros k. split; [by left|]. intros [?|?%elem_of_nil]; done.
  - destruct (foldl_add_point_shape name (data series) (dataMap st) Hnd Hts)
      as (Hnd1 & Hkeys1 & Hts1).
    destruct (IH (add_series st (name, series)) Hnd1 Hts1)
      as (Hnd2 & Hkeys2 & Hts2).
    simpl foldl. split_and!; [done| |done].
    intros k. rewrite Hkeys2. simpl. rewrite Hkeys1. csimpl.
    rewrite elem_of_app. tauto.
Qed.

(** X19.  Whatever the series are called, the normalizer returns their
    names in the order of the input and as many rows as there are distinct
    instants among the points of all series; every row has a [timestamp]
    column, and the rows ascend by it. *)
Theorem formatChartData_shape seriesData :
  chart_keys (formatChartData seriesData) = seriesData.*1
  ∧ length (chart_data (formatChartData seriesData))
    = size (list_to_set
              (seriesData.*2 ≫= λ series, timestamp <$> data series) : gset Z)
  ∧ Forall (λ r : row, is_Some (r !! "timestamp"))
           (chart_data (formatChartData seriesData))
  ∧ Sorted Z.le (Spec.instant <$> chart_data (formatChartData seriesData)).
Proof.
  unfold formatChartData. simpl.
  set (st0 := {| dataMap := []; keys := []; unitsMap := ∅ |}).
  destruct (foldl_add_series_shape seriesData st0) as (Hnd & Hkeys & Hts).
  { constructor. }
  { by intros k r ?%elem_of_nil. }
  set (st := foldl add_series st0 seriesData) in *.
  assert (Hrows : Forall (λ r : row, is_Some (r !! "timestamp"))
                         (sort (dataMap st).*2)).
  { apply Forall_forall. intros r Hr. rewrite sort_Permutation in Hr.
    apply list_elem_of_fmap in Hr as ([k r'] & -> & Hr). by eapply Hts. }
  split_and!.
  - apply keys_foldl_add_series.
  - rewrite sort_Permutation, length_fmap, <-(length_fmap fst).
    rewrite <-(size_list_to_set (C := gset Z)) by done.
    f_equal. apply set_eq. intros k. rewrite !elem_of_list_to_set, Hkeys.
    split; [intros [?%elem_of_nil|?]; done|by right].
  - done.
  - by apply Sorted_instant, sort_Sorted.
Qed.

End chart_shape.

